(** * Risk-intake bot: scoring, draft state machine, back navigation,
      persistence and the daily reminder.

    Shallow embedding of [withnotifications.py].  Every handler of the
    conversation is a function on an explicit [state] (the per-user draft
    [context.user_data], the database, and the trace of calls made to the
    chat transport); an exception that leaves a handler is the [Raised]
    outcome.  A text is held as its UTF-8 bytes, cut into characters where
    the code counts or classifies characters. *)

From stdpp Require Import base option list gmap strings pretty sorting.
From Stdlib Require Import ZArith Lia Ascii.

Open Scope Z_scope.

(** ** Scoring module *)

Definition PROBABILITY_MAPPING : gmap Z Z :=
  list_to_map [(1, 10); (2, 15); (3, 27); (4, 47); (5, 60)].

Definition get_cost_score (cost_impact : Z) : Z :=
  if cost_impact <? 100 then 1
  else if cost_impact <? 200 then 2
  else if cost_impact <? 500 then 3
  else if cost_impact <? 1000 then 4
  else 5.

Definition get_schedule_score (schedule_impact : Z) : Z :=
  if schedule_impact <? 14 then 1
  else if schedule_impact <? 45 then 2
  else if schedule_impact <? 90 then 3
  else if schedule_impact <? 150 then 4
  else 5.

Definition get_probability_score (probability : Z) : Z :=
  if probability <? 10 then 1
  else if probability <? 20 then 2
  else if probability <? 50 then 3
  else if probability <? 75 then 4
  else 5.

(** ** Python values, strings and exceptions *)

Inductive value :=
  | VInt (n : Z)
  | VStr (s : string)
  | VBool (b : bool).

#[global] Instance value_eq_dec : EqDecision value.
Proof. solve_decision. Defined.

(** Truth value of [d.get(k)]: a missing key gives [None], which is false. *)
Definition truthy (v : option value) : bool :=
  match v with
  | None => false
  | Some (VInt n) => negb (n =? 0)
  | Some (VStr s) => negb (String.eqb s "")
  | Some (VBool b) => b
  end.

(** The integer an arithmetic comparison sees; a [str] operand is a
    [TypeError]. *)
Definition as_int (v : value) : option Z :=
  match v with
  | VInt n => Some n
  | VBool b => Some (if b then 1 else 0)
  | VStr _ => None
  end.

(** [str(x)] as an f-string renders it. *)
Definition py_str (v : option value) : string :=
  match v with
  | None => "None"
  | Some (VInt n) => pretty n
  | Some (VStr s) => s
  | Some (VBool true) => "True"
  | Some (VBool false) => "False"
  end.

Inductive exn :=
  | ValueError (msg : string)
  | TypeError
  | AttributeError
  | IndexError.

Definition nl : string := String "010"%char EmptyString.

(** ** Text

    A [str] is held as its UTF-8 bytes, and [chars] cuts it into its
    characters.  A byte that begins no sequence of the right length is a
    character of its own; no [str] has one. *)

Definition byte (b : ascii) : N := N_of_ascii b.

Definition is_continuation (b : ascii) : bool := ((128 <=? byte b) && (byte b <? 192))%N.

Fixpoint chars (s : string) : list string :=
  match s with
  | EmptyString => []
  | String b0 r0 =>
      if (byte b0 <? 194)%N then String b0 "" :: chars r0
      else
        match r0 with
        | String b1 r1 =>
            if negb (is_continuation b1) then String b0 "" :: chars r0
            else if (byte b0 <? 224)%N then String b0 (String b1 "") :: chars r1
            else
              match r1 with
              | String b2 r2 =>
                  if negb (is_continuation b2) then String b0 "" :: chars r0
                  else if (byte b0 <? 240)%N
                  then String b0 (String b1 (String b2 "")) :: chars r2
                  else
                    match r2 with
                    | String b3 r3 =>
                        if is_continuation b3 && (byte b0 <? 245)%N
                        then String b0 (String b1 (String b2 (String b3 ""))) :: chars r3
                        else String b0 "" :: chars r0
                    | EmptyString => String b0 "" :: chars r0
                    end
              | EmptyString => String b0 "" :: chars r0
              end
        | EmptyString => String b0 "" :: chars r0
        end
  end.

(** The code point of a character; [None] for bytes that encode none. *)
Definition code_point (c : string) : option N :=
  match c with
  | String b0 EmptyString => if (byte b0 <? 128)%N then Some (byte b0) else None
  | String b0 (String b1 EmptyString) =>
      if (194 <=? byte b0)%N && (byte b0 <? 224)%N && is_continuation b1
      then Some ((byte b0 - 192) * 64 + (byte b1 - 128))%N
      else None
  | String b0 (String b1 (String b2 EmptyString)) =>
      let n := ((byte b0 - 224) * 4096 + (byte b1 - 128) * 64 + (byte b2 - 128))%N in
      if (224 <=? byte b0)%N && (byte b0 <? 240)%N && is_continuation b1
         && is_continuation b2 && (2048 <=? n)%N && negb ((55296 <=? n)%N && (n <? 57344)%N)
      then Some n
      else None
  | String b0 (String b1 (String b2 (String b3 EmptyString))) =>
      let n := ((byte b0 - 240) * 262144 + (byte b1 - 128) * 4096
                + (byte b2 - 128) * 64 + (byte b3 - 128))%N in
      if (240 <=? byte b0)%N && (byte b0 <? 245)%N && is_continuation b1
         && is_continuation b2 && is_continuation b3
         && (65536 <=? n)%N && (n <? 1114112)%N
      then Some n
      else None
  | _ => None
  end.

(** [len(s)] and [s[:n]] count characters. *)
Definition py_len (s : string) : Z := Z.of_nat (length (chars s)).

(** The text that a list of characters spells. *)
Definition text_of (cs : list string) : string := foldr String.append "" cs.

Definition py_slice_to (n : nat) (s : string) : string := text_of (take n (chars s)).

(** The decimal digits: the characters [\d] matches and [int] reads.  The
    ten digits of a script follow one another, so the table holds the code
    point of each script's zero (Unicode 14.0, the database of
    CPython 3.11). *)
Definition DECIMAL_ZEROS : list N :=
  [48; 1632; 1776; 1984; 2406; 2534; 2662; 2790; 2918; 3046; 3174; 3302; 3430; 3558;
   3664; 3792; 3872; 4160; 4240; 6112; 6160; 6470; 6608; 6784; 6800; 6992; 7088; 7232;
   7248; 42528; 43216; 43264; 43472; 43504; 43600; 44016; 65296; 66720; 68912; 69734;
   69872; 69942; 70096; 70384; 70736; 70864; 71248; 71360; 71472; 71904; 72016; 72784;
   73040; 73120; 92768; 92864; 93008; 120782; 120792; 120802; 120812; 120822; 123200;
   123632; 125264; 130032]%N.

Definition decimal (n : N) : option Z :=
  (λ zero, Z.of_N (n - zero)) <$>
    find (λ zero, (zero <=? n)%N && (n <=? zero + 9)%N) DECIMAL_ZEROS.

Definition is_digit (c : string) : bool :=
  match code_point c ≫= decimal with
  | Some _ => true
  | None => false
  end.

Definition digit_value (c : string) : Z := default 0 (code_point c ≫= decimal).

(** The white space [int] passes over at both ends of a literal: the
    ASCII characters tab to carriage return and the space, and the white
    space beyond ASCII.  The separators U+001C to U+001F are not among
    them. *)
Definition INT_SPACES : list N :=
  [9; 10; 11; 12; 13; 32; 133; 160; 5760; 8192; 8193; 8194; 8195; 8196; 8197; 8198; 8199;
   8200; 8201; 8202; 8232; 8233; 8239; 8287; 12288]%N.

Definition is_int_space (c : string) : bool :=
  match code_point c with
  | Some n => bool_decide (n ∈ INT_SPACES)
  | None => false
  end.

(** ** [int(s)] *)

Definition INT_MAX_STR_DIGITS : nat := 4300.

Definition invalid_literal : exn := ValueError "invalid literal for int() with base 10".

Definition too_many_digits (count : nat) : exn :=
  ValueError ("Exceeds the limit (4300 digits) for integer string conversion: value has "
              +:+ pretty count
              +:+ " digits; use sys.set_int_max_str_digits() to increase the limit").

(** The digits at the head of a literal, with single underscores between
    them: their value, their number and what follows them. *)
Fixpoint scan_digits (acc : Z) (count : nat) (after_digit : bool) (cs : list string)
    : option (Z * nat * list string) :=
  match cs with
  | [] => if after_digit then Some (acc, count, []) else None
  | c :: r =>
      if is_digit c then scan_digits (10 * acc + digit_value c) (S count) true r
      else if String.eqb c "_" then
        if after_digit then scan_digits acc count false r else None
      else if after_digit then Some (acc, count, cs) else None
  end.

Fixpoint lstrip (cs : list string) : list string :=
  match cs with
  | c :: r => if is_int_space c then lstrip r else cs
  | [] => []
  end.

(** [int(s)]: white space, a sign, the digits, white space.  More than
    4300 digits are refused, before what follows them is looked at.  The
    message of an invalid literal goes on with the literal, which is left
    out: no handler shows it. *)
Definition int_literal (s : string) : exn + Z :=
  let cs := lstrip (chars s) in
  let '(negative, cs) :=
    match cs with
    | c :: r =>
        if String.eqb c "-" then (true, r)
        else if String.eqb c "+" then (false, r)
        else (false, cs)
    | [] => (false, [])
    end in
  match scan_digits 0 0 false cs with
  | Some (n, count, rest) =>
      if (INT_MAX_STR_DIGITS <? count)%nat then inl (too_many_digits count)
      else if forallb is_int_space rest then inr (if negative : bool then - n else n)
      else inl invalid_literal
  | None => inl invalid_literal
  end.

(** [int(s)] where only the value matters; [None] is the [ValueError]. *)
Definition py_int (s : string) : option Z :=
  match int_literal s with
  | inr n => Some n
  | inl _ => None
  end.

(** [s.split(sep)] for a one-character separator. *)
Fixpoint split_on (sep : ascii) (s : string) : list string :=
  match s with
  | EmptyString => [EmptyString]
  | String c r =>
      if Ascii.eqb c sep then EmptyString :: split_on sep r
      else match split_on sep r with
           | x :: xs => String c x :: xs
           | [] => [String c EmptyString]
           end
  end.

(** [s.split(sep, 1)[1]]; [None] is the [IndexError]. *)
Fixpoint after_first (sep : ascii) (s : string) : option string :=
  match s with
  | EmptyString => None
  | String c r => if Ascii.eqb c sep then Some r else after_first sep r
  end.

(** ** [re.findall(r'-?\d+', text)]

    The scanner keeps what it has matched of the current token: nothing,
    a pending minus sign, or a sign and digits.  A digit extends the token,
    a minus closes it and is pending for the next one, anything else closes
    it. *)
Inductive scan :=
  | Idle
  | Minus
  | InToken (tok : string).

Definition scan_step (st : scan) (c : string) : scan * list string :=
  match st with
  | Idle =>
      if is_digit c then (InToken c, [])
      else if String.eqb c "-" then (Minus, [])
      else (Idle, [])
  | Minus =>
      if is_digit c then (InToken ("-" +:+ c), [])
      else if String.eqb c "-" then (Minus, [])
      else (Idle, [])
  | InToken tok =>
      if is_digit c then (InToken (tok +:+ c), [])
      else if String.eqb c "-" then (Minus, [tok])
      else (Idle, [tok])
  end.

Fixpoint findall_from (st : scan) (cs : list string) : list string :=
  match cs with
  | [] => match st with InToken tok => [tok] | _ => [] end
  | c :: r => let '(st', out) := scan_step st c in out ++ findall_from st' r
  end.

Definition findall (text : string) : list string := findall_from Idle (chars text).

Definition parse_three_values (text : string) : exn + (Z * Z * Z) :=
  match findall text with
  | n0 :: n1 :: n2 :: _ =>
      match int_literal n0 with
      | inl e => inl e
      | inr a =>
          match int_literal n1 with
          | inl e => inl e
          | inr b =>
              match int_literal n2 with
              | inl e => inl e
              | inr c => inr (a, b, c)
              end
          end
      end
  | _ => inl (ValueError "Неверный формат. Введите три числа.")
  end.

(** ** Chat transport

    An update carries either a message or a callback query, never both:
    [update.message] is [None] for a button press and
    [update.callback_query] is [None] for a text message. *)

Module User.
Record t := { id : Z; username : option string; full_name : string }.
End User.

Inductive Update :=
  | Message (from_user : User.t) (text : string)
  | CallbackQuery (from_user : User.t) (data : string).

Definition effective_user (update : Update) : User.t :=
  match update with
  | Message u _ => u
  | CallbackQuery u _ => u
  end.

Inductive button :=
  | InlineKeyboardButton (label : string) (callback_data : string).

Abbreviation keyboard := (list (list button)).

(** Calls made to the transport and to the logger, in the order made.  The
    text of a caught exception that the source appends to a log line is
    left out.  [edit_message_markdown] is [edit_message_text] with
    [parse_mode='Markdown']. *)
Inductive action :=
  | answer (alert : option string)
  | reply_text (text : string) (reply_markup : option keyboard)
  | edit_message_text (text : string) (reply_markup : option keyboard)
  | edit_message_markdown (text : string) (reply_markup : option keyboard)
  | send_message (chat_id : Z) (text : string) (reply_markup : option keyboard)
  | log_info (msg : string)
  | log_error (msg : string).

(** ** Database *)

Module risks.
Record row := {
    id : Z;
    user_id : Z;
    username : string;
    phase : option value;
    object : option value;
    category : option value;
    description : option value;
    impact_schedule_min : value;
    impact_schedule_most_likely : value;
    impact_schedule_max : value;
    impact_cost_min : value;
    impact_cost_most_likely : value;
    impact_cost_max : value;
    impact_schedule_min_re : value;
    impact_schedule_most_likely_re : value;
    impact_schedule_max_re : value;
    impact_cost_min_re : value;
    impact_cost_most_likely_re : value;
    impact_cost_max_re : value;
    probability : value;
    probability_re : value;
    risk_score : Z;
    timeline : option value;
    mitigation : option value;
    expected_result : option value;
    reevaluation_needed : value;
    needs_schedule_evaluation : value;
    needs_cost_evaluation : value;
    needs_schedule_evaluation_re : value;
    needs_cost_evaluation_re : value;
    timestamp : string
  }.
End risks.

Module additional_mitigations.
Record row := {
    id : Z;
    risk_id : option value;
    user_id : Z;
    username : string;
    mitigation : option value;
    expected_result : string;
    timestamp : string
  }.
End additional_mitigations.

(** A row of [subscriptions], keyed by [user_id] (the primary key) in the
    table below; [created_at] is never read and is left out. *)
Module subscriptions.
Record row := { is_subscribed : Z; last_notification : option string }.
End subscriptions.

Record database := {
  risks_table : list risks.row;
  risks_seq : Z;
  additional_mitigations_table : list additional_mitigations.row;
  additional_mitigations_seq : Z;
  subscriptions_table : gmap Z subscriptions.row
}.

(** What a handler cannot decide itself: the clock, whether the storage
    engine accepts the next [INSERT], and, for the daily reminder, which
    reads the clock and writes to the storage once more for every user,
    the date it reads before the check and before the mark of a user,
    whether the transport delivers the reminder to that chat, and whether
    the storage engine accepts the [UPDATE] that marks the user.  Reads of
    the storage are taken to succeed. *)
Record environment := {
  now_isoformat : string;
  today_ymd : string;
  today_dmy : string;
  insert_ok : bool;
  send_ok : Z → bool;
  date_at_check : Z → string;
  date_at_update : Z → string;
  update_ok : Z → bool
}.

(** ** Handler state and outcome *)

Record state := {
  user_data : gmap string value;
  db : database;
  sent : list action
}.

Inductive outcome :=
  | Returned (s : state)
  | Raised (e : exn) (s : state).

Definition final (o : outcome) : state :=
  match o with
  | Returned s => s
  | Raised _ s => s
  end.

Definition and_then (o : outcome) (k : state → outcome) : outcome :=
  match o with
  | Returned s => k s
  | Raised e s => Raised e s
  end.

Definition get (key : string) (s : state) : option value :=
  user_data s !! key.

Definition get_default (key : string) (dflt : value) (s : state) : value :=
  default dflt (user_data s !! key).

Definition set (key : string) (v : value) (s : state) : state :=
  {| user_data := <[key := v]> (user_data s); db := db s; sent := sent s |}.

Definition pop (key : string) (s : state) : state :=
  {| user_data := delete key (user_data s); db := db s; sent := sent s |}.

Definition emit (a : action) (s : state) : state :=
  {| user_data := user_data s; db := db s; sent := sent s ++ [a] |}.

Definition with_db (f : database → database) (s : state) : state :=
  {| user_data := user_data s; db := f (db s); sent := sent s |}.

(** [query = update.callback_query; await query.answer()] *)
Definition with_query (update : Update) (s : state)
    (k : string → state → outcome) : outcome :=
  match update with
  | CallbackQuery _ data => k data (emit (answer None) s)
  | Message _ _ => Raised AttributeError s
  end.

(** [update.message.text] *)
Definition with_message (update : Update) (s : state)
    (k : string → state → outcome) : outcome :=
  match update with
  | Message _ text => k text s
  | CallbackQuery _ _ => Raised AttributeError s
  end.

(** [update.message.reply_text(...)] *)
Definition message_reply_text (update : Update) (text : string)
    (reply_markup : option keyboard) (s : state) : outcome :=
  match update with
  | Message _ _ => Returned (emit (reply_text text reply_markup) s)
  | CallbackQuery _ _ => Raised AttributeError s
  end.

(** [update.effective_user.username or update.effective_user.full_name] *)
Definition username_or_full_name (u : User.t) : string :=
  match User.username u with
  | Some n => if String.eqb n "" then User.full_name u else n
  | None => User.full_name u
  end.

(** ** Project configuration *)

Definition PHASES : list string := ["1"; "2"; "3"; "4"; "5"; "Песцовое"; "КПРA"].
Definition OBJECTS : list string :=
  ["Скважины"; "Кустовые площадки"; "Площадочные объекты"; "Линейная часть"; "Другое"].
Definition CATEGORIES : list string :=
  ["Проектное управление"; "Стоимостной инжиниринг"; "ГиР"; "Операционная деятельность";
   "Строительство"; "Закупки"; "Инжиниринг"; "Бурение"; "ПБ"].

Definition create_back_keyboard (back_data : string) : keyboard :=
  [[InlineKeyboardButton "🔙 Вернуться на предыдущий шаг" back_data]].

(** ** Subscriptions *)

Definition update_subscriptions
    (f : gmap Z subscriptions.row → gmap Z subscriptions.row) (d : database) : database :=
  {| risks_table := risks_table d; risks_seq := risks_seq d;
     additional_mitigations_table := additional_mitigations_table d;
     additional_mitigations_seq := additional_mitigations_seq d;
     subscriptions_table := f (subscriptions_table d) |}.

(** [INSERT OR REPLACE INTO subscriptions (user_id, is_subscribed,
    last_notification) VALUES (?, 1, today)] *)
Definition subscribe_user (env : environment) (user_id : Z) (d : database) : database :=
  update_subscriptions
    (insert user_id {| subscriptions.is_subscribed := 1;
                       subscriptions.last_notification := Some (today_ymd env) |}) d.

(** [UPDATE subscriptions SET is_subscribed = 0 WHERE user_id = ?] *)
Definition unsubscribe_user (user_id : Z) (d : database) : database :=
  update_subscriptions
    (alter (λ r, {| subscriptions.is_subscribed := 0;
                    subscriptions.last_notification := subscriptions.last_notification r |})
       user_id) d.

Definition is_subscribed (user_id : Z) (d : database) : bool :=
  match subscriptions_table d !! user_id with
  | Some r => subscriptions.is_subscribed r =? 1
  | None => false
  end.

(** [SELECT user_id FROM subscriptions WHERE is_subscribed = 1]: the rows
    come in the order of the primary key. *)
Definition get_subscribed_users (d : database) : list Z :=
  merge_sort Z.le
    (map_to_list (filter (λ kv, subscriptions.is_subscribed kv.2 = 1)
                    (subscriptions_table d))).*1.

(** ** Main menu and subscription toggle *)

Definition start (update : Update) (s : state) : outcome :=
  let user_id := User.id (effective_user update) in
  (* INSERT OR IGNORE INTO subscriptions (user_id, is_subscribed) VALUES (?, 1) *)
  let s := with_db (update_subscriptions (λ t,
             match t !! user_id with
             | Some _ => t
             | None => <[user_id := {| subscriptions.is_subscribed := 1;
                                       subscriptions.last_notification := None |}]> t
             end)) s in
  let is_subscribed_status := is_subscribed user_id (db s) in
  let subscription_text :=
    if is_subscribed_status then "🔕 Отписаться" else "🔔 Подписаться" in
  let keyboard :=
    [ [InlineKeyboardButton "📢 Сообщить риск" "submit_risk"];
      [InlineKeyboardButton "🔍 Просмотреть риски/мероприятия" "view_risks_list"];
      [InlineKeyboardButton "📊 Отчёт по рискам" "report"];
      [InlineKeyboardButton "💾 Экспорт в Excel" "export_excel"];
      [InlineKeyboardButton subscription_text "toggle_subscription"] ] in
  match update with
  | Message _ _ =>
      Returned (emit (reply_text "Добро пожаловать в Ежедневник рисков проекта!"
                        (Some keyboard)) s)
  | CallbackQuery _ _ =>
      Returned (emit (edit_message_text "Добро пожалов в Ежедневник рисков проекта!"
                        (Some keyboard)) s)
  end.

Definition toggle_subscription (env : environment) (update : Update) (s : state) : outcome :=
  with_query update s (λ _ s,
    let user_id := User.id (effective_user update) in
    let current_status := is_subscribed user_id (db s) in
    let '(s, message) :=
      if current_status
      then (with_db (unsubscribe_user user_id) s, "🔕 Вы отписаны от напоминаний.")
      else (with_db (subscribe_user env user_id) s,
            "🔔 Вы подписаны на ежедневные напоминания!") in
    let s := emit (edit_message_text message None) s in
    start update s).

Definition select_view_phase (update : Update) (s : state) : outcome :=
  with_query update s (λ _ s,
    let keyboard :=
      map (λ phase, [InlineKeyboardButton phase ("view_phase_" +:+ phase)]) PHASES
      ++ [[InlineKeyboardButton "Все фазы" "view_phase_all"]]
      ++ [[InlineKeyboardButton "🔙 Вернуться в меню" "back_to_menu"]] in
    Returned (emit (edit_message_text "Выберите фазу для просмотра рисков:"
                      (Some keyboard)) s)).

(** ** Steps 1 to 4: phase, object, category, description *)

Definition object_keyboard : keyboard :=
  map (λ obj, [InlineKeyboardButton obj ("object_" +:+ obj)]) OBJECTS
  ++ [[InlineKeyboardButton "📝 Ввести свой объект" "custom_object"]]
  ++ [[InlineKeyboardButton "🔙 Вернуться к фазе" "back_to_phase_selection"]].

Definition category_keyboard : keyboard :=
  map (λ cat, [InlineKeyboardButton cat ("cat_" +:+ cat)]) CATEGORIES
  ++ [[InlineKeyboardButton "📝 Ввести свое функциональное направление риска"
         "custom_category"]]
  ++ [[InlineKeyboardButton "🔙 Вернуться к объекту" "back_to_object_selection"]].

Definition schedule_impact_keyboard : keyboard :=
  [ [InlineKeyboardButton "Не влияет на сроки" "no_impact_schedule"];
    [InlineKeyboardButton "Оценить влияние на сроки" "evaluate_schedule_impact"];
    [InlineKeyboardButton "Запросить оценку (Повещенко С., Гиренко В.)"
       "request_schedule_evaluation"];
    [InlineKeyboardButton "🔙 Вернуться к описанию" "back_to_description"] ].

Definition submit_risk_start (update : Update) (s : state) : outcome :=
  with_query update s (λ _ s,
    let keyboard :=
      map (λ phase, [InlineKeyboardButton phase ("phase_" +:+ phase)]) PHASES
      ++ [[InlineKeyboardButton "📝 Ввести свою фазу" "custom_phase"]]
      ++ [[InlineKeyboardButton "🔙 Вернуться в меню" "back_to_menu"]] in
    Returned (emit (edit_message_text "Выберите фазу проекта или введите свою:"
                      (Some keyboard)) s)).

Definition custom_phase_request (update : Update) (s : state) : outcome :=
  with_query update s (λ _ s,
    let s := emit (edit_message_text "Введите название фазы проекта:"
                     (Some (create_back_keyboard "back_to_phase_selection"))) s in
    Returned (set "awaiting_custom_phase" (VBool true) s)).

Definition handle_custom_phase (update : Update) (s : state) : outcome :=
  if negb (truthy (get "awaiting_custom_phase" s)) then Returned s else
  with_message update s (λ phase s,
    let s := set "phase" (VStr phase) s in
    let s := set "awaiting_custom_phase" (VBool false) s in
    Returned (emit (reply_text
                      ("Фаза: " +:+ phase +:+ nl +:+ "Выберите объект или введите свой:")
                      (Some object_keyboard)) s)).

Definition choose_phase (update : Update) (s : state) : outcome :=
  with_query update s (λ data s,
    match after_first "_" data with
    | None => Raised IndexError s
    | Some phase =>
        let s := set "phase" (VStr phase) s in
        Returned (emit (edit_message_text
                          ("Фаза: " +:+ phase +:+ nl +:+ "Выберите объект или введите свой:")
                          (Some object_keyboard)) s)
    end).

Definition custom_object_request (update : Update) (s : state) : outcome :=
  with_query update s (λ _ s,
    let s := emit (edit_message_text "Введите название объекта:"
                     (Some (create_back_keyboard "back_to_object_selection"))) s in
    Returned (set "awaiting_custom_object" (VBool true) s)).

Definition handle_custom_object (update : Update) (s : state) : outcome :=
  if negb (truthy (get "awaiting_custom_object" s)) then Returned s else
  with_message update s (λ obj s,
    let s := set "object" (VStr obj) s in
    let s := set "awaiting_custom_object" (VBool false) s in
    Returned (emit (reply_text
                      ("Объект: " +:+ obj +:+ nl
                       +:+ "Выберите функциональное направление риска или введите свою:")
                      (Some category_keyboard)) s)).

Definition choose_object (update : Update) (s : state) : outcome :=
  with_query update s (λ data s,
    match after_first "_" data with
    | None => Raised IndexError s
    | Some obj =>
        let s := set "object" (VStr obj) s in
        Returned (emit (edit_message_text
                          ("Объект: " +:+ obj +:+ nl
                           +:+ "Выберите функциональное направление риска или введите свой:")
                          (Some category_keyboard)) s)
    end).

Definition custom_category_request (update : Update) (s : state) : outcome :=
  with_query update s (λ _ s,
    let s := emit (edit_message_text "Введите функциональное направление риска:"
                     (Some (create_back_keyboard "back_to_category_selection"))) s in
    Returned (set "awaiting_custom_category" (VBool true) s)).

Definition handle_custom_category (update : Update) (s : state) : outcome :=
  if negb (truthy (get "awaiting_custom_category" s)) then Returned s else
  with_message update s (λ cat s,
    let s := set "category" (VStr cat) s in
    let s := set "awaiting_custom_category" (VBool false) s in
    let s := emit (reply_text ("Категория: " +:+ cat +:+ nl +:+ "Опишите риск:")
                     (Some (create_back_keyboard "back_to_category_selection"))) s in
    Returned (set "awaiting_description" (VBool true) s)).

Definition choose_category (update : Update) (s : state) : outcome :=
  with_query update s (λ data s,
    match after_first "_" data with
    | None => Raised IndexError s
    | Some cat =>
        let s := set "category" (VStr cat) s in
        let s := emit (edit_message_text ("Категория: " +:+ cat +:+ nl +:+ "Опишите риск:")
                         (Some (create_back_keyboard "back_to_category_selection"))) s in
        Returned (set "awaiting_description" (VBool true) s)
    end).

Definition get_description (update : Update) (s : state) : outcome :=
  if negb (truthy (get "awaiting_description" s)) then Returned s else
  with_message update s (λ description s,
    let s := set "description" (VStr description) s in
    let s := set "awaiting_description" (VBool false) s in
    Returned (emit (reply_text
                      ("Влияние на сроки (оценка без мероприятий, в днях):" +:+ nl
                       +:+ "Выберите вариант:")
                      (Some schedule_impact_keyboard)) s)).

(** ** Steps 5 to 7: schedule impact, cost impact, probability *)

Definition cost_impact_keyboard : keyboard :=
  [ [InlineKeyboardButton "Не влияет на стоимость" "no_impact_cost"];
    [InlineKeyboardButton "Оценить влияние на стоимость" "evaluate_cost_impact"];
    [InlineKeyboardButton "Запросить оценку (Давыдова Е., Борисов А.)"
       "request_cost_evaluation"];
    [InlineKeyboardButton "🔙 Вернуться к срокам" "back_to_schedule_impact"] ].

Definition probability_keyboard : keyboard :=
  [ [InlineKeyboardButton "<10%" "prob_1"];
    [InlineKeyboardButton "10-20%" "prob_2"];
    [InlineKeyboardButton "20-50%" "prob_3"];
    [InlineKeyboardButton "50-75%" "prob_4"];
    [InlineKeyboardButton ">75%" "prob_5"];
    [InlineKeyboardButton "📝 Ввести свою вероятность" "custom_probability"];
    [InlineKeyboardButton "🔙 Вернуться к стоимости" "back_to_cost_impact"] ].

Definition no_impact_schedule (update : Update) (s : state) : outcome :=
  with_query update s (λ _ s,
    let s := set "impact_schedule_min" (VInt 0) s in
    let s := set "impact_schedule_most_likely" (VInt 0) s in
    let s := set "impact_schedule_max" (VInt 0) s in
    let s := set "needs_schedule_evaluation" (VInt 0) s in
    Returned (emit (edit_message_text
                      ("Влияние на стоимость (оценка без мероприятий, в млн.руб.):" +:+ nl
                       +:+ "Выберите вариант:")
                      (Some cost_impact_keyboard)) s)).

Definition request_schedule_evaluation (update : Update) (s : state) : outcome :=
  with_query update s (λ _ s,
    let s := set "needs_schedule_evaluation" (VInt 1) s in
    let s := set "impact_schedule_min" (VInt 0) s in
    let s := set "impact_schedule_most_likely" (VInt 0) s in
    let s := set "impact_schedule_max" (VInt 0) s in
    Returned (emit (edit_message_text
                      ("Влияние на стоимость (оценка без мероприятий, в млн.руб.):" +:+ nl
                       +:+ "Выберите вариант:")
                      (Some cost_impact_keyboard)) s)).

Definition evaluate_schedule_impact (update : Update) (s : state) : outcome :=
  with_query update s (λ _ s,
    let s := set "needs_schedule_evaluation" (VInt 0) s in
    let s := emit (edit_message_text
                     ("Влияние на сроки (оценка без мероприятий):" +:+ nl
                      +:+ "Введите минимальное, наиболее вероятное и максимальное влияние на сроки (в днях), разделенные пробелом, запятой или новой строкой:")
                     (Some (create_back_keyboard "back_to_schedule_impact"))) s in
    Returned (set "awaiting_schedule_values" (VBool true) s)).

(** The four free-text triple steps ([handle_schedule_values],
    [handle_cost_values] and their [_re] twins) are the same code over
    different keys, back target and next prompt. *)
Record triple_step := {
  awaiting_key : string;
  min_key : string;
  most_likely_key : string;
  max_key : string;
  back_data : string;
  next_text : string;
  next_keyboard : keyboard
}.

Definition ordering_error_text : string :=
  "Ошибка: Значения должны быть в порядке возрастания (мин <= вероятно <= макс)." +:+ nl
  +:+ "Пожалуйста, введите значения снова:".

Definition three_numbers_text : string :=
  "Пожалуйста, введите три числа, разделенные пробелом, запятой или новой строкой:".

Definition handle_values (st : triple_step) (update : Update) (s : state) : outcome :=
  if negb (truthy (get (awaiting_key st) s)) then Returned s else
  with_message update s (λ text s,
    match parse_three_values text with
    | inr (min_val, most_likely_val, max_val) =>
        if negb ((min_val <=? most_likely_val) && (most_likely_val <=? max_val)) then
          Returned (emit (reply_text ordering_error_text
                            (Some (create_back_keyboard (back_data st)))) s)
        else
          let s := set (min_key st) (VInt min_val) s in
          let s := set (most_likely_key st) (VInt most_likely_val) s in
          let s := set (max_key st) (VInt max_val) s in
          let s := set (awaiting_key st) (VBool false) s in
          Returned (emit (reply_text (next_text st) (Some (next_keyboard st))) s)
    | inl (ValueError e) =>
        Returned (emit (reply_text (e +:+ nl +:+ three_numbers_text)
                          (Some (create_back_keyboard (back_data st)))) s)
    | inl e => Raised e s
    end).

Definition schedule_values : triple_step :=
  {| awaiting_key := "awaiting_schedule_values";
     min_key := "impact_schedule_min";
     most_likely_key := "impact_schedule_most_likely";
     max_key := "impact_schedule_max";
     back_data := "back_to_schedule_impact";
     next_text := "Влияние на стоимость (оценка без мероприятий):" +:+ nl
                  +:+ "Выберите вариант:";
     next_keyboard := cost_impact_keyboard |}.

Definition handle_schedule_values : Update → state → outcome :=
  handle_values schedule_values.

Definition no_impact_cost (update : Update) (s : state) : outcome :=
  with_query update s (λ _ s,
    let s := set "impact_cost_min" (VInt 0) s in
    let s := set "impact_cost_most_likely" (VInt 0) s in
    let s := set "impact_cost_max" (VInt 0) s in
    let s := set "needs_cost_evaluation" (VInt 0) s in
    Returned (emit (edit_message_text
                      "Оцените вероятность возникновения риска или введите свою:"
                      (Some probability_keyboard)) s)).

Definition request_cost_evaluation (update : Update) (s : state) : outcome :=
  with_query update s (λ _ s,
    let s := set "needs_cost_evaluation" (VInt 1) s in
    let s := set "impact_cost_min" (VInt 0) s in
    let s := set "impact_cost_most_likely" (VInt 0) s in
    let s := set "impact_cost_max" (VInt 0) s in
    Returned (emit (edit_message_text
                      "Оцените вероятность возникновения риска или введите свою:"
                      (Some probability_keyboard)) s)).

Definition evaluate_cost_impact (update : Update) (s : state) : outcome :=
  with_query update s (λ _ s,
    let s := set "needs_cost_evaluation" (VInt 0) s in
    let s := emit (edit_message_text
                     ("Влияние на стоимость (оценка без мероприятий):" +:+ nl
                      +:+ "Введите минимальное, наиболее вероятное и максимальное влияние на стоимость (в млн. руб.), разделенные пробелом, запятой или новой строкой:")
                     (Some (create_back_keyboard "back_to_cost_impact"))) s in
    Returned (set "awaiting_cost_values" (VBool true) s)).

Definition cost_values : triple_step :=
  {| awaiting_key := "awaiting_cost_values";
     min_key := "impact_cost_min";
     most_likely_key := "impact_cost_most_likely";
     max_key := "impact_cost_max";
     back_data := "back_to_cost_impact";
     next_text := "Оцените вероятность возникновения риска или введите свою:";
     next_keyboard := probability_keyboard |}.

Definition handle_cost_values : Update → state → outcome :=
  handle_values cost_values.

Definition custom_probability_request (update : Update) (s : state) : outcome :=
  with_query update s (λ _ s,
    let s := emit (edit_message_text
                     "Введите оценку вероятности (в процентах, от 0 до 100):"
                     (Some (create_back_keyboard "back_to_probability"))) s in
    Returned (set "awaiting_custom_probability" (VBool true) s)).

Definition handle_custom_probability (update : Update) (s : state) : outcome :=
  if negb (truthy (get "awaiting_custom_probability" s)) then Returned s else
  with_message update s (λ text s,
    match py_int text with
    | Some prob =>
        if (prob <? 0) || (prob >? 100) then
          Returned (emit (reply_text "Пожалуйста, введите число от 0 до 100:"
                            (Some (create_back_keyboard "back_to_probability"))) s)
        else
          let s := set "probability" (VInt prob) s in
          let s := set "awaiting_custom_probability" (VBool false) s in
          let s := emit (reply_text "Укажите примерный период реализации риска:"
                           (Some (create_back_keyboard "back_to_probability"))) s in
          Returned (set "awaiting_timeline" (VBool true) s)
    | None =>
        Returned (emit (reply_text "Пожалуйста, введите число от 0 до 100:"
                          (Some (create_back_keyboard "back_to_probability"))) s)
    end).

Definition choose_probability (update : Update) (s : state) : outcome :=
  with_query update s (λ data s,
    if String.prefix "prob_re_" data then Returned s else
    match split_on "_" data !! 1%nat with
    | None => Returned (emit (answer (Some "Ошибка обработки данных")) s)
    | Some level =>
        match py_int level with
        | None => Returned (emit (answer (Some "Ошибка обработки данных")) s)
        | Some prob_level =>
            match PROBABILITY_MAPPING !! prob_level with
            | None => Returned (emit (answer (Some "Неверный уровень вероятности")) s)
            | Some p =>
                let s := set "probability" (VInt p) s in
                let s := emit (edit_message_text
                                 "Укажите примерный период реализации риска:"
                                 (Some (create_back_keyboard "back_to_probability"))) s in
                Returned (set "awaiting_timeline" (VBool true) s)
            end
        end
    end).

(** ** Steps 8 to 11: timeline, mitigation path, mitigation, expected result *)

Definition mitigation_choice_keyboard : keyboard :=
  [ [InlineKeyboardButton "Добавить мероприятие по митигации и внести оценку"
       "add_mitigation_with_evaluation"];
    [InlineKeyboardButton "Заполнить мероприятие по митигации без переоценки"
       "add_mitigation_without_evaluation"];
    [InlineKeyboardButton "🔙 Вернуться к сроку" "back_to_timeline"] ].

Definition handle_timeline (update : Update) (s : state) : outcome :=
  if negb (truthy (get "awaiting_timeline" s)) then Returned s else
  with_message update s (λ timeline s,
    let s := set "timeline" (VStr timeline) s in
    let s := set "awaiting_timeline" (VBool false) s in
    Returned (emit (reply_text "Выберите действие:" (Some mitigation_choice_keyboard)) s)).

Definition add_mitigation_with_evaluation (update : Update) (s : state) : outcome :=
  with_query update s (λ _ s,
    let s := set "reevaluation_needed" (VInt 1) s in
    let s := emit (edit_message_text "Введите мероприятие по митигации риска:"
                     (Some (create_back_keyboard "back_to_mitigation_choice"))) s in
    Returned (set "awaiting_mitigation" (VBool true) s)).

Definition add_mitigation_without_evaluation (update : Update) (s : state) : outcome :=
  with_query update s (λ _ s,
    let s := set "reevaluation_needed" (VInt 0) s in
    let s := emit (edit_message_text "Введите мероприятие по митигации риска:"
                     (Some (create_back_keyboard "back_to_mitigation_choice"))) s in
    Returned (set "awaiting_mitigation" (VBool true) s)).

Definition handle_mitigation (update : Update) (s : state) : outcome :=
  if negb (truthy (get "awaiting_mitigation" s)) then Returned s else
  with_message update s (λ mitigation s,
    let s := set "mitigation" (VStr mitigation) s in
    let s := set "awaiting_mitigation" (VBool false) s in
    let s := emit (reply_text "Ожидаемый результат от мероприятия (опишите текстом):"
                     (Some (create_back_keyboard "back_to_mitigation"))) s in
    Returned (set "awaiting_expected_result" (VBool true) s)).

(** ** Step 13: commit *)

Definition py_eq_int (v : value) (n : Z) : bool :=
  match as_int v with
  | Some m => m =? n
  | None => false
  end.

Definition insert_risk (r : risks.row) (d : database) : database :=
  {| risks_table := risks_table d ++ [r];
     risks_seq := risks.id r;
     additional_mitigations_table := additional_mitigations_table d;
     additional_mitigations_seq := additional_mitigations_seq d;
     subscriptions_table := subscriptions_table d |}.

Definition save_risk (env : environment) (update : Update) (s : state) : outcome :=
  let probability := get_default "probability" (VInt 0) s in
  let impact_cost_most_likely := get_default "impact_cost_most_likely" (VInt 0) s in
  let impact_schedule_most_likely := get_default "impact_schedule_most_likely" (VInt 0) s in
  match as_int impact_cost_most_likely, as_int impact_schedule_most_likely,
        as_int probability with
  | Some cost, Some schedule, Some prob =>
      let cost_score := get_cost_score cost in
      let schedule_score := get_schedule_score schedule in
      let probability_score := get_probability_score prob in
      let risk_score := cost_score + schedule_score + probability_score in
      let s := set "risk_score" (VInt risk_score) s in
      let user_id := User.id (effective_user update) in
      let username := username_or_full_name (effective_user update) in
      if insert_ok env then
        let s := with_db (insert_risk
          {| risks.id := risks_seq (db s) + 1;
             risks.user_id := user_id;
             risks.username := username;
             risks.phase := get "phase" s;
             risks.object := get "object" s;
             risks.category := get "category" s;
             risks.description := get "description" s;
             risks.impact_schedule_min := get_default "impact_schedule_min" (VInt 0) s;
             risks.impact_schedule_most_likely :=
               get_default "impact_schedule_most_likely" (VInt 0) s;
             risks.impact_schedule_max := get_default "impact_schedule_max" (VInt 0) s;
             risks.impact_cost_min := get_default "impact_cost_min" (VInt 0) s;
             risks.impact_cost_most_likely :=
               get_default "impact_cost_most_likely" (VInt 0) s;
             risks.impact_cost_max := get_default "impact_cost_max" (VInt 0) s;
             risks.impact_schedule_min_re := get_default "impact_schedule_min_re" (VInt 0) s;
             risks.impact_schedule_most_likely_re :=
               get_default "impact_schedule_most_likely_re" (VInt 0) s;
             risks.impact_schedule_max_re := get_default "impact_schedule_max_re" (VInt 0) s;
             risks.impact_cost_min_re := get_default "impact_cost_min_re" (VInt 0) s;
             risks.impact_cost_most_likely_re :=
               get_default "impact_cost_most_likely_re" (VInt 0) s;
             risks.impact_cost_max_re := get_default "impact_cost_max_re" (VInt 0) s;
             risks.probability := get_default "probability" (VInt 0) s;
             risks.probability_re := get_default "probability_re" (VInt 0) s;
             risks.risk_score := risk_score;
             risks.timeline := get "timeline" s;
             risks.mitigation := get "mitigation" s;
             risks.expected_result := get "expected_result" s;
             risks.reevaluation_needed := get_default "reevaluation_needed" (VInt 0) s;
             risks.needs_schedule_evaluation :=
               get_default "needs_schedule_evaluation" (VInt 0) s;
             risks.needs_cost_evaluation := get_default "needs_cost_evaluation" (VInt 0) s;
             risks.needs_schedule_evaluation_re :=
               get_default "needs_schedule_evaluation_re" (VInt 0) s;
             risks.needs_cost_evaluation_re :=
               get_default "needs_cost_evaluation_re" (VInt 0) s;
             risks.timestamp := now_isoformat env |}) s in
        let str_default key := py_str (Some (get_default key (VInt 0) s)) in
        let message :=
          "✅ Риск успешно сохранен!" +:+ nl +:+ nl
          +:+ "📊 Рейтинг риска: " +:+ pretty risk_score +:+ nl +:+ nl
          +:+ "📋 Детали:" +:+ nl
          +:+ "• Фаза: " +:+ py_str (get "phase" s) +:+ nl
          +:+ "• Объект: " +:+ py_str (get "object" s) +:+ nl
          +:+ "• Категория: " +:+ py_str (get "category" s) +:+ nl
          +:+ "• Описание: " +:+ py_str (get "description" s) +:+ nl
          +:+ "• Влияние на сроки: " +:+ str_default "impact_schedule_min" +:+ " / "
          +:+ str_default "impact_schedule_most_likely" +:+ " / "
          +:+ str_default "impact_schedule_max" +:+ " дней" +:+ nl
          +:+ "• Влияние на стоимость: " +:+ str_default "impact_cost_min" +:+ " / "
          +:+ str_default "impact_cost_most_likely" +:+ " / "
          +:+ str_default "impact_cost_max" +:+ " млн. руб." +:+ nl
          +:+ "• Вероятность: " +:+ py_str (Some probability) +:+ "%" +:+ nl
          +:+ "• Срок реализации: " +:+ py_str (get "timeline" s) +:+ nl
          +:+ "• Мероприятие: " +:+ py_str (get "mitigation" s) +:+ nl
          +:+ "• Ожидаемый результат: " +:+ py_str (get "expected_result" s) +:+ nl in
        let message :=
          if py_eq_int (get_default "reevaluation_needed" (VInt 0) s) 1 then
            message
            +:+ nl +:+ "📈 После мероприятий:" +:+ nl
            +:+ "• Влияние на сроки: " +:+ str_default "impact_schedule_min_re" +:+ " / "
            +:+ str_default "impact_schedule_most_likely_re" +:+ " / "
            +:+ str_default "impact_schedule_max_re" +:+ " дней" +:+ nl
            +:+ "• Влияние на стоимость: " +:+ str_default "impact_cost_min_re" +:+ " / "
            +:+ str_default "impact_cost_most_likely_re" +:+ " / "
            +:+ str_default "impact_cost_max_re" +:+ " млн. руб." +:+ nl
            +:+ "• Вероятность: " +:+ str_default "probability_re" +:+ "%" +:+ nl
          else message in
        let keyboard := [[InlineKeyboardButton "🏠 В главное меню" "back_to_menu"]] in
        match update with
        | CallbackQuery _ _ => Returned (emit (edit_message_text message (Some keyboard)) s)
        | Message _ _ => Returned (emit (reply_text message (Some keyboard)) s)
        end
      else
        let s := emit (log_error "Ошибка при сохранении риска: ") s in
        message_reply_text update
          "Произошла ошибка при сохранении риска. Пожалуйста, попробуйте снова."
          (Some (create_back_keyboard "back_to_menu")) s
  | _, _, _ => Raised TypeError s
  end.

(** ** Step 12: re-evaluation after mitigation *)

Definition schedule_impact_re_keyboard : keyboard :=
  [ [InlineKeyboardButton "Не влияет на сроки" "no_impact_schedule_re"];
    [InlineKeyboardButton "Оценить влияние на сроки" "evaluate_schedule_impact_re"];
    [InlineKeyboardButton "Запросить оценку (Повещенко С., Гиренко В.)"
       "request_schedule_evaluation_re"];
    [InlineKeyboardButton "🔙 Вернуться к выбору" "back_to_mitigation_result"] ].

Definition cost_impact_re_keyboard : keyboard :=
  [ [InlineKeyboardButton "Не влияет на стоимость" "no_impact_cost_re"];
    [InlineKeyboardButton "Оценить влияние на стоимость" "evaluate_cost_impact_re"];
    [InlineKeyboardButton "Запросить оценку (Давыдова Е., Борисов А.)"
       "request_cost_evaluation_re"];
    [InlineKeyboardButton "🔙 Вернуться к срокам" "back_to_schedule_impact_re"] ].

Definition probability_re_keyboard : keyboard :=
  [ [InlineKeyboardButton "<10%" "prob_re_1"];
    [InlineKeyboardButton "10-20%" "prob_re_2"];
    [InlineKeyboardButton "20-50%" "prob_re_3"];
    [InlineKeyboardButton "50-75%" "prob_re_4"];
    [InlineKeyboardButton ">75%" "prob_re_5"];
    [InlineKeyboardButton "📝 Ввести свою вероятность" "custom_probability_re"];
    [InlineKeyboardButton "🔙 Вернуться к стоимости" "back_to_cost_impact_re"] ].

Definition handle_expected_result (env : environment) (update : Update) (s : state)
    : outcome :=
  if negb (truthy (get "awaiting_expected_result" s)) then Returned s else
  with_message update s (λ expected_result s,
    let s := set "expected_result" (VStr expected_result) s in
    let s := set "awaiting_expected_result" (VBool false) s in
    if py_eq_int (get_default "reevaluation_needed" (VInt 0) s) 1 then
      Returned (emit (reply_text
                        ("Влияние на сроки (оценка с мероприятиями, в днях):" +:+ nl
                         +:+ "Выберите вариант:")
                        (Some schedule_impact_re_keyboard)) s)
    else save_risk env update s).

Definition no_impact_schedule_re (update : Update) (s : state) : outcome :=
  with_query update s (λ _ s,
    let s := set "impact_schedule_min_re" (VInt 0) s in
    let s := set "impact_schedule_most_likely_re" (VInt 0) s in
    let s := set "impact_schedule_max_re" (VInt 0) s in
    let s := set "needs_schedule_evaluation_re" (VInt 0) s in
    Returned (emit (edit_message_text
                      ("Влияние на стоимость (оценка с мероприятиями):" +:+ nl
                       +:+ "Выберите вариант:")
                      (Some cost_impact_re_keyboard)) s)).

Definition request_schedule_evaluation_re (update : Update) (s : state) : outcome :=
  with_query update s (λ _ s,
    let s := set "needs_schedule_evaluation_re" (VInt 1) s in
    let s := set "impact_schedule_min_re" (VInt 0) s in
    let s := set "impact_schedule_most_likely_re" (VInt 0) s in
    let s := set "impact_schedule_max_re" (VInt 0) s in
    Returned (emit (edit_message_text
                      ("Влияние на стоимость (оценка с мероприятиями):" +:+ nl
                       +:+ "Выберите вариант:")
                      (Some cost_impact_re_keyboard)) s)).

Definition evaluate_schedule_impact_re (update : Update) (s : state) : outcome :=
  with_query update s (λ _ s,
    let s := set "needs_schedule_evaluation_re" (VInt 0) s in
    let s := emit (edit_message_text
                     ("Влияние на сроки (оценка с мероприятиями):" +:+ nl
                      +:+ "Введите минимальное, наиболее вероятное и максимальное влияние на сроки (в днях), разделенные пробелом, запятой или новой строкой:")
                     (Some (create_back_keyboard "back_to_schedule_impact_re"))) s in
    Returned (set "awaiting_schedule_values_re" (VBool true) s)).

Definition schedule_values_re : triple_step :=
  {| awaiting_key := "awaiting_schedule_values_re";
     min_key := "impact_schedule_min_re";
     most_likely_key := "impact_schedule_most_likely_re";
     max_key := "impact_schedule_max_re";
     back_data := "back_to_schedule_impact_re";
     next_text := "Влияние на стоимость (оценка с мероприятиями):" +:+ nl
                  +:+ "Выберите вариант:";
     next_keyboard := cost_impact_re_keyboard |}.

Definition handle_schedule_values_re : Update → state → outcome :=
  handle_values schedule_values_re.

Definition no_impact_cost_re (update : Update) (s : state) : outcome :=
  with_query update s (λ _ s,
    let s := set "impact_cost_min_re" (VInt 0) s in
    let s := set "impact_cost_most_likely_re" (VInt 0) s in
    let s := set "impact_cost_max_re" (VInt 0) s in
    let s := set "needs_cost_evaluation_re" (VInt 0) s in
    Returned (emit (edit_message_text
                      "Оцените вероятность возникновения риска после мероприятий или введите свою:"
                      (Some probability_re_keyboard)) s)).

Definition request_cost_evaluation_re (update : Update) (s : state) : outcome :=
  with_query update s (λ _ s,
    let s := set "needs_cost_evaluation_re" (VInt 1) s in
    let s := set "impact_cost_min_re" (VInt 0) s in
    let s := set "impact_cost_most_likely_re" (VInt 0) s in
    let s := set "impact_cost_max_re" (VInt 0) s in
    Returned (emit (edit_message_text
                      "Оцените вероятность возникновения риска после мероприятий или введите свою:"
                      (Some probability_re_keyboard)) s)).

Definition evaluate_cost_impact_re (update : Update) (s : state) : outcome :=
  with_query update s (λ _ s,
    let s := set "needs_cost_evaluation_re" (VInt 0) s in
    let s := emit (edit_message_text
                     ("Влияние на стоимость (оценка с мероприятиями):" +:+ nl
                      +:+ "Введите минимальное, наиболее вероятное и максимальное влияние на стоимость (в млн. руб.), разделенные пробелом, запятой или новой строкой:")
                     (Some (create_back_keyboard "back_to_cost_impact_re"))) s in
    Returned (set "awaiting_cost_values_re" (VBool true) s)).

Definition cost_values_re : triple_step :=
  {| awaiting_key := "awaiting_cost_values_re";
     min_key := "impact_cost_min_re";
     most_likely_key := "impact_cost_most_likely_re";
     max_key := "impact_cost_max_re";
     back_data := "back_to_cost_impact_re";
     next_text :=
       "Оцените вероятность возникновения риска после мероприятий или введите свою:";
     next_keyboard := probability_re_keyboard |}.

Definition handle_cost_values_re : Update → state → outcome :=
  handle_values cost_values_re.

Definition custom_probability_re_request (update : Update) (s : state) : outcome :=
  with_query update s (λ _ s,
    let s := emit (edit_message_text
                     "Введите оценку вероятности после мероприятий (в процентах, от 0 до 100):"
                     (Some (create_back_keyboard "back_to_probability_re"))) s in
    Returned (set "awaiting_custom_probability_re" (VBool true) s)).

(** What [except (IndexError, ValueError)] / [except ValueError] does with
    an exception raised inside the guarded block. *)
Definition catching (catches : exn → bool) (handler : state → outcome) (o : outcome)
    : outcome :=
  match o with
  | Raised e s => if catches e then handler s else Raised e s
  | Returned s => Returned s
  end.

Definition is_ValueError (e : exn) : bool :=
  match e with ValueError _ => true | _ => false end.

Definition is_IndexError_or_ValueError (e : exn) : bool :=
  match e with ValueError _ | IndexError => true | _ => false end.

Definition handle_custom_probability_re (env : environment) (update : Update) (s : state)
    : outcome :=
  if negb (truthy (get "awaiting_custom_probability_re" s)) then Returned s else
  with_message update s (λ text s,
    let again s :=
      Returned (emit (reply_text "Пожалуйста, введите число от 0 до 100:"
                        (Some (create_back_keyboard "back_to_probability_re"))) s) in
    match py_int text with
    | Some prob =>
        if (prob <? 0) || (prob >? 100) then again s
        else
          let s := set "probability_re" (VInt prob) s in
          let s := set "awaiting_custom_probability_re" (VBool false) s in
          catching is_ValueError again (save_risk env update s)
    | None => again s
    end).

Definition choose_probability_re (env : environment) (update : Update) (s : state)
    : outcome :=
  with_query update s (λ data s,
    let failed s := Returned (emit (answer (Some "Ошибка обработки данных")) s) in
    match split_on "_" data with
    | [p0; p1; p2] =>
        if negb (String.eqb p0 "prob") || negb (String.eqb p1 "re") then
          Returned (emit (answer (Some "Неверный формат данных")) s)
        else
          match py_int p2 with
          | None => failed s
          | Some prob_level =>
              match PROBABILITY_MAPPING !! prob_level with
              | None => Returned (emit (answer (Some "Неверный уровень вероятности")) s)
              | Some p =>
                  let s := set "probability_re" (VInt p) s in
                  catching is_IndexError_or_ValueError failed (save_risk env update s)
              end
          end
    | _ => Returned (emit (answer (Some "Неверный формат данных")) s)
    end).

(** ** Back navigation *)

Definition handle_back (env : environment) (update : Update) (s : state) : outcome :=
  with_query update s (λ back_data s,
    if String.eqb back_data "back_to_menu" then
      start update s
    else if String.eqb back_data "back_to_phase_selection" then
      let s := pop "phase" s in
      let s := pop "awaiting_custom_phase" s in
      submit_risk_start update s
    else if String.eqb back_data "toggle_subscription" then
      toggle_subscription env update s
    else if String.eqb back_data "back_to_object_selection" then
      let s := pop "object" s in
      let s := pop "awaiting_custom_object" s in
      let phase := get "phase" s in
      Returned (emit (edit_message_text
                        ("Фаза: " +:+ py_str phase +:+ nl
                         +:+ "Выберите объект или введите свой:")
                        (Some object_keyboard)) s)
    else if String.eqb back_data "back_to_view_phase_selection" then
      let s := pop "selected_view_phase" s in
      let s := pop "view_risks_page" s in
      select_view_phase update s
    else if String.eqb back_data "back_to_category_selection" then
      let s := pop "category" s in
      let s := pop "awaiting_custom_category" s in
      let obj := get "object" s in
      Returned (emit (edit_message_text
                        ("Объект: " +:+ py_str obj +:+ nl
                         +:+ "Выберите функциональное направление риска или введите свой:")
                        (Some category_keyboard)) s)
    else if String.eqb back_data "back_to_description" then
      let s := pop "description" s in
      let s := pop "awaiting_description" s in
      let cat := get "category" s in
      let s := emit (edit_message_text
                       ("Категория: " +:+ py_str cat +:+ nl +:+ "Опишите риск:")
                       (Some (create_back_keyboard "back_to_category_selection"))) s in
      Returned (set "awaiting_description" (VBool true) s)
    else if String.eqb back_data "back_to_schedule_impact" then
      let s := pop "impact_schedule_min" s in
      let s := pop "impact_schedule_most_likely" s in
      let s := pop "impact_schedule_max" s in
      let s := pop "needs_schedule_evaluation" s in
      let s := pop "awaiting_schedule_values" s in
      let keyboard :=
        [ [InlineKeyboardButton "Не влияет на сроки" "no_impact_schedule"];
          [InlineKeyboardButton "Оценить влияние на сроки" "evaluate_schedule_impact"];
          [InlineKeyboardButton "Запросить оценку (Повещенко С., Гиренко В.)"
             "request_schedule_evaluation"];
          [InlineKeyboardButton "🔙 Вернуться к описанию" "back_to_description"] ] in
      Returned (emit (edit_message_text
                        ("Влияние на сроки (оценка без мероприятий):" +:+ nl
                         +:+ "Выберите вариант:")
                        (Some keyboard)) s)
    else if String.eqb back_data "back_to_cost_impact" then
      let s := pop "impact_cost_min" s in
      let s := pop "impact_cost_most_likely" s in
      let s := pop "impact_cost_max" s in
      let s := pop "needs_cost_evaluation" s in
      let s := pop "awaiting_cost_values" s in
      Returned (emit (edit_message_text
                        ("Влияние на стоимость (оценка без мероприятий):" +:+ nl
                         +:+ "Выберите вариант:")
                        (Some cost_impact_keyboard)) s)
    else if String.eqb back_data "back_to_probability" then
      let s := pop "probability" s in
      let s := pop "awaiting_custom_probability" s in
      let keyboard :=
        [ [InlineKeyboardButton "<10%" "prob_1"];
          [InlineKeyboardButton "10-20%" "prob_2"];
          [InlineKeyboardButton "20-50%" "prob_3"];
          [InlineKeyboardButton "60-75%" "prob_4"];
          [InlineKeyboardButton ">75%" "prob_5"];
          [InlineKeyboardButton "📝 Ввести свою вероятность" "custom_probability"];
          [InlineKeyboardButton "🔙 Вернуться к стоимости" "back_to_cost_impact"] ] in
      Returned (emit (edit_message_text
                        "Оцените вероятность возникновения риска или введите свою:"
                        (Some keyboard)) s)
    else if String.eqb back_data "back_to_timeline" then
      let s := pop "timeline" s in
      let s := pop "awaiting_timeline" s in
      let s := emit (edit_message_text "Укажите примерный период реализации риска:"
                       (Some (create_back_keyboard "back_to_probability"))) s in
      Returned (set "awaiting_timeline" (VBool true) s)
    else if String.eqb back_data "back_to_mitigation_choice" then
      let s := pop "reevaluation_needed" s in
      let s := pop "awaiting_mitigation" s in
      Returned (emit (edit_message_text "Выберите действие:"
                        (Some mitigation_choice_keyboard)) s)
    else if String.eqb back_data "back_to_mitigation" then
      let s := pop "mitigation" s in
      let s := pop "awaiting_mitigation" s in
      let s := emit (edit_message_text "Введите мероприятие по митигации риска:"
                       (Some (create_back_keyboard "back_to_mitigation_choice"))) s in
      Returned (set "awaiting_mitigation" (VBool true) s)
    else if String.eqb back_data "back_to_mitigation_result" then
      let s := pop "expected_result" s in
      let s := pop "awaiting_expected_result" s in
      let s := emit (edit_message_text
                       "Ожидаемый результат от мероприятия (опишите текстом):"
                       (Some (create_back_keyboard "back_to_mitigation"))) s in
      Returned (set "awaiting_expected_result" (VBool true) s)
    else if String.eqb back_data "back_to_schedule_impact_re" then
      let s := pop "impact_schedule_min_re" s in
      let s := pop "impact_schedule_most_likely_re" s in
      let s := pop "impact_schedule_max_re" s in
      let s := pop "needs_schedule_evaluation_re" s in
      let s := pop "awaiting_schedule_values_re" s in
      Returned (emit (edit_message_text
                        ("Влияние на сроки (оценка с мероприятиями):" +:+ nl
                         +:+ "Выберите вариант:")
                        (Some schedule_impact_re_keyboard)) s)
    else if String.eqb back_data "back_to_cost_impact_re" then
      let s := pop "impact_cost_min_re" s in
      let s := pop "impact_cost_most_likely_re" s in
      let s := pop "impact_cost_max_re" s in
      let s := pop "needs_cost_evaluation_re" s in
      let s := pop "awaiting_cost_values_re" s in
      Returned (emit (edit_message_text
                        ("Влияние на стоимость (оценка с мероприятиями):" +:+ nl
                         +:+ "Выберите вариант:")
                        (Some cost_impact_re_keyboard)) s)
    else if String.eqb back_data "back_to_probability_re" then
      let s := pop "probability_re" s in
      let s := pop "awaiting_custom_probability_re" s in
      Returned (emit (edit_message_text
                        "Оцените вероятность возникновения риска после мероприятий или введите свою:"
                        (Some probability_re_keyboard)) s)
    else Returned s).

(** ** Supplementary mitigation for an existing risk *)

Definition insert_additional_mitigation (r : additional_mitigations.row) (d : database)
    : database :=
  {| risks_table := risks_table d; risks_seq := risks_seq d;
     additional_mitigations_table := additional_mitigations_table d ++ [r];
     additional_mitigations_seq := additional_mitigations.id r;
     subscriptions_table := subscriptions_table d |}.

Definition handle_new_mitigation (update : Update) (s : state) : outcome :=
  if negb (truthy (get "awaiting_mitigation_for_existing_risk" s)) then Returned s else
  with_message update s (λ mitigation s,
    let s := set "new_mitigation" (VStr mitigation) s in
    let s := set "awaiting_mitigation_for_existing_risk" (VBool false) s in
    let s := emit (reply_text "Ожидаемый результат от мероприятия (опишите текстом):"
                     (Some (create_back_keyboard "back_to_risk_details"))) s in
    Returned (set "awaiting_expected_result_for_mitigation" (VBool true) s)).

Definition handle_expected_result_for_mitigation (env : environment) (update : Update)
    (s : state) : outcome :=
  if negb (truthy (get "awaiting_expected_result_for_mitigation" s)) then Returned s else
  with_message update s (λ expected_result s,
    let risk_id := get "adding_mitigation_to_risk" s in
    let mitigation := get "new_mitigation" s in
    if insert_ok env then
      let s := with_db (insert_additional_mitigation
        {| additional_mitigations.id := additional_mitigations_seq (db s) + 1;
           additional_mitigations.risk_id := risk_id;
           additional_mitigations.user_id := User.id (effective_user update);
           additional_mitigations.username := username_or_full_name (effective_user update);
           additional_mitigations.mitigation := mitigation;
           additional_mitigations.expected_result := expected_result;
           additional_mitigations.timestamp := now_isoformat env |}) s in
      let s := pop "adding_mitigation_to_risk" s in
      let s := pop "new_mitigation" s in
      let s := pop "awaiting_expected_result_for_mitigation" s in
      Returned (emit (reply_text "✅ Мероприятие успешно добавлено!"
                        (Some [[InlineKeyboardButton "Посмотреть обновленный риск"
                                  ("view_risk_" +:+ py_str risk_id)]])) s)
    else
      let s := emit (log_error "Ошибка при добавлении мероприятия: ") s in
      Returned (emit (reply_text "Произошла ошибка при добавлении мероприятия."
                        (Some (create_back_keyboard "back_to_menu"))) s)).

(** ** Free-text dispatch *)

Definition handle_text (env : environment) (update : Update) (s : state) : outcome :=
  let awaiting key := truthy (get key s) in
  if awaiting "awaiting_custom_phase" then handle_custom_phase update s
  else if awaiting "awaiting_custom_object" then handle_custom_object update s
  else if awaiting "awaiting_custom_category" then handle_custom_category update s
  else if awaiting "awaiting_description" then get_description update s
  else if awaiting "awaiting_schedule_values" then handle_schedule_values update s
  else if awaiting "awaiting_cost_values" then handle_cost_values update s
  else if awaiting "awaiting_custom_probability" then handle_custom_probability update s
  else if awaiting "awaiting_timeline" then handle_timeline update s
  else if awaiting "awaiting_mitigation" then handle_mitigation update s
  else if awaiting "awaiting_expected_result" then handle_expected_result env update s
  else if awaiting "awaiting_schedule_values_re" then handle_schedule_values_re update s
  else if awaiting "awaiting_cost_values_re" then handle_cost_values_re update s
  else if awaiting "awaiting_custom_probability_re" then
    handle_custom_probability_re env update s
  else if awaiting "awaiting_mitigation_for_existing_risk" then
    handle_new_mitigation update s
  else if awaiting "awaiting_expected_result_for_mitigation" then
    handle_expected_result_for_mitigation env update s
  else
    message_reply_text update "Не понимаю ваше сообщение. Выберите действие из меню:"
      (Some [[InlineKeyboardButton "🏠 В главное меню" "back_to_menu"]]) s.

(** ** Daily reminder *)

(** [SELECT last_notification FROM subscriptions WHERE user_id = ? AND
    last_notification = ?], with the date read at that moment. *)
Definition already_notified (env : environment) (user_id : Z) (d : database) : bool :=
  match subscriptions_table d !! user_id with
  | Some r =>
      bool_decide (subscriptions.last_notification r = Some (date_at_check env user_id))
  | None => false
  end.

(** [UPDATE subscriptions SET last_notification = ? WHERE user_id = ?],
    with the date read at that moment. *)
Definition mark_notified (env : environment) (user_id : Z) (d : database) : database :=
  update_subscriptions
    (alter (λ r, {| subscriptions.is_subscribed := subscriptions.is_subscribed r;
                    subscriptions.last_notification := Some (date_at_update env user_id) |})
       user_id) d.

(** The body of the loop: the check, the delivery, the mark and the log
    line stand in one [try], so that a delivery that fails and a mark that
    fails both end in the same log line. *)
Definition remind (env : environment) (message : string) (s : state) (user_id : Z) : state :=
  let failed s :=
    emit (log_error ("❌ Ошибка при отправке напоминания пользователю "
                     +:+ pretty user_id +:+ ": ")) s in
  if already_notified env user_id (db s) then s
  else if send_ok env user_id then
    let s := emit (send_message user_id message
                     (Some [[InlineKeyboardButton "📢 Сообщить риск" "submit_risk"]])) s in
    if update_ok env user_id then
      let s := with_db (mark_notified env user_id) s in
      emit (log_info ("✅ Напоминание отправлено пользователю " +:+ pretty user_id)) s
    else failed s
  else failed s.

Definition send_daily_reminder (env : environment) (s : state) : state :=
  let subscribed_users := get_subscribed_users (db s) in
  let current_date := today_dmy env in
  let message :=
    "📌 Ежедневное напоминание от " +:+ current_date +:+ nl +:+ nl
    +:+ "Не забудьте заполнить информацию о рисках за сегодня!" +:+ nl +:+ nl
    +:+ "Чтобы сообщить о новом риске, нажмите кнопку 'Сообщить риск' в меню бота."
    +:+ nl +:+ nl
    +:+ "Ваши риски помогают проекту быть более управляемым и предсказуемым!" in
  foldl (remind env message) s subscribed_users.

(* ====================================================================== *)
(** * Commands, listing keyboard, supplementary mitigation and routing *)

(** ** Subscription commands *)

Definition subscribe (env : environment) (update : Update) (s : state) : outcome :=
  let user_id := User.id (effective_user update) in
  let s := with_db (subscribe_user env user_id) s in
  let message :=
    "✅ Вы успешно подписались на ежедневные напоминания о необходимости ведения рисков!"
    +:+ nl +:+ nl
    +:+ "Каждый день в 14:30 вы будете получать напоминание о заполнении рисков." in
  message_reply_text update message None s.

Definition unsubscribe (update : Update) (s : state) : outcome :=
  let user_id := User.id (effective_user update) in
  let s := with_db (unsubscribe_user user_id) s in
  message_reply_text update "✅ Вы отписаны от напоминаний." None s.

(** ** Report menu *)

Definition select_report_phase (update : Update) (s : state) : outcome :=
  with_query update s (λ _ s,
    let keyboard :=
      map (λ phase, [InlineKeyboardButton phase ("report_phase_" +:+ phase)]) PHASES
      ++ [[InlineKeyboardButton "Все фазы" "report_phase_all"]]
      ++ [[InlineKeyboardButton "🔙 Вернуться в меню" "back_to_menu"]] in
    Returned (emit (edit_message_text "Выберите фазу для отчета:" (Some keyboard)) s)).

(** ** Listing: the keyboard of risk numbers and the page handler *)

Definition risk_button (risk : risks.row) : button :=
  let risk_id := risks.id risk in
  InlineKeyboardButton ("#" +:+ pretty risk_id) ("view_risk_" +:+ pretty risk_id).

(** The loop of [create_risk_selection_keyboard]: the rows closed so far
    and the row being filled. *)
Definition add_risk_button (acc : keyboard * list button) (risk : risks.row)
    : keyboard * list button :=
  let '(keyboard, row) := acc in
  let row := row ++ [risk_button risk] in
  if (length row =? 4)%nat then (keyboard ++ [row], []) else (keyboard, row).

Definition create_risk_selection_keyboard (risks : list risks.row) : keyboard :=
  let '(keyboard, row) := foldl add_risk_button ([], []) risks in
  match row with
  | [] => keyboard
  | _ => keyboard ++ [row]
  end.

(** [s.split(sep, maxsplit)] for a one-character separator. *)
Fixpoint split_max (sep : ascii) (maxsplit : nat) (s : string) : list string :=
  match s with
  | EmptyString => [EmptyString]
  | String c r =>
      match maxsplit with
      | O => [s]
      | S n =>
          if Ascii.eqb c sep then EmptyString :: split_max sep n r
          else match split_max sep maxsplit r with
               | x :: xs => String c x :: xs
               | [] => [String c EmptyString]
               end
      end
  end.

(** *** The listing

    A column of type [TEXT] keeps a number as its decimal text, and a
    number compared with such a column is compared as text. *)
Definition sql_text (v : value) : string :=
  match v with
  | VStr s => s
  | VInt n => pretty n
  | VBool true => "1"
  | VBool false => "0"
  end.

(** An integer can be bound to a query when it fits in 64 bits; a larger
    one is an [OverflowError]. *)
Definition sql_int (n : Z) : bool := (- 2 ^ 63 <=? n) && (n <? 2 ^ 63).

Definition sql_value (v : value) : bool :=
  match v with
  | VInt n => sql_int n
  | _ => true
  end.

Definition MAX_RISKS_PER_MESSAGE : Z := 30.

(** [WHERE phase = ?] *)
Definition phase_is (selected_phase : value) (r : risks.row) : bool :=
  bool_decide (sql_text <$> risks.phase r = Some (sql_text selected_phase)).

(** [ORDER BY risk_score DESC]: the rows are read in the order of the
    primary key, and rows of equal score stay in that order. *)
Definition listed_before (a b : risks.row) : Prop :=
  risks.risk_score b < risks.risk_score a
  ∨ (risks.risk_score a = risks.risk_score b ∧ risks.id a ≤ risks.id b).

#[global] Instance listed_before_dec a b : Decision (listed_before a b).
Proof. unfold listed_before. apply _. Defined.

(** The rows of [risks] that a query sees: all of them, or those of one
    phase. *)
Definition risks_where (phase : option value) (d : database) : list risks.row :=
  match phase with
  | Some selected_phase => filter (λ r, phase_is selected_phase r = true) (risks_table d)
  | None => risks_table d
  end.

(** [SELECT COUNT( * ) FROM risks [WHERE phase = ?]] *)
Definition count_risks (phase : option value) (d : database) : Z :=
  Z.of_nat (length (risks_where phase d)).

(** [SELECT ... FROM risks [WHERE phase = ?] ORDER BY risk_score DESC
    LIMIT ? OFFSET ?]; a negative offset counts as none. *)
Definition select_risks (phase : option value) (limit offset : Z) (d : database)
    : list risks.row :=
  take (Z.to_nat limit) (drop (Z.to_nat offset) (merge_sort listed_before (risks_where phase d))).

(** One entry of the list; [None] is the [TypeError] of slicing a
    description that is [NULL]. *)
Definition risk_entry (risk : risks.row) : option string :=
  match sql_text <$> risks.description risk with
  | None => None
  | Some description =>
      Some ("**#" +:+ pretty (risks.id risk) +:+ "** (Рейтинг: "
            +:+ pretty (risks.risk_score risk) +:+ ")" +:+ nl
            +:+ "   Фаза: " +:+ default "None" (sql_text <$> risks.phase risk) +:+ nl
            +:+ "   Объект: " +:+ default "None" (sql_text <$> risks.object risk) +:+ nl
            +:+ "   Описание: " +:+ py_slice_to 150 description
            +:+ (if 150 <? py_len description then "..." else "") +:+ nl)
  end.

(** ["\n".join(lines)] *)
Fixpoint join_lines (lines : list string) : string :=
  match lines with
  | [] => ""
  | [line] => line
  | line :: lines => line +:+ nl +:+ join_lines lines
  end.

Definition view_risks_list (update : Update) (s : state) : outcome :=
  with_query update s (λ data s,
    let listing (selected_phase : value) (s : state) : outcome :=
      let page := get_default "view_risks_page" (VInt 1) s in
      let failed :=
        let s := emit (log_error "❌ Ошибка при получении списка рисков: ") s in
        Returned (emit (edit_message_text
                          ("❌ Произошла ошибка при получении списка рисков. "
                           +:+ "Пожалуйста, попробуйте позже.")
                          (Some (create_back_keyboard "back_to_menu"))) s) in
      let all := bool_decide (selected_phase = VStr "all") in
      let phase := if all then None else Some selected_phase in
      let phase_text :=
        if all then "всех фазах" else "фазе '" +:+ py_str (Some selected_phase) +:+ "'" in
      if negb (sql_value selected_phase) then failed else
      let total_risks := count_risks phase (db s) in
      match as_int page with
      | None => failed
      | Some page_number =>
          let offset := (page_number - 1) * MAX_RISKS_PER_MESSAGE in
          if negb (sql_int offset) then failed else
          let risks := select_risks phase MAX_RISKS_PER_MESSAGE offset (db s) in
          match risks with
          | [] =>
              Returned (emit (edit_message_text
                                ("📭 Нет доступных рисков для " +:+ phase_text +:+ ".")
                                (Some (create_back_keyboard "back_to_view_phase_selection")))
                          s)
          | _ =>
              let total_pages :=
                (total_risks + MAX_RISKS_PER_MESSAGE - 1) `div` MAX_RISKS_PER_MESSAGE in
              let title :=
                if 1 <? total_pages then
                  "📋 **Список рисков (" +:+ phase_text +:+ ", страница "
                  +:+ py_str (Some page) +:+ "/" +:+ pretty total_pages +:+ "):**" +:+ nl
                else "📋 **Список всех рисков (" +:+ phase_text +:+ "):**" +:+ nl in
              let total := "📈 Всего рисков: " +:+ pretty total_risks +:+ nl in
              match mapM risk_entry risks with
              | None => failed
              | Some entries =>
                  let message := join_lines (title :: total :: entries) in
                  let page_button (label : string) (number : Z) :=
                    InlineKeyboardButton label
                      ("view_risks_page_" +:+ pretty number +:+ "_"
                       +:+ py_str (Some selected_phase)) in
                  let navigation_buttons :=
                    if 1 <? total_pages then
                      (if 1 <? page_number
                       then [page_button "⬅️ Назад" (page_number - 1)] else [])
                      ++ (if page_number <? total_pages
                          then [page_button "➡️ Далее" (page_number + 1)] else [])
                    else [] in
                  let keyboard :=
                    create_risk_selection_keyboard risks
                    ++ match navigation_buttons with
                       | [] => []
                       | _ => [navigation_buttons]
                       end
                    ++ [[InlineKeyboardButton "🔄 Другая фаза" "view_risks_list"];
                        [InlineKeyboardButton "🔙 Вернуться в меню" "back_to_menu"]] in
                  Returned (emit (edit_message_markdown message (Some keyboard)) s)
              end
          end
      end in
    if String.prefix "view_phase_" data then
      match split_max "_" 2 data !! 2%nat with
      | Some selected_phase =>
          listing (VStr selected_phase) (set "selected_view_phase" (VStr selected_phase) s)
      | None => Raised IndexError s
      end
    else listing (get_default "selected_view_phase" (VStr "all") s) s).

Definition handle_view_risks_page (update : Update) (s : state) : outcome :=
  with_query update s (λ data s,
    let parts := split_max "_" 3 data in
    let show (page selected_phase : value) (s : state) :=
      let s := set "view_risks_page" page s in
      let s := set "selected_view_phase" selected_phase s in
      view_risks_list update s in
    match parts !! 3%nat with
    | Some p3 =>
        match int_literal p3 with
        | inr page => show (VInt page) (VStr (default "all" (parts !! 4%nat))) s
        | inl e => Raised e s
        end
    | None => show (VInt 1) (get_default "selected_view_phase" (VStr "all") s) s
    end).

(** ** Supplementary mitigation: entry and return *)

Definition add_mitigation_start (update : Update) (s : state) : outcome :=
  with_query update s (λ data s,
    match split_on "_" data !! 2%nat with
    | None => Raised IndexError s
    | Some id_text =>
        match int_literal id_text with
        | inl e => Raised e s
        | inr risk_id =>
            let s := set "adding_mitigation_to_risk" (VInt risk_id) s in
            let s := emit (edit_message_text "Введите мероприятие по митигации риска:"
                             (Some (create_back_keyboard "back_to_risk_details"))) s in
            Returned (set "awaiting_mitigation_for_existing_risk" (VBool true) s)
        end
    end).

Definition back_to_risk_details (update : Update) (s : state) : outcome :=
  with_query update s (λ _ s,
    let risk_id := get_default "adding_mitigation_to_risk" (VInt 0) s in
    if truthy (Some risk_id) then
      let s := emit (edit_message_text "Введите мероприятие по митигации риска:"
                       (Some (create_back_keyboard "back_to_risk_details"))) s in
      Returned (set "awaiting_mitigation_for_existing_risk" (VBool true) s)
    else start update s).

(** ** Callback routing

    [main] registers one [CallbackQueryHandler] per pattern.  A button
    press is given to the first handler, in the order of registration,
    whose pattern matches the callback data from its start ([re.match]).
    The patterns have three shapes. *)

Inductive pattern :=
  | Exact (s : string)          (* ^s$ *)
  | Prefix (s : string)         (* ^s *)
  | PrefixDigits (s : string).  (* ^s\d+$ *)

(** The rest of [s] after the literal [p], when [s] begins with it. *)
Fixpoint strip_prefix (p s : string) : option string :=
  match p with
  | EmptyString => Some s
  | String c p' =>
      match s with
      | String d s' => if Ascii.eqb c d then strip_prefix p' s' else None
      | EmptyString => None
      end
  end.

(** [$] matches at the end of the string and before a newline that ends
    it. *)
Definition at_end (s : string) : bool := String.eqb s "" || String.eqb s nl.

Fixpoint skip_digits (cs : list string) : list string :=
  match cs with
  | c :: r => if is_digit c then skip_digits r else cs
  | [] => []
  end.

Definition re_match (p : pattern) (data : string) : bool :=
  match p with
  | Exact s =>
      match strip_prefix s data with
      | Some rest => at_end rest
      | None => false
      end
  | Prefix s =>
      match strip_prefix s data with
      | Some _ => true
      | None => false
      end
  | PrefixDigits s =>
      match chars <$> strip_prefix s data with
      | Some (c :: r) => is_digit c && at_end (text_of (skip_digits r))
      | _ => false
      end
  end.

Module handler.
Inductive name :=
  | toggle_subscription | submit_risk_start | select_report_phase | select_view_phase
  | show_phase_report | export_excel_handler | custom_phase_request | choose_phase
  | view_risks_list | custom_object_request | choose_object | custom_category_request
  | choose_category | no_impact_schedule | request_schedule_evaluation
  | evaluate_schedule_impact | no_impact_cost | request_cost_evaluation
  | evaluate_cost_impact | custom_probability_request | choose_probability_re
  | view_risk_details | add_mitigation_start | back_to_risk_details
  | add_mitigation_with_evaluation | add_mitigation_without_evaluation
  | no_impact_schedule_re | request_schedule_evaluation_re | evaluate_schedule_impact_re
  | no_impact_cost_re | request_cost_evaluation_re | evaluate_cost_impact_re
  | custom_probability_re_request | choose_probability | handle_back
  | handle_view_risks_page.
End handler.

#[global] Instance handler_name_eq_dec : EqDecision handler.name.
Proof. solve_decision. Defined.

Definition callback_handlers : list (pattern * handler.name) :=
  [ (Exact "toggle_subscription", handler.toggle_subscription);
    (Exact "submit_risk", handler.submit_risk_start);
    (Exact "report", handler.select_report_phase);
    (Exact "view_risks_list", handler.select_view_phase);
    (Prefix "report_phase_", handler.show_phase_report);
    (Exact "select_report_phase", handler.select_report_phase);
    (Exact "export_excel", handler.export_excel_handler);
    (Exact "custom_phase", handler.custom_phase_request);
    (Prefix "phase_", handler.choose_phase);
    (Prefix "view_phase_", handler.view_risks_list);
    (Exact "custom_object", handler.custom_object_request);
    (Prefix "object_", handler.choose_object);
    (Exact "custom_category", handler.custom_category_request);
    (Prefix "cat_", handler.choose_category);
    (Exact "no_impact_schedule", handler.no_impact_schedule);
    (Exact "request_schedule_evaluation", handler.request_schedule_evaluation);
    (Exact "evaluate_schedule_impact", handler.evaluate_schedule_impact);
    (Exact "no_impact_cost", handler.no_impact_cost);
    (Exact "request_cost_evaluation", handler.request_cost_evaluation);
    (Exact "evaluate_cost_impact", handler.evaluate_cost_impact);
    (Exact "custom_probability", handler.custom_probability_request);
    (PrefixDigits "prob_re_", handler.choose_probability_re);
    (Exact "view_risks_list", handler.view_risks_list);
    (PrefixDigits "view_risk_", handler.view_risk_details);
    (PrefixDigits "add_mitigation_", handler.add_mitigation_start);
    (Exact "back_to_risk_details", handler.back_to_risk_details);
    (Exact "add_mitigation_with_evaluation", handler.add_mitigation_with_evaluation);
    (Exact "add_mitigation_without_evaluation", handler.add_mitigation_without_evaluation);
    (Exact "no_impact_schedule_re", handler.no_impact_schedule_re);
    (Exact "request_schedule_evaluation_re", handler.request_schedule_evaluation_re);
    (Exact "evaluate_schedule_impact_re", handler.evaluate_schedule_impact_re);
    (Exact "no_impact_cost_re", handler.no_impact_cost_re);
    (Exact "request_cost_evaluation_re", handler.request_cost_evaluation_re);
    (Exact "evaluate_cost_impact_re", handler.evaluate_cost_impact_re);
    (Exact "custom_probability_re", handler.custom_probability_re_request);
    (PrefixDigits "prob_", handler.choose_probability);
    (Prefix "back_to_", handler.handle_back);
    (Prefix "view_risks_page_", handler.handle_view_risks_page) ].

(** The registration that takes the button press: its place in the list and
    its handler. *)
Fixpoint first_match (data : string) (n : nat) (hs : list (pattern * handler.name))
    : option (nat * handler.name) :=
  match hs with
  | [] => None
  | (p, h) :: hs => if re_match p data then Some (n, h) else first_match data (S n) hs
  end.

Definition registration (data : string) : option (nat * handler.name) :=
  first_match data 0 callback_handlers.

Definition route (data : string) : option handler.name := snd <$> registration data.

(* ====================================================================== *)
(** * Vocabulary of the properties, and the states they are tried on *)

(** ** Vocabulary: Scoring *)

Ltac unfold_scores :=
  unfold get_cost_score, get_schedule_score, get_probability_score.

Ltac split_thresholds :=
  repeat match goal with
         | |- context [?a <? ?b] => destruct (Z.ltb_spec a b)
         end.

(** A step function over the half-open intervals cut by four thresholds:
    a value on a threshold belongs to the bucket above it. *)
Definition half_open_scale (f : Z → Z) (t1 t2 t3 t4 : Z) : Prop :=
  ∀ x, (x < t1 → f x = 1) ∧ (t1 ≤ x < t2 → f x = 2) ∧ (t2 ≤ x < t3 → f x = 3)
       ∧ (t3 ≤ x < t4 → f x = 4) ∧ (t4 ≤ x → f x = 5).

Definition in_scale (f : Z → Z) : Prop := ∀ x, 1 ≤ f x ≤ 5.
Definition monotone (f : Z → Z) : Prop := ∀ x y, x ≤ y → f x ≤ f y.
Definition negatives_to_one (f : Z → Z) : Prop := ∀ x, x < 0 → f x = 1.

(** ** Vocabulary: Commit *)

(** The number a scored draft field holds: the stored integer, or 0 when
    the field is absent. *)
Definition scored (key : string) (s : state) : option Z :=
  as_int (get_default key (VInt 0) s).

Definition scored_keys : list string :=
  ["probability"; "impact_cost_most_likely"; "impact_schedule_most_likely"].

Definition env0 : environment :=
  {| now_isoformat := "2025-01-15T11:30:00"; today_ymd := "2025-01-15";
     today_dmy := "15.01.2025"; insert_ok := true; send_ok := λ _, true;
     date_at_check := λ _, "2025-01-15"; date_at_update := λ _, "2025-01-15";
     update_ok := λ _, true |}.

Definition empty_database : database :=
  {| risks_table := []; risks_seq := 0;
     additional_mitigations_table := []; additional_mitigations_seq := 0;
     subscriptions_table := ∅ |}.

Definition alice : User.t :=
  {| User.id := 7; User.username := Some "alice"; User.full_name := "Alice A." |}.

(** The draft of the end-to-end scenario: schedule deferred to an expert,
    cost 100/300/900, custom probability 80, no re-evaluation. *)
Definition scenario_draft : state :=
  {| user_data := list_to_map
       [("phase", VStr "3"); ("object", VStr "Скважины"); ("category", VStr "Бурение");
        ("description", VStr "test");
        ("needs_schedule_evaluation", VInt 1);
        ("impact_schedule_min", VInt 0); ("impact_schedule_most_likely", VInt 0);
        ("impact_schedule_max", VInt 0);
        ("needs_cost_evaluation", VInt 0);
        ("impact_cost_min", VInt 100); ("impact_cost_most_likely", VInt 300);
        ("impact_cost_max", VInt 900);
        ("probability", VInt 80); ("timeline", VStr "2025");
        ("reevaluation_needed", VInt 0);
        ("mitigation", VStr "m"); ("expected_result", VStr "e")];
     db := empty_database; sent := [] |}.

(** ** Vocabulary: Back navigation: what it clears *)

Definition schedule_impact_keys : list string :=
  ["impact_schedule_min"; "impact_schedule_most_likely"; "impact_schedule_max";
   "needs_schedule_evaluation"; "awaiting_schedule_values"].

(** ** Vocabulary: Probability bands *)

Definition band_values : list Z := [10; 15; 27; 47; 60].

(** ** Vocabulary: Daily reminder *)

Definition reminder_keyboard : keyboard :=
  [[InlineKeyboardButton "📢 Сообщить риск" "submit_risk"]].

(** The clock stays on one date through a run. *)
Definition same_day (env : environment) : Prop :=
  ∀ user_id, date_at_check env user_id = today_ymd env
             ∧ date_at_update env user_id = today_ymd env.

(** Whether one pass of the loop body marks [user_id]: the user was not
    notified on the date read, the reminder was delivered and the storage
    took the mark. *)
Definition marked (env : environment) (d : database) (user_id : Z) : bool :=
  negb (already_notified env user_id d) && send_ok env user_id && update_ok env user_id.

(** A user to whom a run owes a reminder: subscribed, and not notified on
    the date of the run. *)
Definition due (env : environment) (d : database) (user_id : Z) : Prop :=
  ∃ r, subscriptions_table d !! user_id = Some r
       ∧ subscriptions.is_subscribed r = 1
       ∧ subscriptions.last_notification r ≠ Some (today_ymd env).

Definition reminder_failed (user_id : Z) : action :=
  log_error ("❌ Ошибка при отправке напоминания пользователю " +:+ pretty user_id +:+ ": ").

(** What one pass of the loop body sends and logs for [user_id], read off
    the database the run started from. *)
Definition reminder_actions (env : environment) (message : string) (d : database)
    (user_id : Z) : list action :=
  let failed :=
    log_error ("❌ Ошибка при отправке напоминания пользователю "
               +:+ pretty user_id +:+ ": ") in
  if already_notified env user_id d then []
  else if send_ok env user_id then
    send_message user_id message (Some reminder_keyboard)
    :: (if update_ok env user_id
        then [log_info ("✅ Напоминание отправлено пользователю " +:+ pretty user_id)]
        else [failed])
  else [failed].

Definition reminder_message (env : environment) : string :=
  "📌 Ежедневное напоминание от " +:+ today_dmy env +:+ nl +:+ nl
  +:+ "Не забудьте заполнить информацию о рисках за сегодня!" +:+ nl +:+ nl
  +:+ "Чтобы сообщить о новом риске, нажмите кнопку 'Сообщить риск' в меню бота."
  +:+ nl +:+ nl
  +:+ "Ваши риски помогают проекту быть более управляемым и предсказуемым!".

Definition reminders (env : environment) (s : state) : list action :=
  get_subscribed_users (db s) ≫= reminder_actions env (reminder_message env) (db s).

Definition two_subscribers : state :=
  {| user_data := ∅;
     db := {| risks_table := []; risks_seq := 0;
              additional_mitigations_table := []; additional_mitigations_seq := 0;
              subscriptions_table := list_to_map
                [(1, {| subscriptions.is_subscribed := 1;
                        subscriptions.last_notification := Some "2025-01-14" |});
                 (2, {| subscriptions.is_subscribed := 1;
                        subscriptions.last_notification := None |});
                 (3, {| subscriptions.is_subscribed := 1;
                        subscriptions.last_notification := Some "2025-01-15" |});
                 (4, {| subscriptions.is_subscribed := 0;
                        subscriptions.last_notification := None |})] |};
     sent := [] |}.

Definition env_failing_for_1 : environment :=
  {| now_isoformat := "2025-01-15T11:30:00"; today_ymd := "2025-01-15";
     today_dmy := "15.01.2025"; insert_ok := true;
     send_ok := λ u, negb (u =? 1);
     date_at_check := λ _, "2025-01-15"; date_at_update := λ _, "2025-01-15";
     update_ok := λ _, true |}.

(** ** Vocabulary: Listing *)




(** ** Vocabulary: Triple entry: scanning and parsing *)

(** A non-empty run of decimal digits. *)
Definition digits (ds : list string) : Prop := ds ≠ [] ∧ Forall (λ c, is_digit c = true) ds.

(** Characters none of which is a digit: what may stand between two
    integers. *)
Definition digit_free (gap : list string) : Prop := Forall (λ c, is_digit c = false) gap.

Definition decimal_from (acc : Z) (ds : list string) : Z :=
  foldl (λ acc c, 10 * acc + digit_value c) acc ds.

Definition ends_with_minus (gap : list string) : bool := bool_decide (last gap = Some "-").

(** A digit run with the digit-free characters that stand before it. *)
Definition digit_run : Type := list string * list string.

Definition run_chars (r : digit_run) : list string := r.1 ++ r.2.

(** The integer a run writes: negative when a minus sign stands
    immediately before the digits. *)
Definition run_value (r : digit_run) : Z :=
  if ends_with_minus r.1 then - decimal_from 0 r.2 else decimal_from 0 r.2.

Definition run_token (r : digit_run) : string :=
  if ends_with_minus r.1 then "-" +:+ text_of r.2 else text_of r.2.

(** The characters of a text, cut at its integers: each run of digits with
    what stands before it, then what follows the last run.  Two runs are
    apart, so only the first may have nothing before it. *)
Definition cut_into (runs : list digit_run) (tail : list string) (cs : list string) : Prop :=
  cs = concat (run_chars <$> runs) ++ tail
  ∧ Forall (λ r, digit_free r.1 ∧ digits r.2) runs
  ∧ Forall (λ r, r.1 ≠ []) (drop 1 runs)
  ∧ digit_free tail.

(** A run that [int] refuses for its length. *)
Definition too_long (r : digit_run) : bool := (INT_MAX_STR_DIGITS <? length r.2)%nat.

Definition after_gap (st : scan) (gap : list string) : scan :=
  match gap with
  | [] => st
  | _ => if ends_with_minus gap then Minus else Idle
  end.

#[local] Arguments String.append !_ _ / : simpl nomatch.

Definition triple_steps : list triple_step :=
  [schedule_values; cost_values; schedule_values_re; cost_values_re].

(** The reply that repeats the prompt of a triple step. *)
Definition reprompt (st : triple_step) (text : string) (s : state) : state :=
  emit (reply_text text (Some (create_back_keyboard (back_data st)))) s.

(** The state after a triple was accepted: the three fields are set, the
    step no longer awaits input, and the next step is rendered. *)
Definition accept_triple (st : triple_step) (a b c : Z) (s : state) : state :=
  emit (reply_text (next_text st) (Some (next_keyboard st)))
    (set (awaiting_key st) (VBool false)
       (set (max_key st) (VInt c)
          (set (most_likely_key st) (VInt b)
             (set (min_key st) (VInt a) s)))).

(** ** Vocabulary: Back navigation: what it renders *)

(** The prompt a transport call shows: its text and its option list. *)
Definition prompt_of (a : action) : option (string * option keyboard) :=
  match a with
  | reply_text text markup => Some (text, markup)
  | edit_message_text text markup => Some (text, markup)
  | edit_message_markdown text markup => Some (text, markup)
  | send_message _ text markup => Some (text, markup)
  | _ => None
  end.

Definition last_prompt (o : outcome) : option (string * option keyboard) :=
  last (sent (final o)) ≫= prompt_of.

Definition labels (k : keyboard) : list string :=
  map (λ b, match b with InlineKeyboardButton label _ => label end) (concat k).

(** ** Vocabulary: Commit: what happens to the draft *)

Definition run (steps : list (state → outcome)) (s : state) : outcome :=
  foldl and_then (Returned s) steps.

Definition initial_state : state :=
  {| user_data := ∅; db := empty_database; sent := [] |}.

Definition press (data : string) : Update := CallbackQuery alice data.
Definition say (text : string) : Update := Message alice text.

(** A submission with re-evaluation, carried through to the commit. *)
Definition first_submission : list (state → outcome) :=
  [ submit_risk_start (press "submit_risk");
    choose_phase (press "phase_3");
    choose_object (press "object_Скважины");
    choose_category (press "cat_Бурение");
    handle_text env0 (say "first");
    request_schedule_evaluation (press "request_schedule_evaluation");
    evaluate_cost_impact (press "evaluate_cost_impact");
    handle_text env0 (say "100 300 900");
    custom_probability_request (press "custom_probability");
    handle_text env0 (say "80");
    handle_text env0 (say "2025");
    add_mitigation_with_evaluation (press "add_mitigation_with_evaluation");
    handle_text env0 (say "m1");
    handle_text env0 (say "e1");
    evaluate_schedule_impact_re (press "evaluate_schedule_impact_re");
    handle_text env0 (say "1 2 3");
    evaluate_cost_impact_re (press "evaluate_cost_impact_re");
    handle_text env0 (say "4 5 6");
    choose_probability_re env0 (press "prob_re_4") ].

(** Back to the menu, then a second submission without re-evaluation. *)
Definition second_submission : list (state → outcome) :=
  [ handle_back env0 (press "back_to_menu");
    submit_risk_start (press "submit_risk");
    choose_phase (press "phase_1");
    choose_object (press "object_Другое");
    choose_category (press "cat_ПБ");
    handle_text env0 (say "second");
    no_impact_schedule (press "no_impact_schedule");
    no_impact_cost (press "no_impact_cost");
    choose_probability (press "prob_1");
    handle_text env0 (say "t2");
    add_mitigation_without_evaluation (press "add_mitigation_without_evaluation");
    handle_text env0 (say "m2");
    handle_text env0 (say "e2") ].

(** ** Vocabulary: Commit failure *)

Definition env_insert_fails : environment :=
  {| now_isoformat := "2025-01-15T11:30:00"; today_ymd := "2025-01-15";
     today_dmy := "15.01.2025"; insert_ok := false; send_ok := λ _, true;
     date_at_check := λ _, "2025-01-15"; date_at_update := λ _, "2025-01-15";
     update_ok := λ _, true |}.

(** The draft of [first_submission] just before its last step: every step
    but the post-mitigation probability is answered. *)
Definition before_last_step : state :=
  final (run (take 18 first_submission) initial_state).

Definition save_failed_text : string :=
  "Произошла ошибка при сохранении риска. Пожалуйста, попробуйте снова.".

(** ** Vocabulary: consistency of the draft and of the stored risks *)

(** A triple of the draft: not entered yet, or three integers in order. *)
Definition triple_ok (min_key most_likely_key max_key : string) (s : state) : Prop :=
  match get min_key s, get most_likely_key s, get max_key s with
  | None, None, None => True
  | Some (VInt a), Some (VInt b), Some (VInt c) => a ≤ b ≤ c
  | _, _, _ => False
  end.

(** A probability of the draft: not entered yet, or a percentage. *)
Definition percent_ok (key : string) (s : state) : Prop :=
  match get key s with
  | None => True
  | Some (VInt p) => 0 ≤ p ≤ 100
  | Some _ => False
  end.

Definition well_formed (s : state) : Prop :=
  triple_ok "impact_schedule_min" "impact_schedule_most_likely" "impact_schedule_max" s
  ∧ triple_ok "impact_cost_min" "impact_cost_most_likely" "impact_cost_max" s
  ∧ triple_ok "impact_schedule_min_re" "impact_schedule_most_likely_re"
      "impact_schedule_max_re" s
  ∧ triple_ok "impact_cost_min_re" "impact_cost_most_likely_re" "impact_cost_max_re" s
  ∧ percent_ok "probability" s
  ∧ percent_ok "probability_re" s.

Definition ordered (min most_likely max : value) : Prop :=
  ∃ a b c, min = VInt a ∧ most_likely = VInt b ∧ max = VInt c ∧ a ≤ b ≤ c.

Definition percentage (v : value) : Prop := ∃ p, v = VInt p ∧ 0 ≤ p ≤ 100.

(** What the data model asks of a stored risk. *)
Definition row_ok (r : risks.row) : Prop :=
  ordered (risks.impact_schedule_min r) (risks.impact_schedule_most_likely r)
    (risks.impact_schedule_max r)
  ∧ ordered (risks.impact_cost_min r) (risks.impact_cost_most_likely r)
      (risks.impact_cost_max r)
  ∧ ordered (risks.impact_schedule_min_re r) (risks.impact_schedule_most_likely_re r)
      (risks.impact_schedule_max_re r)
  ∧ ordered (risks.impact_cost_min_re r) (risks.impact_cost_most_likely_re r)
      (risks.impact_cost_max_re r)
  ∧ percentage (risks.probability r)
  ∧ percentage (risks.probability_re r)
  ∧ 3 ≤ risks.risk_score r ≤ 15.

(** The record a commit builds from the draft [s], in which the score is
    already written. *)
Definition draft_record (env : environment) (update : Update) (s : state) (risk_score : Z)
    : risks.row :=
  {| risks.id := risks_seq (db s) + 1;
     risks.user_id := User.id (effective_user update);
     risks.username := username_or_full_name (effective_user update);
     risks.phase := get "phase" s;
     risks.object := get "object" s;
     risks.category := get "category" s;
     risks.description := get "description" s;
     risks.impact_schedule_min := get_default "impact_schedule_min" (VInt 0) s;
     risks.impact_schedule_most_likely :=
       get_default "impact_schedule_most_likely" (VInt 0) s;
     risks.impact_schedule_max := get_default "impact_schedule_max" (VInt 0) s;
     risks.impact_cost_min := get_default "impact_cost_min" (VInt 0) s;
     risks.impact_cost_most_likely := get_default "impact_cost_most_likely" (VInt 0) s;
     risks.impact_cost_max := get_default "impact_cost_max" (VInt 0) s;
     risks.impact_schedule_min_re := get_default "impact_schedule_min_re" (VInt 0) s;
     risks.impact_schedule_most_likely_re :=
       get_default "impact_schedule_most_likely_re" (VInt 0) s;
     risks.impact_schedule_max_re := get_default "impact_schedule_max_re" (VInt 0) s;
     risks.impact_cost_min_re := get_default "impact_cost_min_re" (VInt 0) s;
     risks.impact_cost_most_likely_re :=
       get_default "impact_cost_most_likely_re" (VInt 0) s;
     risks.impact_cost_max_re := get_default "impact_cost_max_re" (VInt 0) s;
     risks.probability := get_default "probability" (VInt 0) s;
     risks.probability_re := get_default "probability_re" (VInt 0) s;
     risks.risk_score := risk_score;
     risks.timeline := get "timeline" s;
     risks.mitigation := get "mitigation" s;
     risks.expected_result := get "expected_result" s;
     risks.reevaluation_needed := get_default "reevaluation_needed" (VInt 0) s;
     risks.needs_schedule_evaluation := get_default "needs_schedule_evaluation" (VInt 0) s;
     risks.needs_cost_evaluation := get_default "needs_cost_evaluation" (VInt 0) s;
     risks.needs_schedule_evaluation_re :=
       get_default "needs_schedule_evaluation_re" (VInt 0) s;
     risks.needs_cost_evaluation_re := get_default "needs_cost_evaluation_re" (VInt 0) s;
     risks.timestamp := now_isoformat env |}.

Definition consistent (s : state) : Prop :=
  well_formed s ∧ Forall row_ok (risks_table (db s)).

(** The handlers of the conversation, but for those that render the
    listing (with its page handler), the details of a risk, the report and
    the export: first those that take a button press, a command or one
    awaited text, then the dispatcher of free text. *)
Definition step_handlers (env : environment) : list (Update → state → outcome) :=
  [ start; subscribe env; unsubscribe; toggle_subscription env;
    submit_risk_start; select_report_phase; select_view_phase;
    custom_phase_request; handle_custom_phase; choose_phase;
    custom_object_request; handle_custom_object; choose_object;
    custom_category_request; handle_custom_category; choose_category;
    get_description;
    no_impact_schedule; request_schedule_evaluation; evaluate_schedule_impact;
    handle_schedule_values;
    no_impact_cost; request_cost_evaluation; evaluate_cost_impact; handle_cost_values;
    custom_probability_request; handle_custom_probability; choose_probability;
    handle_timeline;
    add_mitigation_with_evaluation; add_mitigation_without_evaluation;
    handle_mitigation; handle_expected_result env;
    no_impact_schedule_re; request_schedule_evaluation_re; evaluate_schedule_impact_re;
    handle_schedule_values_re;
    no_impact_cost_re; request_cost_evaluation_re; evaluate_cost_impact_re;
    handle_cost_values_re;
    custom_probability_re_request; handle_custom_probability_re env;
    choose_probability_re env;
    save_risk env; handle_back env;
    add_mitigation_start; back_to_risk_details;
    handle_new_mitigation; handle_expected_result_for_mitigation env ].

Definition handlers (env : environment) : list (Update → state → outcome) :=
  step_handlers env ++ [handle_text env].

(** The states the bot can be in: a chat starts with an empty draft, and
    every update runs one handler, which may end by raising. *)
Inductive reachable : state → Prop :=
  | reachable_fresh d o :
      Forall row_ok (risks_table d) →
      reachable {| user_data := ∅; db := d; sent := o |}
  | reachable_step env h update s :
      h ∈ handlers env → reachable s → reachable (final (h update s)).

(** ** Vocabulary: back navigation and the run of a submission *)

(** The awaiting markers that back navigation sets again, for the four
    steps whose prompt asks for a text. *)
Definition reprompted_markers : list string :=
  ["awaiting_description"; "awaiting_timeline"; "awaiting_mitigation";
   "awaiting_expected_result"].

(** The updates of a submission without re-evaluation: phase, object and
    category by button, schedule left to the experts, cost typed as a
    triple, probability typed, then timeline, mitigation and expected
    result. *)
Definition submission (env : environment) (u : User.t)
    (phase object category description cost_text probability_text
     timeline mitigation expected_result : string) : list (state → outcome) :=
  [ submit_risk_start (CallbackQuery u "submit_risk");
    choose_phase (CallbackQuery u ("phase_" +:+ phase));
    choose_object (CallbackQuery u ("object_" +:+ object));
    choose_category (CallbackQuery u ("cat_" +:+ category));
    handle_text env (Message u description);
    request_schedule_evaluation (CallbackQuery u "request_schedule_evaluation");
    evaluate_cost_impact (CallbackQuery u "evaluate_cost_impact");
    handle_text env (Message u cost_text);
    custom_probability_request (CallbackQuery u "custom_probability");
    handle_text env (Message u probability_text);
    handle_text env (Message u timeline);
    add_mitigation_without_evaluation (CallbackQuery u "add_mitigation_without_evaluation");
    handle_text env (Message u mitigation);
    handle_text env (Message u expected_result) ].

Definition fresh (d : database) (o : list action) : state :=
  {| user_data := ∅; db := d; sent := o |}.

(* ====================================================================== *)
(** * Properties *)

(** ** Parsing, on the inputs the description of the bot names *)

Example findall_ex1 : findall "10, 20, 30" = ["10"; "20"; "30"].
Proof. reflexivity. Qed.
Example findall_ex2 : findall "5-3 --7 - 9x" = ["5"; "-3"; "-7"; "9"].
Proof. reflexivity. Qed.
Example parse_ex1 : parse_three_values "10, 20, 30" = inr (10, 20, 30).
Proof. reflexivity. Qed.
Example parse_ex2 : parse_three_values "5 3 9" = inr (5, 3, 9).
Proof. reflexivity. Qed.
Example parse_ex3 :
  parse_three_values "only one number 4"
  = inl (ValueError "Неверный формат. Введите три числа.").
Proof. reflexivity. Qed.
Example py_int_ex : py_int " -1_0 " = Some (-10) ∧ py_int "1__0" = None ∧ py_int "" = None.
Proof. repeat split; reflexivity. Qed.

(** ** Scoring *)

Lemma get_cost_score_range : in_scale get_cost_score.
Proof. intros x. unfold_scores. split_thresholds; lia. Qed.

Lemma get_schedule_score_range : in_scale get_schedule_score.
Proof. intros x. unfold_scores. split_thresholds; lia. Qed.

Lemma get_probability_score_range : in_scale get_probability_score.
Proof. intros x. unfold_scores. split_thresholds; lia. Qed.

Lemma get_cost_score_monotone : monotone get_cost_score.
Proof. intros x y Hxy. unfold_scores. split_thresholds; lia. Qed.

Lemma get_schedule_score_monotone : monotone get_schedule_score.
Proof. intros x y Hxy. unfold_scores. split_thresholds; lia. Qed.

Lemma get_probability_score_monotone : monotone get_probability_score.
Proof. intros x y Hxy. unfold_scores. split_thresholds; lia. Qed.

Lemma get_cost_score_thresholds : half_open_scale get_cost_score 100 200 500 1000.
Proof. intros x. unfold_scores. split_thresholds; lia. Qed.

Lemma get_schedule_score_thresholds : half_open_scale get_schedule_score 14 45 90 150.
Proof. intros x. unfold_scores. split_thresholds; lia. Qed.

Lemma get_probability_score_thresholds :
  half_open_scale get_probability_score 10 20 50 75.
Proof. intros x. unfold_scores. split_thresholds; lia. Qed.

Lemma half_open_scale_negatives f t1 t2 t3 t4 :
  0 ≤ t1 → half_open_scale f t1 t2 t3 t4 → negatives_to_one f.
Proof. intros Ht Hf x Hx. apply (Hf x). lia. Qed.

(** C2. Each of the three scale functions is defined on every integer,
    returns a value in 1..5, is non-decreasing, sends every negative input
    to 1, and is the step function of its thresholds with a threshold value
    in the higher bucket: cost 100/200/500/1000 (99→1, 100→2, 199→2, 200→3,
    499→3, 500→4, 999→4, 1000→5), schedule 14/45/90/150, probability
    10/20/50/75. *)
Theorem scale_functions_step_monotone_bounded :
  (in_scale get_cost_score ∧ in_scale get_schedule_score
   ∧ in_scale get_probability_score)
  ∧ (monotone get_cost_score ∧ monotone get_schedule_score
     ∧ monotone get_probability_score)
  ∧ (negatives_to_one get_cost_score ∧ negatives_to_one get_schedule_score
     ∧ negatives_to_one get_probability_score)
  ∧ (half_open_scale get_cost_score 100 200 500 1000
     ∧ half_open_scale get_schedule_score 14 45 90 150
     ∧ half_open_scale get_probability_score 10 20 50 75)
  ∧ map get_cost_score [99; 100; 199; 200; 499; 500; 999; 1000]
    = [1; 2; 2; 3; 3; 4; 4; 5]
  ∧ map get_schedule_score [13; 14; 44; 45; 89; 90; 149; 150]
    = [1; 2; 2; 3; 3; 4; 4; 5]
  ∧ map get_probability_score [9; 10; 19; 20; 49; 50; 74; 75]
    = [1; 2; 2; 3; 3; 4; 4; 5].
Proof.
  split; [|split; [|split; [|split]]].
  - auto using get_cost_score_range, get_schedule_score_range,
      get_probability_score_range.
  - auto using get_cost_score_monotone, get_schedule_score_monotone,
      get_probability_score_monotone.
  - repeat split.
    + apply (half_open_scale_negatives _ 100 200 500 1000);
        [lia | apply get_cost_score_thresholds].
    + apply (half_open_scale_negatives _ 14 45 90 150);
        [lia | apply get_schedule_score_thresholds].
    + apply (half_open_scale_negatives _ 10 20 50 75);
        [lia | apply get_probability_score_thresholds].
  - auto using get_cost_score_thresholds, get_schedule_score_thresholds,
      get_probability_score_thresholds.
  - repeat split; reflexivity.
Qed.

(** ** Draft store *)

Lemma get_set_eq key v s : get key (set key v s) = Some v.
Proof. apply lookup_insert_eq. Qed.

Lemma get_set_ne key key' v s : key ≠ key' → get key' (set key v s) = get key' s.
Proof. intros. by apply lookup_insert_ne. Qed.

Lemma get_default_set_ne key key' v dflt s :
  key ≠ key' → get_default key' dflt (set key v s) = get_default key' dflt s.
Proof. intros. unfold get_default. simpl. by rewrite lookup_insert_ne. Qed.

Lemma get_pop_eq key s : get key (pop key s) = None.
Proof. apply lookup_delete_eq. Qed.

Lemma get_pop_ne key key' s : key ≠ key' → get key' (pop key s) = get key' s.
Proof. intros. by apply lookup_delete_ne. Qed.

(** ** Commit *)

Lemma scored_set_ne key key' v s : key ≠ key' → scored key' (set key v s) = scored key' s.
Proof. intros. unfold scored. by rewrite get_default_set_ne. Qed.

Lemma save_risk_commits env update s cost schedule prob :
  insert_ok env = true →
  scored "impact_cost_most_likely" s = Some cost →
  scored "impact_schedule_most_likely" s = Some schedule →
  scored "probability" s = Some prob →
  ∃ s' r,
    save_risk env update s = Returned s'
    ∧ risks_table (db s') = risks_table (db s) ++ [r]
    ∧ risks.risk_score r
      = get_cost_score cost + get_schedule_score schedule + get_probability_score prob
    ∧ user_data s' = <["risk_score" := VInt (risks.risk_score r)]> (user_data s).
Proof.
  unfold scored. intros Hok Hc Hs Hp. unfold save_risk.
  rewrite Hc, Hs, Hp, Hok.
  destruct update; eexists _, _; (split; [reflexivity |]); simpl; auto.
Qed.

(** C1. When a draft is committed, the record's composite score is
    [get_schedule_score] of the pre-mitigation schedule most-likely value
    plus [get_cost_score] of the pre-mitigation cost most-likely value plus
    [get_probability_score] of the pre-mitigation probability; it lies in
    3..15; and it does not change when any other draft field, the
    re-evaluation flag and the [_re] fields included, is given another
    value. *)
Theorem save_risk_score_from_pre_mitigation env update s cost schedule prob :
  insert_ok env = true →
  scored "impact_cost_most_likely" s = Some cost →
  scored "impact_schedule_most_likely" s = Some schedule →
  scored "probability" s = Some prob →
  ∃ s' r,
    save_risk env update s = Returned s'
    ∧ risks_table (db s') = risks_table (db s) ++ [r]
    ∧ risks.risk_score r
      = get_schedule_score schedule + get_cost_score cost + get_probability_score prob
    ∧ 3 ≤ risks.risk_score r ≤ 15
    ∧ ∀ key v, key ∉ scored_keys →
        ∃ s'' r',
          save_risk env update (set key v s) = Returned s''
          ∧ risks_table (db s'') = risks_table (db s) ++ [r']
          ∧ risks.risk_score r' = risks.risk_score r.
Proof.
  intros Hok Hc Hs Hp.
  destruct (save_risk_commits env update s cost schedule prob) as (s' & r & E & T & R & _);
    try done.
  exists s', r. repeat split; try done.
  - lia.
  - rewrite R. pose proof (get_cost_score_range cost).
    pose proof (get_schedule_score_range schedule).
    pose proof (get_probability_score_range prob). lia.
  - rewrite R. pose proof (get_cost_score_range cost).
    pose proof (get_schedule_score_range schedule).
    pose proof (get_probability_score_range prob). lia.
  - intros key v Hkey.
    assert (key ≠ "probability" ∧ key ≠ "impact_cost_most_likely"
            ∧ key ≠ "impact_schedule_most_likely") as (N1 & N2 & N3).
    { unfold scored_keys in Hkey. set_solver. }
    destruct (save_risk_commits env update (set key v s) cost schedule prob)
      as (s'' & r' & E' & T' & R' & _);
      rewrite ?scored_set_ne by done; try done.
    exists s'', r'. repeat split; try done. congruence.
Qed.

Lemma save_risk_score_from_pre_mitigation_witness :
  ∃ s' r,
    save_risk env0 (Message alice "e") scenario_draft = Returned s'
    ∧ risks_table (db s') = risks_table (db scenario_draft) ++ [r]
    ∧ risks.risk_score r
      = get_schedule_score 0 + get_cost_score 300 + get_probability_score 80
    ∧ 3 ≤ risks.risk_score r ≤ 15
    ∧ ∀ key v, key ∉ scored_keys →
        ∃ s'' r',
          save_risk env0 (Message alice "e") (set key v scenario_draft) = Returned s''
          ∧ risks_table (db s'') = risks_table (db scenario_draft) ++ [r']
          ∧ risks.risk_score r' = risks.risk_score r.
Proof.
  apply (save_risk_score_from_pre_mitigation env0 (Message alice "e") scenario_draft
           300 0 80); reflexivity.
Defined.

Example scenario_score :
  ∃ s' r, save_risk env0 (Message alice "e") scenario_draft = Returned s'
          ∧ risks_table (db s') = [r] ∧ risks.risk_score r = 9
          ∧ risks.needs_schedule_evaluation r = VInt 1
          ∧ risks.reevaluation_needed r = VInt 0.
Proof. eexists _, _. split; [reflexivity |]. repeat split. Qed.

(** ** Back navigation: what it clears *)

(** C5. Back-navigation to the schedule-impact return point removes from
    the draft the schedule triple, its deferral flag and the marker that a
    triple is awaited, and nothing else: every other field, phase, object,
    category and description among them, keeps its value. *)
Theorem back_to_schedule_impact_clears_exactly env u s :
  ∃ s',
    handle_back env (CallbackQuery u "back_to_schedule_impact") s = Returned s'
    ∧ (∀ key, key ∈ schedule_impact_keys → get key s' = None)
    ∧ (∀ key, key ∉ schedule_impact_keys → get key s' = get key s)
    ∧ get "phase" s' = get "phase" s
    ∧ get "object" s' = get "object" s
    ∧ get "category" s' = get "category" s
    ∧ get "description" s' = get "description" s
    ∧ db s' = db s.
Proof.
  eexists. split; [reflexivity |].
  assert (∀ key, key ∉ schedule_impact_keys →
            delete "awaiting_schedule_values"
              (delete "needs_schedule_evaluation"
                 (delete "impact_schedule_max"
                    (delete "impact_schedule_most_likely"
                       (delete "impact_schedule_min" (user_data s))))) !! key
            = user_data s !! key) as Hframe.
  { intros key Hkey. unfold schedule_impact_keys in Hkey.
    rewrite !lookup_delete_ne; [done | set_solver ..]. }
  unfold get; simpl. split; [| split].
  - intros key Hkey. unfold schedule_impact_keys in Hkey.
    repeat (apply elem_of_cons in Hkey as [-> | Hkey];
            [by rewrite ?lookup_delete_ne, ?lookup_delete_eq by done |]).
    by apply elem_of_nil in Hkey.
  - exact Hframe.
  - repeat split; try (apply Hframe; apply (bool_decide_unpack _); by vm_compute).
Qed.

(** ** Probability bands *)

Lemma PROBABILITY_MAPPING_lookup k p :
  PROBABILITY_MAPPING !! k = Some p →
  1 ≤ k ≤ 5 ∧ p ∈ band_values ∧ get_probability_score p ≤ 4.
Proof.
  unfold PROBABILITY_MAPPING, band_values. intros H.
  apply elem_of_list_to_map_2 in H.
  repeat (apply elem_of_cons in H as [[= -> ->] | H];
          [split; [lia | split; [| by vm_compute]];
           apply (bool_decide_unpack _); by vm_compute |]).
  by apply elem_of_nil in H.
Qed.

Lemma choose_probability_stores u data s :
  ∃ s', choose_probability (CallbackQuery u data) s = Returned s'
        ∧ (get "probability" s' = get "probability" s
           ∨ ∃ k p, PROBABILITY_MAPPING !! k = Some p
                    ∧ get "probability" s' = Some (VInt p)).
Proof.
  unfold choose_probability, with_query.
  destruct (String.prefix "prob_re_" data); [eexists; split; [done | by left] |].
  destruct (split_on "_" data !! 1%nat) as [level |];
    [| eexists; split; [done | by left]].
  destruct (py_int level) as [k |]; [| eexists; split; [done | by left]].
  destruct (PROBABILITY_MAPPING !! k) as [p |] eqn:E;
    [| eexists; split; [done | by left]].
  eexists; split; [done |]. right. exists k, p. split; [done |].
  unfold get; simpl. rewrite lookup_insert_ne by done. apply lookup_insert_eq.
Qed.

(** C10. Pressing the button of band k (callback data [prob_k], k in 1..5)
    stores [PROBABILITY_MAPPING[k]], one of 10, 15, 27, 47, 60, and each of
    these scores at most 4; the last band stores 60, which scores 4.
    Whatever the callback data, [choose_probability] leaves the stored
    probability as it was or stores a mapped value, so no button yields a
    probability score of 5.  A custom entry stores the integer typed, which
    lies in 0..100, and a stored integer scores 5 exactly when it is 75 or
    more: 5 is reached only through custom entry. *)
Theorem probability_bands_score_at_most_four :
  (∀ u s k, 1 ≤ k ≤ 5 →
     ∃ p s', PROBABILITY_MAPPING !! k = Some p
             ∧ p ∈ band_values
             ∧ choose_probability (CallbackQuery u ("prob_" +:+ pretty k)) s = Returned s'
             ∧ get "probability" s' = Some (VInt p)
             ∧ get_probability_score p ≤ 4)
  ∧ (PROBABILITY_MAPPING !! 5 = Some 60 ∧ get_probability_score 60 = 4)
  ∧ (∀ u data s,
       ∃ s', choose_probability (CallbackQuery u data) s = Returned s'
             ∧ (get "probability" s' = get "probability" s
                ∨ ∃ p, get "probability" s' = Some (VInt p)
                       ∧ p ∈ band_values ∧ get_probability_score p ≤ 4))
  ∧ (∀ update s s' p,
       handle_custom_probability update s = Returned s' →
       get "probability" s' = Some (VInt p) →
       get "probability" s' ≠ get "probability" s →
       ∃ text, update = Message (effective_user update) text
               ∧ py_int text = Some p ∧ 0 ≤ p ≤ 100)
  ∧ (∀ p, get_probability_score p = 5 ↔ 75 ≤ p)
  ∧ (∀ u s, truthy (get "awaiting_custom_probability" s) = true →
       ∃ s', handle_custom_probability (Message u "80") s = Returned s'
             ∧ get "probability" s' = Some (VInt 80)
             ∧ get_probability_score 80 = 5).
Proof.
  split; [| split; [| split; [| split; [| split]]]].
  - intros u s k Hk.
    assert (k = 1 ∨ k = 2 ∨ k = 3 ∨ k = 4 ∨ k = 5) as Hcases by lia.
    destruct Hcases as [-> | [-> | [-> | [-> | ->]]]];
      eexists _, _; (split; [reflexivity |]);
      (split; [apply (bool_decide_unpack _); by vm_compute |]);
      (split; [reflexivity |]);
      (split; [unfold get; simpl; by rewrite lookup_insert_ne, lookup_insert_eq
              | by vm_compute]).
  - split; reflexivity.
  - intros u data s.
    destruct (choose_probability_stores u data s) as (s' & E & [H | (k & p & Hk & H)]);
      exists s'; (split; [done |]); [by left | right].
    exists p. split; [done |]. by apply PROBABILITY_MAPPING_lookup in Hk as (_ & ? & ?).
  - intros update s s' p E Hp Hne.
    unfold handle_custom_probability in E.
    destruct (negb _); [by inversion E; subst |].
    destruct update as [u text | u data]; simpl in E; [| done].
    exists text. split; [done |].
    destruct (py_int text) as [prob |]; [| by inversion E; subst].
    destruct (Z.ltb_spec prob 0); simpl in E; [by inversion E; subst |].
    destruct (Z.gtb_spec prob 100); simpl in E; [by inversion E; subst |].
    inversion E; subst. unfold get in Hp; simpl in Hp.
    rewrite !lookup_insert_ne, lookup_insert_eq in Hp by done.
    inversion Hp; subst. split; [done | lia].
  - intros p. unfold_scores. split_thresholds; lia.
  - intros u s Haw. unfold handle_custom_probability. rewrite Haw. simpl.
    eexists. split; [reflexivity |]. split; [| reflexivity].
    unfold get; simpl. by rewrite !lookup_insert_ne, lookup_insert_eq by done.
Qed.

(** ** Daily reminder *)

Lemma remind_sent env message s u :
  sent (remind env message s u) = sent s ++ reminder_actions env message (db s) u.
Proof.
  unfold remind, reminder_actions.
  destruct (already_notified env u (db s)); [by rewrite app_nil_r |].
  destruct (send_ok env u); simpl; [| done].
  destruct (update_ok env u); simpl; by rewrite <- app_assoc.
Qed.

Lemma remind_db env message s u :
  db (remind env message s u)
  = if marked env (db s) u then mark_notified env u (db s) else db s.
Proof.
  unfold remind, marked.
  destruct (already_notified env u (db s)); [done |].
  destruct (send_ok env u); [| done]. by destruct (update_ok env u).
Qed.

Lemma remind_user_data env message s u : user_data (remind env message s u) = user_data s.
Proof.
  unfold remind. destruct (already_notified env u (db s)); [done |].
  destruct (send_ok env u); [| done]. by destruct (update_ok env u).
Qed.

Lemma already_notified_mark_ne env u v d :
  u ≠ v → already_notified env v (mark_notified env u d) = already_notified env v d.
Proof.
  intros. unfold already_notified, mark_notified. simpl.
  by rewrite lookup_alter_ne.
Qed.

Lemma already_notified_remind_ne env message s u v :
  u ≠ v →
  already_notified env v (db (remind env message s u)) = already_notified env v (db s).
Proof.
  intros. rewrite remind_db. destruct (marked env (db s) u); [| done].
  by apply already_notified_mark_ne.
Qed.

Lemma reminder_actions_remind_ne env message s u v :
  u ≠ v →
  reminder_actions env message (db (remind env message s u)) v
  = reminder_actions env message (db s) v.
Proof.
  intros. unfold reminder_actions. by rewrite already_notified_remind_ne.
Qed.

Lemma marked_remind_ne env message s u v :
  u ≠ v → marked env (db (remind env message s u)) v = marked env (db s) v.
Proof. intros. unfold marked. by rewrite already_notified_remind_ne. Qed.

(** The loop over users with distinct ids: what is sent for each user is
    decided by the database the run started from. *)
Lemma foldl_remind_sent env message l :
  NoDup l → ∀ s,
    sent (foldl (remind env message) s l)
    = sent s ++ (l ≫= reminder_actions env message (db s)).
Proof.
  induction 1 as [| u l Hu Hl IH]; intros s; simpl.
  - by rewrite app_nil_r.
  - rewrite IH, remind_sent, <- app_assoc. do 2 f_equal.
    apply Forall_bind_ext, Forall_forall. intros v Hv.
    apply reminder_actions_remind_ne. by intros ->.
Qed.

(** The row of a user after the loop: marked when the loop came to the
    user and marked it, and as it was otherwise. *)
Lemma foldl_remind_row env message l :
  NoDup l → ∀ s v,
    subscriptions_table (db (foldl (remind env message) s l)) !! v
    = if bool_decide (v ∈ l) && marked env (db s) v
      then subscriptions_table (mark_notified env v (db s)) !! v
      else subscriptions_table (db s) !! v.
Proof.
  induction 1 as [| u l Hu Hl IH]; intros s v; simpl; [done |].
  rewrite IH. destruct (decide (v = u)) as [-> | Hne].
  - rewrite (bool_decide_eq_false_2 (u ∈ l)) by done.
    rewrite (bool_decide_eq_true_2 (u ∈ u :: l)) by (apply elem_of_cons; auto).
    simpl. rewrite remind_db. by destruct (marked env (db s) u).
  - rewrite marked_remind_ne by done.
    assert (bool_decide (v ∈ u :: l) = bool_decide (v ∈ l)) as ->.
    { apply bool_decide_ext. rewrite elem_of_cons. split; [by intros [? | ?] | auto]. }
    assert (∀ d, subscriptions_table (mark_notified env v d) !! v
                 = (λ r, {| subscriptions.is_subscribed := subscriptions.is_subscribed r;
                            subscriptions.last_notification :=
                              Some (date_at_update env v) |})
                   <$> subscriptions_table d !! v) as Hmark.
    { intros d. unfold mark_notified. simpl. by rewrite lookup_alter_eq. }
    assert (subscriptions_table (db (remind env message s u)) !! v
            = subscriptions_table (db s) !! v) as Hrow.
    { rewrite remind_db. destruct (marked env (db s) u); [| done].
      unfold mark_notified. simpl. by rewrite lookup_alter_ne. }
    by rewrite Hmark, Hrow, lookup_alter_eq.
Qed.

Lemma foldl_remind_frame env message l : ∀ s,
  let s' := foldl (remind env message) s l in
  user_data s' = user_data s
  ∧ risks_table (db s') = risks_table (db s)
  ∧ risks_seq (db s') = risks_seq (db s)
  ∧ additional_mitigations_table (db s') = additional_mitigations_table (db s)
  ∧ additional_mitigations_seq (db s') = additional_mitigations_seq (db s).
Proof.
  induction l as [| u l IH]; intros s; simpl; [done |].
  destruct (IH (remind env message s u)) as (-> & -> & -> & -> & ->).
  rewrite remind_user_data, remind_db. by destruct (marked env (db s) u).
Qed.

Lemma elem_of_get_subscribed_users d u :
  u ∈ get_subscribed_users d
  ↔ ∃ r, subscriptions_table d !! u = Some r ∧ subscriptions.is_subscribed r = 1.
Proof.
  unfold get_subscribed_users. rewrite merge_sort_Permutation, list_elem_of_fmap. split.
  - intros ([u' r] & -> & H). apply elem_of_map_to_list in H.
    apply map_lookup_filter_Some in H as [? ?]. by exists r.
  - intros (r & H1 & H2). exists (u, r). split; [done |].
    apply elem_of_map_to_list. by apply map_lookup_filter_Some.
Qed.

Lemma get_subscribed_users_NoDup d : NoDup (get_subscribed_users d).
Proof.
  unfold get_subscribed_users. rewrite merge_sort_Permutation.
  apply NoDup_fst_map_to_list.
Qed.

Lemma StronglySorted_le_lt (l : list Z) :
  StronglySorted Z.le l → NoDup l → StronglySorted Z.lt l.
Proof.
  induction 1 as [| x l Hl IH Hx]; intros Hnd; [constructor |].
  apply NoDup_cons in Hnd as [Hx' Hnd]. constructor; [by apply IH |].
  apply Forall_forall. intros y Hy. rewrite Forall_forall in Hx.
  specialize (Hx y Hy). assert (x ≠ y) by (by intros ->). lia.
Qed.

(** The subscribed users are visited in the order of their ids. *)
Lemma get_subscribed_users_sorted d : StronglySorted Z.lt (get_subscribed_users d).
Proof.
  apply StronglySorted_le_lt; [| apply get_subscribed_users_NoDup].
  apply StronglySorted_merge_sort; apply _.
Qed.

Lemma send_message_in_reminder_actions env message d l u m k :
  send_message u m k ∈ l ≫= reminder_actions env message d
  ↔ u ∈ l ∧ already_notified env u d = false ∧ send_ok env u = true
    ∧ m = message ∧ k = Some reminder_keyboard.
Proof.
  rewrite list_elem_of_bind. unfold reminder_actions. split.
  - intros (v & Hin & Hv).
    destruct (already_notified env v d) eqn:E; [by apply elem_of_nil in Hin |].
    destruct (send_ok env v) eqn:E'.
    + apply elem_of_cons in Hin as [[= -> -> ->] | Hin]; [done |].
      destruct (update_ok env v);
        (apply elem_of_cons in Hin as [? | Hin]; [done | by apply elem_of_nil in Hin]).
    + apply elem_of_cons in Hin as [? | Hin]; [done | by apply elem_of_nil in Hin].
  - intros (Hu & E & E' & -> & ->). exists u. split; [| done].
    rewrite E, E'. apply elem_of_cons. by left.
Qed.

Lemma reminder_failed_in_reminder_actions env message d l u :
  u ∈ l → already_notified env u d = false →
  send_ok env u = false ∨ update_ok env u = false →
  reminder_failed u ∈ l ≫= reminder_actions env message d.
Proof.
  intros Hu E Hfail. apply list_elem_of_bind. exists u. split; [| done].
  unfold reminder_actions. rewrite E.
  destruct (send_ok env u); [| by apply elem_of_cons; left].
  destruct Hfail as [? | ->]; [done |].
  apply elem_of_cons. right. apply elem_of_cons. by left.
Qed.

Lemma send_daily_reminder_sent env s :
  sent (send_daily_reminder env s) = sent s ++ reminders env s.
Proof. apply foldl_remind_sent, get_subscribed_users_NoDup. Qed.

Lemma reminders_skip_notified env s u m k :
  already_notified env u (db s) = true → send_message u m k ∉ reminders env s.
Proof.
  intros Hu Hin. apply send_message_in_reminder_actions in Hin as (_ & E & _).
  congruence.
Qed.

(** On one date, a user is due exactly when the loop comes to the user
    and finds no mark of that date. *)
Lemma due_iff env d u :
  same_day env →
  due env d u ↔ u ∈ get_subscribed_users d ∧ already_notified env u d = false.
Proof.
  intros Hday. destruct (Hday u) as [Hcheck _].
  rewrite elem_of_get_subscribed_users. unfold due, already_notified. rewrite Hcheck.
  split.
  - intros (r & Hr & Hsub & Hdate). split; [by exists r |].
    rewrite Hr. by apply bool_decide_eq_false.
  - intros [(r & Hr & Hsub) Hnot]. exists r. rewrite Hr in Hnot.
    apply bool_decide_eq_false in Hnot. done.
Qed.

Lemma marked_iff env d u :
  same_day env → u ∈ get_subscribed_users d →
  marked env d u = true ↔ due env d u ∧ send_ok env u = true ∧ update_ok env u = true.
Proof.
  intros Hday Hu. rewrite due_iff by done. unfold marked.
  rewrite !andb_true_iff, negb_true_iff. naive_solver.
Qed.

(** The rows of the subscriptions after a run on one date. *)
Lemma send_daily_reminder_row env s u :
  same_day env →
  subscriptions_table (db (send_daily_reminder env s)) !! u
  = if bool_decide (u ∈ get_subscribed_users (db s)) && marked env (db s) u
    then Some {| subscriptions.is_subscribed := 1;
                 subscriptions.last_notification := Some (today_ymd env) |}
    else subscriptions_table (db s) !! u.
Proof.
  intros Hday. unfold send_daily_reminder.
  rewrite foldl_remind_row by apply get_subscribed_users_NoDup.
  case_bool_decide as Hu; [| done]. simpl.
  destruct (marked env (db s) u); [| done].
  apply elem_of_get_subscribed_users in Hu as (r & Hr & Hsub).
  unfold mark_notified. simpl. rewrite lookup_alter_eq, Hr. simpl.
  destruct (Hday u) as [_ ->]. by rewrite Hsub.
Qed.

(** C8. One run of the reminder callback during which the date does not
    change.  The run visits the users whose row says subscribed, in the
    order of their ids, and what it sends and logs is decided user by user
    from the table it started from: a reminder goes exactly to the
    subscribed users whose last-notification date is not today and to whom
    the transport delivers; a delivery that fails, and a mark that the
    storage refuses, are logged for that user, whatever happens for the
    other users; the row of a user who was delivered the reminder and whose
    mark was taken has its date set to today, and every other row, and all
    else of the state, is as it was.  A second run on the same date sends a
    reminder only to users who were due at the first run and were then not
    delivered one or not marked. *)
Theorem daily_reminder_once_per_day env s :
  same_day env →
  let d := db s in
  let s' := send_daily_reminder env s in
  ∃ users acts,
    StronglySorted Z.lt users
    ∧ (∀ u, u ∈ users ↔ ∃ r, subscriptions_table d !! u = Some r
                             ∧ subscriptions.is_subscribed r = 1)
    ∧ sent s' = sent s ++ acts
    ∧ acts = users ≫= reminder_actions env (reminder_message env) d
    ∧ (∀ u m k, send_message u m k ∈ acts
                ↔ due env d u ∧ send_ok env u = true
                  ∧ m = reminder_message env ∧ k = Some reminder_keyboard)
    ∧ (∀ u, due env d u → send_ok env u = false ∨ update_ok env u = false →
            reminder_failed u ∈ acts)
    ∧ (∀ u, due env d u → send_ok env u = true → update_ok env u = true →
            subscriptions_table (db s') !! u
            = Some {| subscriptions.is_subscribed := 1;
                      subscriptions.last_notification := Some (today_ymd env) |})
    ∧ (∀ u, ¬ (due env d u ∧ send_ok env u = true ∧ update_ok env u = true) →
            subscriptions_table (db s') !! u = subscriptions_table d !! u)
    ∧ user_data s' = user_data s
    ∧ risks_table (db s') = risks_table d
    ∧ additional_mitigations_table (db s') = additional_mitigations_table d
    ∧ (∀ env2, same_day env2 → today_ymd env2 = today_ymd env →
         ∃ acts2,
           sent (send_daily_reminder env2 s') = sent s' ++ acts2
           ∧ ∀ u m k,
               send_message u m k ∈ acts2
               ↔ (due env d u ∧ (send_ok env u = false ∨ update_ok env u = false))
                 ∧ send_ok env2 u = true
                 ∧ m = reminder_message env2 ∧ k = Some reminder_keyboard).
Proof.
  intros Hday d s'.
  assert (∀ u m k, send_message u m k ∈ reminders env s
                   ↔ due env d u ∧ send_ok env u = true
                     ∧ m = reminder_message env ∧ k = Some reminder_keyboard) as Hsent.
  { intros u m k. unfold reminders. rewrite send_message_in_reminder_actions.
    rewrite due_iff by done. split.
    - by intros (? & ? & ? & ? & ?).
    - by intros ([? ?] & ? & ? & ?). }
  pose (taken u := bool_decide (u ∈ get_subscribed_users d) && marked env d u).
  assert (∀ u, taken u = true
               ↔ due env d u ∧ send_ok env u = true ∧ update_ok env u = true) as Htaken.
  { intros u. unfold taken. rewrite andb_true_iff, bool_decide_eq_true. split.
    - intros [Hu Hm]. by apply marked_iff.
    - intros H. assert (u ∈ get_subscribed_users d) as Hu.
      { destruct H as [Hdue _]. by apply due_iff in Hdue as [? _]. }
      split; [done |]. by apply marked_iff. }
  assert (∀ u, subscriptions_table (db s') !! u
               = if taken u
                 then Some {| subscriptions.is_subscribed := 1;
                              subscriptions.last_notification := Some (today_ymd env) |}
                 else subscriptions_table d !! u) as Hrow.
  { intros u. unfold s'. by rewrite send_daily_reminder_row. }
  exists (get_subscribed_users d), (reminders env s).
  split; [apply get_subscribed_users_sorted |].
  split; [apply elem_of_get_subscribed_users |].
  split; [apply send_daily_reminder_sent |].
  split; [done |].
  split; [done |].
  split.
  { intros u Hdue Hfail. apply due_iff in Hdue as [Hu Hnot]; [| done].
    by apply reminder_failed_in_reminder_actions. }
  split.
  { intros u Hdue Hsend Hupd. rewrite Hrow.
    by rewrite (proj2 (Htaken u)). }
  split.
  { intros u Hnot. rewrite Hrow. destruct (taken u) eqn:E; [| done].
    by apply Htaken in E. }
  destruct (foldl_remind_frame env (reminder_message env) (get_subscribed_users d) s)
    as (Hud & Hrisks & _ & Hmit & _).
  split; [exact Hud |]. split; [exact Hrisks |]. split; [exact Hmit |].
  intros env2 Hday2 Hsame. exists (reminders env2 s').
  split; [apply send_daily_reminder_sent |].
  intros u m k. unfold reminders. rewrite send_message_in_reminder_actions.
  assert (due env2 (db s') u
          ↔ due env d u ∧ (send_ok env u = false ∨ update_ok env u = false)) as Hdue2.
  { unfold due at 1. rewrite Hrow, Hsame. destruct (taken u) eqn:Hm.
    - apply Htaken in Hm as (_ & Hs & Hu). split.
      + by intros (r & [= <-] & _ & Hdate).
      + intros [_ [? | ?]]; congruence.
    - split.
      + intros Hdue. split; [done |].
        destruct (send_ok env u) eqn:Hs; [| auto].
        destruct (update_ok env u) eqn:Hu; [| auto].
        rewrite (proj2 (Htaken u)) in Hm; [done |]. by rewrite Hs, Hu.
      + by intros [? _]. }
  rewrite <- Hdue2, (due_iff env2) by done. split.
  - by intros (? & ? & ? & ? & ?).
  - by intros ([? ?] & ? & ? & ?).
Qed.

Lemma daily_reminder_once_per_day_witness :
  let s' := send_daily_reminder env_failing_for_1 two_subscribers in
  sent s'
  = [reminder_failed 1;
     send_message 2 (reminder_message env_failing_for_1) (Some reminder_keyboard);
     log_info "✅ Напоминание отправлено пользователю 2"]
  ∧ subscriptions_table (db s') !! 2
    = Some {| subscriptions.is_subscribed := 1;
              subscriptions.last_notification := Some "2025-01-15" |}
  ∧ subscriptions_table (db s') !! 1 = subscriptions_table (db two_subscribers) !! 1.
Proof.
  assert (same_day env_failing_for_1) as Hday by done.
  destruct (daily_reminder_once_per_day env_failing_for_1 two_subscribers Hday)
    as (users & acts & _ & _ & Hsent & _ & _ & _ & Hmarked & Hkept & _).
  split; [by vm_compute |].
  split.
  - apply Hmarked; [| done | done]. eexists. by split; [| split].
  - apply Hkept. by intros (_ & ? & _).
Defined.

(** X6. Delivery to user 1 fails: user 1 comes first and is only logged
    and stays unmarked, user 2 is reminded after that and marked, user 3
    (already notified today) and user 4 (unsubscribed) get nothing. *)
Example reminder_failure_is_isolated :
  let s' := send_daily_reminder env_failing_for_1 two_subscribers in
  sent s'
  = [log_error "❌ Ошибка при отправке напоминания пользователю 1: ";
     send_message 2 (reminder_message env_failing_for_1) (Some reminder_keyboard);
     log_info "✅ Напоминание отправлено пользователю 2"]
  ∧ already_notified env_failing_for_1 1 (db s') = false
  ∧ already_notified env_failing_for_1 2 (db s') = true.
Proof. vm_compute. split; [reflexivity | done]. Qed.

(** ** Listing *)

#[global] Instance listed_before_trans : Transitive listed_before.
Proof. unfold listed_before. intros a b c ? ?. lia. Qed.

#[global] Instance listed_before_total : Total listed_before.
Proof. unfold listed_before. intros a b. lia. Qed.

Lemma StronglySorted_take {A} (R : relation A) n l :
  StronglySorted R l → StronglySorted R (take n l).
Proof.
  intros H. rewrite <- (take_drop n l) in H. by apply StronglySorted_app_1_l in H.
Qed.

Lemma StronglySorted_drop {A} (R : relation A) n l :
  StronglySorted R l → StronglySorted R (drop n l).
Proof.
  intros H. rewrite <- (take_drop n l) in H. by apply StronglySorted_app_1_r in H.
Qed.




Lemma prefix_inv p : ∀ s, String.prefix p s = true → ∃ r, s = p +:+ r.
Proof.
  induction p as [| a p IH]; intros s; [by exists s |].
  destruct s as [| b s]; cbn [String.prefix]; [done |].
  destruct (ascii_dec a b) as [-> |]; [| done].
  intros H. destruct (IH _ H) as [r ->]. by exists r.
Qed.

Lemma split_max_0 sep s : split_max sep 0 s = [s].
Proof. by destruct s. Qed.

Lemma split_view_phase phase : split_max "_" 2 ("view_phase_" +:+ phase) !! 2%nat = Some phase.
Proof. cbn. by rewrite split_max_0. Qed.





(** X4. The listing always answers a button press.  Whatever the callback
    data, the draft and the table hold, also a page that is not a number,
    a page too large for the storage or a stored risk without description,
    the handler ends normally: it answers the query, edits the message
    exactly once, with the list, the empty notice or, after logging the
    failure, the failure notice, leaves the database as it was and writes
    to the draft at most the selected phase. *)
Theorem view_risks_list_always_answers u data s :
  ∃ s' acts text keyboard,
    view_risks_list (CallbackQuery u data) s = Returned s'
    ∧ db s' = db s
    ∧ (∀ key, key ≠ "selected_view_phase" → get key s' = get key s)
    ∧ sent s' = sent s ++ answer None :: acts
    ∧ (acts = [edit_message_markdown text keyboard]
       ∨ acts = [edit_message_text text keyboard]
       ∨ acts = [log_error "❌ Ошибка при получении списка рисков: ";
                 edit_message_text text keyboard]).
Proof.
  unfold view_risks_list, with_query.
  destruct (String.prefix "view_phase_" data) eqn:Hprefix.
  - apply prefix_inv in Hprefix as [phase ->]. rewrite split_view_phase. cbv zeta.
    repeat case_match;
      (eexists _, _, _, _; split; [reflexivity |]; split; [reflexivity |];
       split; [intros key Hkey; unfold get; cbn [user_data emit set];
               by rewrite lookup_insert_ne by done |];
       split; [cbn [sent set emit]; rewrite <- !app_assoc; reflexivity |]; auto).
  - cbv zeta.
    repeat case_match;
      (eexists _, _, _, _; split; [reflexivity |]; split; [reflexivity |];
       split; [done |];
       split; [cbn [sent set emit]; rewrite <- !app_assoc; reflexivity |]; auto).
Qed.

(** ** Triple entry: scanning and parsing *)

Lemma append_assoc (s1 s2 s3 : string) : (s1 +:+ s2) +:+ s3 = s1 +:+ (s2 +:+ s3).
Proof. induction s1 as [| c s1 IH]; simpl; [done | by rewrite IH]. Qed.

Lemma append_empty_r (s : string) : s +:+ "" = s.
Proof. induction s as [| c s IH]; simpl; [done | by rewrite IH]. Qed.

Lemma text_of_app cs1 cs2 : text_of (cs1 ++ cs2) = text_of cs1 +:+ text_of cs2.
Proof.
  induction cs1 as [| c cs1 IH]; simpl; [done |]. by rewrite IH, append_assoc.
Qed.

(** One step of [chars]: the first character and the text after it. *)
Lemma chars_step s :
  s ≠ "" →
  ∃ c r, chars s = c :: chars r ∧ s = c +:+ r ∧ c ≠ ""
         ∧ (String.length r < String.length s)%nat.
Proof.
  destruct s as [| b0 r0]; [done |]. intros _. cbn [chars].
  assert (∃ c r, String b0 "" :: chars r0 = c :: chars r ∧ String b0 r0 = c +:+ r
                 ∧ c ≠ "" ∧ (String.length r < String.length (String b0 r0))%nat) as Hone.
  { exists (String b0 ""), r0. simpl. split_and!; (done || lia). }
  destruct (byte b0 <? 194)%N; [done |].
  destruct r0 as [| b1 r1]; [done |].
  destruct (negb (is_continuation b1)); [done |].
  destruct (byte b0 <? 224)%N.
  { exists (String b0 (String b1 "")), r1. simpl. split_and!; (done || lia). }
  destruct r1 as [| b2 r2]; [done |].
  destruct (negb (is_continuation b2)); [done |].
  destruct (byte b0 <? 240)%N.
  { exists (String b0 (String b1 (String b2 ""))), r2. simpl. split_and!; (done || lia). }
  destruct r2 as [| b3 r3]; [done |].
  destruct (is_continuation b3 && (byte b0 <? 245)%N); [| done].
  exists (String b0 (String b1 (String b2 (String b3 "")))), r3.
  simpl. split_and!; (done || lia).
Qed.

Lemma chars_ind (P : string → Prop) :
  P "" → (∀ c r, c ≠ "" → chars (c +:+ r) = c :: chars r → P r → P (c +:+ r)) → ∀ s, P s.
Proof.
  intros Hnil Hstep s. remember (String.length s) as n eqn:Hn. revert s Hn.
  induction n as [n IH] using lt_wf_ind. intros s ->.
  destruct (decide (s = "")) as [-> | Hne]; [done |].
  destruct (chars_step s Hne) as (c & r & E & -> & Hc & Hlt).
  apply Hstep; [done | done |]. by apply (IH _ Hlt).
Qed.

(** Cutting a text into characters loses nothing. *)
Lemma text_of_chars s : text_of (chars s) = s.
Proof.
  induction s as [| c r Hc E IH] using chars_ind; [done |].
  rewrite E. simpl. by rewrite IH.
Qed.

Lemma chars_nonempty s : Forall (λ c, c ≠ "") (chars s).
Proof.
  induction s as [| c r Hc E IH] using chars_ind; [constructor |].
  rewrite E. by constructor.
Qed.

Ltac bounds :=
  repeat match goal with
         | H : _ && _ = true |- _ => apply andb_prop in H as [? ?]
         | H : (_ <=? _)%N = true |- _ => apply N.leb_le in H
         | H : (_ <? _)%N = true |- _ => apply N.ltb_lt in H
         end.

(** A character that encodes a code point stays one character whatever
    follows it. *)
Lemma chars_cons c rest : is_Some (code_point c) → chars (c +:+ rest) = c :: chars rest.
Proof.
  intros [n Hn]. unfold code_point in Hn.
  destruct c as [| b0 [| b1 [| b2 [| b3 [| b4 c]]]]]; try done.
  - destruct (N.ltb_spec (byte b0) 128); [| done]. cbn [String.append chars].
    destruct (N.ltb_spec (byte b0) 194); [done | lia].
  - repeat (case_match; try done). 
    bounds.
    cbn [String.append chars].
    destruct (N.ltb_spec (byte b0) 194); [lia |].
    destruct (is_continuation b1); [| done]. simpl.
    destruct (N.ltb_spec (byte b0) 224); [done | lia].
  - repeat (case_match; try done).
    bounds.
    cbn [String.append chars].
    destruct (N.ltb_spec (byte b0) 194); [lia |].
    destruct (is_continuation b1); [| done]. simpl.
    destruct (N.ltb_spec (byte b0) 224); [lia |].
    destruct (is_continuation b2); [| done]. simpl.
    destruct (N.ltb_spec (byte b0) 240); [done | lia].
  - repeat (case_match; try done).
    bounds.
    cbn [String.append chars].
    destruct (N.ltb_spec (byte b0) 194); [lia |].
    destruct (is_continuation b1); [| done]. simpl.
    destruct (N.ltb_spec (byte b0) 224); [lia |].
    destruct (is_continuation b2); [| done]. simpl.
    destruct (N.ltb_spec (byte b0) 240); [lia |].
    destruct (is_continuation b3); [| done]. simpl.
    destruct (N.ltb_spec (byte b0) 245); [done | lia].
Qed.

Lemma chars_text_of cs rest :
  Forall (λ c, is_Some (code_point c)) cs → chars (text_of cs +:+ rest) = cs ++ chars rest.
Proof.
  induction 1 as [| c cs Hc _ IH]; [done |].
  simpl. rewrite append_assoc, chars_cons by done. by rewrite IH.
Qed.

Lemma is_digit_code_point c : is_digit c = true → is_Some (code_point c).
Proof. unfold is_digit. destruct (code_point c); [by eexists | done]. Qed.

Lemma is_digit_not_sign c :
  is_digit c = true → String.eqb c "-" = false ∧ String.eqb c "+" = false
                      ∧ String.eqb c "_" = false.
Proof. intros H. split_and!; apply String.eqb_neq; by intros ->. Qed.

Lemma decimal_not_space n : is_Some (decimal n) → n ∉ INT_SPACES.
Proof.
  intros Hd Hs. unfold INT_SPACES in Hs.
  repeat (apply elem_of_cons in Hs as [-> | Hs]; [by destruct Hd |]).
  by apply elem_of_nil in Hs.
Qed.

Lemma is_digit_not_space c : is_digit c = true → is_int_space c = false.
Proof.
  unfold is_digit, is_int_space. destruct (code_point c) as [n |]; [| done]. simpl.
  destruct (decimal n) eqn:E; [| done]. intros _.
  apply bool_decide_eq_false, decimal_not_space. by rewrite E.
Qed.

(** *** The scanner *)

Lemma ends_with_minus_cons c gap :
  gap ≠ [] → ends_with_minus (c :: gap) = ends_with_minus gap.
Proof. unfold ends_with_minus. by destruct gap. Qed.

Lemma findall_from_gap st gap rest :
  digit_free gap → st = Idle ∨ st = Minus →
  findall_from st (gap ++ rest) = findall_from (after_gap st gap) rest.
Proof.
  intros Hfree. revert st.
  induction Hfree as [| c gap Hc _ IH]; intros st Hst; [done |].
  assert (∃ st', scan_step st c = (st', [])
                 ∧ (st' = Idle ∨ st' = Minus)
                 ∧ st' = if String.eqb c "-" then Minus else Idle) as (st' & E & Hst' & Hc').
  { destruct Hst as [-> | ->]; simpl; rewrite Hc;
      destruct (String.eqb c "-"); eexists; eauto. }
  cbn [app findall_from]. rewrite E. simpl. rewrite IH by done.
  destruct gap as [| c' gap].
  - simpl. unfold ends_with_minus. simpl. rewrite Hc'.
    destruct (String.eqb_spec c "-") as [-> |]; [done |].
    rewrite bool_decide_eq_false_2; [done | congruence].
  - cbn [after_gap]. by rewrite (ends_with_minus_cons c (c' :: gap)).
Qed.

Lemma findall_from_token_gap tok gap rest :
  digit_free gap → gap ≠ [] →
  findall_from (InToken tok) (gap ++ rest) = tok :: findall_from (after_gap Idle gap) rest.
Proof.
  destruct gap as [| c gap]; [done |]. intros Hfree _.
  apply Forall_cons in Hfree as [Hc Hfree].
  cbn [app findall_from scan_step]. rewrite Hc.
  assert (findall_from (if String.eqb c "-" then Minus else Idle) (gap ++ rest)
          = findall_from (after_gap Idle (c :: gap)) rest) as <-.
  { rewrite findall_from_gap by (done || destruct (String.eqb c "-"); auto).
    destruct gap as [| c' gap].
    - simpl. unfold ends_with_minus. simpl.
      destruct (String.eqb_spec c "-") as [-> |]; [done |].
      rewrite bool_decide_eq_false_2; [done | congruence].
    - cbn [after_gap]. rewrite (ends_with_minus_cons c (c' :: gap)) by done.
      by destruct (String.eqb c "-"). }
  by destruct (String.eqb c "-").
Qed.

Lemma findall_from_token_digits ds : ∀ tok rest,
  Forall (λ c, is_digit c = true) ds →
  findall_from (InToken tok) (ds ++ rest) = findall_from (InToken (tok +:+ text_of ds)) rest.
Proof.
  induction ds as [| c ds IH]; intros tok rest Hds; simpl.
  - by rewrite append_empty_r.
  - apply Forall_cons in Hds as [Hc Hds]. rewrite Hc. simpl.
    rewrite IH by done. by rewrite append_assoc.
Qed.

Lemma findall_from_digits st gap ds rest :
  digits ds → st = after_gap Idle gap →
  findall_from st (ds ++ rest) = findall_from (InToken (run_token (gap, ds))) rest.
Proof.
  intros [Hne Hds] ->. destruct ds as [| c ds]; [done |].
  apply Forall_cons in Hds as [Hc Hds].
  unfold run_token, after_gap. cbn [fst snd].
  destruct gap as [| g gap]; [| destruct (ends_with_minus (g :: gap))];
    cbn [app findall_from scan_step text_of foldr]; rewrite Hc; simpl;
    by rewrite findall_from_token_digits.
Qed.

Lemma findall_from_tail st tail :
  digit_free tail →
  findall_from st tail = match st with InToken tok => [tok] | _ => [] end.
Proof.
  intros Hfree. revert st. induction Hfree as [| c tail Hc _ IH]; intros st; [done |].
  cbn [findall_from]. destruct st as [| | tok]; simpl; rewrite Hc;
    destruct (String.eqb c "-"); simpl; by rewrite IH.
Qed.

Lemma findall_from_runs runs tail : ∀ tok,
  Forall (λ r : digit_run, digit_free r.1 ∧ digits r.2) runs →
  Forall (λ r : digit_run, r.1 ≠ []) runs →
  digit_free tail →
  findall_from (InToken tok) (concat (run_chars <$> runs) ++ tail)
  = tok :: (run_token <$> runs).
Proof.
  induction runs as [| [gap ds] runs IH]; intros tok Hruns Hgaps Htail.
  - simpl. by rewrite findall_from_tail.
  - apply Forall_cons in Hruns as [[Hgap Hds] Hruns].
    apply Forall_cons in Hgaps as [Hne Hgaps]. simpl in *.
    unfold run_chars at 1. simpl. rewrite <- !app_assoc.
    rewrite findall_from_token_gap by done.
    rewrite (findall_from_digits _ gap) by done.
    by rewrite IH.
Qed.

(** The scanner finds the integers of a text whatever separates them: the
    tokens are the digit runs, each with the minus sign that stands
    immediately before it. *)
Lemma findall_cut text runs tail :
  cut_into runs tail (chars text) → findall text = run_token <$> runs.
Proof.
  intros (E & Hruns & Hgaps & Htail). unfold findall. rewrite E.
  destruct runs as [| [gap ds] runs].
  - simpl. by rewrite findall_from_tail.
  - apply Forall_cons in Hruns as [[Hgap Hds] Hruns]. simpl in *.
    rewrite drop_0 in Hgaps.
    unfold run_chars at 1. simpl. rewrite <- !app_assoc.
    rewrite findall_from_gap by auto.
    rewrite (findall_from_digits _ gap) by (done || by destruct gap).
    by rewrite findall_from_runs.
Qed.

(** Every text is cut into its integers in some way. *)
Lemma cut_exists cs : ∃ runs tail, cut_into runs tail cs.
Proof.
  induction cs as [| c cs (runs & tail & E & Hruns & Hgaps & Htail)].
  - exists [], []. split_and!; by (done || constructor).
  - subst cs. destruct (is_digit c) eqn:Hc.
    + destruct runs as [| [[| g gap] ds] runs].
      * exists [([], [c])], tail. unfold cut_into, digit_free, digits.
        split_and!; simpl; repeat first [done | constructor].
      * exists (([], c :: ds) :: runs), tail.
        apply Forall_cons in Hruns as [[Hgap [Hne Hds]] Hruns].
        unfold cut_into, digit_free, digits.
        split_and!; simpl; repeat first [done | constructor].
      * exists (([], [c]) :: (g :: gap, ds) :: runs), tail.
        simpl in Hgaps. rewrite drop_0 in Hgaps.
        unfold cut_into, digit_free, digits.
        split_and!; simpl; repeat first [done | constructor].
    + destruct runs as [| [gap ds] runs].
      * exists [], (c :: tail). unfold cut_into, digit_free.
        split_and!; simpl; repeat first [done | constructor].
      * exists ((c :: gap, ds) :: runs), tail.
        apply Forall_cons in Hruns as [[Hgap Hds] Hruns].
        unfold cut_into, digit_free.
        split_and!; simpl; repeat first [done | constructor].
Qed.

(** *** [int] on a token *)

Lemma scan_digits_digits ds : ∀ acc count after_digit rest,
  Forall (λ c, is_digit c = true) ds →
  ds ≠ [] ∨ after_digit = true →
  match rest with [] => True | c :: _ => is_digit c = false ∧ c ≠ "_" end →
  scan_digits acc count after_digit (ds ++ rest)
  = Some (decimal_from acc ds, (count + length ds)%nat, rest).
Proof.
  induction ds as [| c ds IH]; intros acc count b rest Hds Hne Hrest.
  - destruct Hne as [? | ->]; [done |]. simpl. rewrite Nat.add_0_r.
    destruct rest as [| c rest]; [done |]. destruct Hrest as [Hc Hu]. simpl.
    rewrite Hc. by apply String.eqb_neq in Hu as ->.
  - apply Forall_cons in Hds as [Hc Hds]. simpl. rewrite Hc.
    rewrite IH by auto. do 3 f_equal. lia.
Qed.

Lemma chars_of_text cs : Forall (λ c, is_Some (code_point c)) cs → chars (text_of cs) = cs.
Proof.
  intros H. rewrite <- (append_empty_r (text_of cs)), chars_text_of by done.
  apply app_nil_r.
Qed.

Lemma chars_run_token r :
  digits r.2 → chars (run_token r) = (if ends_with_minus r.1 then ["-"] else []) ++ r.2.
Proof.
  intros [_ Hds]. unfold run_token.
  assert (Forall (λ c, is_Some (code_point c)) r.2) as Hwf.
  { eapply Forall_impl; [done |]. apply is_digit_code_point. }
  destruct (ends_with_minus r.1).
  - apply (chars_of_text ("-" :: r.2)). apply Forall_cons. split; [by eexists | done].
  - by apply chars_of_text.
Qed.

Lemma int_literal_token r :
  digits r.2 →
  int_literal (run_token r)
  = if (INT_MAX_STR_DIGITS <? length r.2)%nat then inl (too_many_digits (length r.2))
    else inr (run_value r).
Proof.
  intros Hds. unfold int_literal. rewrite chars_run_token by done.
  destruct r as [gap ds]. destruct Hds as [Hne Hds]. simpl in *.
  assert (scan_digits 0 0 false ds = Some (decimal_from 0 ds, length ds, [])) as Hscan.
  { rewrite <- (app_nil_r ds) at 1. rewrite scan_digits_digits by auto. done. }
  unfold run_value. simpl.
  destruct (ends_with_minus gap); simpl.
  - rewrite Hscan. by case_match.
  - destruct ds as [| c ds]; [done |]. apply Forall_cons in Hds as [Hc Hds].
    cbn [lstrip]. rewrite (is_digit_not_space c Hc).
    destruct (is_digit_not_sign c Hc) as (-> & -> & _).
    rewrite Hscan. by case_match.
Qed.

Lemma py_int_token r :
  digits r.2 → (length r.2 ≤ INT_MAX_STR_DIGITS)%nat → py_int (run_token r) = Some (run_value r).
Proof.
  intros Hds Hlen. unfold py_int. rewrite int_literal_token by done.
  destruct (Nat.ltb_spec INT_MAX_STR_DIGITS (length r.2)); [lia | done].
Qed.

(** [parse_three_values] on a text cut into its integers: fewer than
    three is the format error, and otherwise the first three are converted
    in turn. *)
Lemma parse_three_values_cut text runs tail :
  cut_into runs tail (chars text) →
  parse_three_values text
  = match runs with
    | r0 :: r1 :: r2 :: _ =>
        if too_long r0 then inl (too_many_digits (length r0.2))
        else if too_long r1 then inl (too_many_digits (length r1.2))
        else if too_long r2 then inl (too_many_digits (length r2.2))
        else inr (run_value r0, run_value r1, run_value r2)
    | _ => inl (ValueError "Неверный формат. Введите три числа.")
    end.
Proof.
  intros Hcut. unfold parse_three_values. rewrite (findall_cut _ _ _ Hcut).
  destruct Hcut as (_ & Hruns & _).
  destruct runs as [| r0 [| r1 [| r2 runs]]]; try done.
  apply Forall_cons in Hruns as [[_ H0] Hruns].
  apply Forall_cons in Hruns as [[_ H1] Hruns].
  apply Forall_cons in Hruns as [[_ H2] _].
  cbn [fmap list_fmap]. rewrite !int_literal_token by done. unfold too_long.
  destruct (INT_MAX_STR_DIGITS <? length r0.2)%nat; [done |].
  destruct (INT_MAX_STR_DIGITS <? length r1.2)%nat; [done |].
  by destruct (INT_MAX_STR_DIGITS <? length r2.2)%nat.
Qed.

Lemma handle_values_cases st u text s :
  truthy (get (awaiting_key st) s) = true →
  handle_values st (Message u text) s
  = match parse_three_values text with
    | inr (a, b, c) =>
        if decide (a ≤ b ≤ c) then Returned (accept_triple st a b c s)
        else Returned (reprompt st ordering_error_text s)
    | inl (ValueError e) => Returned (reprompt st (e +:+ nl +:+ three_numbers_text) s)
    | inl e => Raised e s
    end.
Proof.
  intros Haw. unfold handle_values. rewrite Haw. simpl.
  destruct (parse_three_values text) as [e | [[a b] c]]; [done |].
  destruct (Z.leb_spec a b), (Z.leb_spec b c); simpl; case_decide; (done || lia).
Qed.

(** C3. A free-text triple entry, at any of the four triple steps
    (schedule, cost and their re-evaluation twins) while the step awaits
    input.  Every text is cut at its integers: runs of decimal digits, of
    any script, each with the digit-free characters before it.  With three
    runs or more, the first three are read as integers, each negative when
    a minus sign stands immediately before its digits, whatever separates
    and follows them; when they are in the order min ≤ most likely ≤ max
    they are stored as the triple, the awaiting marker is cleared and the
    next step is rendered, and otherwise the ordering error is shown.  With
    fewer than three runs the three-numbers error is shown.  A run of more
    than 4300 digits among the first three is refused by the conversion,
    and its message is shown.  On every error path the reply carries the
    same back keyboard and the draft is left exactly as it was. *)
Theorem triple_entry_validated :
  (∀ text, ∃ runs tail, cut_into runs tail (chars text))
  ∧ (∀ st u text s runs tail,
       st ∈ triple_steps →
       truthy (get (awaiting_key st) s) = true →
       cut_into runs tail (chars text) →
       match runs with
       | r0 :: r1 :: r2 :: _ =>
           if too_long r0 || too_long r1 || too_long r2 then
             ∃ r e, r ∈ [r0; r1; r2] ∧ too_long r = true
                    ∧ too_many_digits (length r.2) = ValueError e
                    ∧ handle_values st (Message u text) s
                      = Returned (reprompt st (e +:+ nl +:+ three_numbers_text) s)
                    ∧ user_data (reprompt st (e +:+ nl +:+ three_numbers_text) s)
                      = user_data s
           else
             let a := run_value r0 in
             let b := run_value r1 in
             let c := run_value r2 in
             if decide (a ≤ b ≤ c)
             then handle_values st (Message u text) s
                  = Returned (accept_triple st a b c s)
                  ∧ get (min_key st) (accept_triple st a b c s) = Some (VInt a)
                  ∧ get (most_likely_key st) (accept_triple st a b c s) = Some (VInt b)
                  ∧ get (max_key st) (accept_triple st a b c s) = Some (VInt c)
             else handle_values st (Message u text) s
                  = Returned (reprompt st ordering_error_text s)
                  ∧ user_data (reprompt st ordering_error_text s) = user_data s
       | _ =>
           let text' := "Неверный формат. Введите три числа." +:+ nl +:+ three_numbers_text in
           handle_values st (Message u text) s = Returned (reprompt st text' s)
           ∧ user_data (reprompt st text' s) = user_data s
       end)
  ∧ handle_schedule_values = handle_values schedule_values
  ∧ handle_cost_values = handle_values cost_values
  ∧ handle_schedule_values_re = handle_values schedule_values_re
  ∧ handle_cost_values_re = handle_values cost_values_re.
Proof.
  split; [intros text; apply cut_exists |]. split; [| done].
  intros st u text s runs tail Hst Haw Hcut.
  rewrite (handle_values_cases st u text s Haw), (parse_three_values_cut _ _ _ Hcut).
  destruct runs as [| r0 [| r1 [| r2 runs]]]; try by split.
  destruct (too_long r0) eqn:E0; simpl.
  { eexists r0, _. split; [apply elem_of_cons; by left |]. by repeat split. }
  destruct (too_long r1) eqn:E1; simpl.
  { eexists r1, _. split; [apply elem_of_cons; right; apply elem_of_cons; by left |].
    by repeat split. }
  destruct (too_long r2) eqn:E2; simpl.
  { eexists r2, _. split; [do 2 (apply elem_of_cons; right); apply elem_of_cons; by left |].
    by repeat split. }
  case_decide; [| by split]. split; [done |].
  unfold triple_steps in Hst.
  repeat (apply elem_of_cons in Hst as [-> | Hst];
          [unfold accept_triple, get; simpl;
           repeat split; by rewrite !lookup_insert_ne, lookup_insert_eq by done |]).
  by apply elem_of_nil in Hst.
Qed.

Lemma triple_entry_validated_witness :
  let s := set "awaiting_schedule_values" (VBool true) scenario_draft in
  handle_values schedule_values (Message alice "١ 10, 20; y -30!") s
  = Returned (accept_triple schedule_values 1 10 20 s).
Proof.
  intros s.
  apply (proj1 (proj1 (proj2 triple_entry_validated) schedule_values alice
                  "١ 10, 20; y -30!" s
                  [([], ["١"]); ([" "], ["1"; "0"]); ([","; " "], ["2"; "0"]);
                   ([";"; " "; "y"; " "; "-"], ["3"; "0"])]
                  ["!"] ltac:(apply elem_of_cons; by left) eq_refl
                  ltac:(by repeat first [split | constructor]))).
Defined.

(** X7. The three inputs of the parser's description, at the schedule
    triple step: "10, 20, 30" is accepted, "5 3 9" is out of order,
    "only one number 4" holds fewer than three integers. *)
Example triple_entry_examples :
  let s := set "awaiting_schedule_values" (VBool true) scenario_draft in
  handle_schedule_values (Message alice "10, 20, 30") s
  = Returned (accept_triple schedule_values 10 20 30 s)
  ∧ handle_schedule_values (Message alice "5 3 9") s
    = Returned (reprompt schedule_values ordering_error_text s)
  ∧ handle_schedule_values (Message alice "only one number 4") s
    = Returned (reprompt schedule_values
                  ("Неверный формат. Введите три числа." +:+ nl +:+ three_numbers_text) s).
Proof. repeat split; reflexivity. Qed.

(** ** Back navigation: what it renders *)

(** C6, at the inputs where the code departs from it.  The schedule-impact
    step is rendered forward by [get_description] with the prompt
    "Влияние на сроки (оценка без мероприятий, в днях):" and by
    back-navigation without ", в днях"; the probability step is rendered
    forward (by [no_impact_cost], [request_cost_evaluation] and
    [handle_cost_values]) with the fourth band labelled "50-75%" and by
    back-navigation with "60-75%".  The option lists of the schedule step
    agree, and so do the callback data of the probability buttons. *)
Theorem back_rendering_differs_from_forward env u description s :
  (last_prompt (get_description (Message u description)
                  (set "awaiting_description" (VBool true) s))
   = Some ("Влияние на сроки (оценка без мероприятий, в днях):" +:+ nl
           +:+ "Выберите вариант:", Some schedule_impact_keyboard)
   ∧ last_prompt (handle_back env (CallbackQuery u "back_to_schedule_impact") s)
     = Some ("Влияние на сроки (оценка без мероприятий):" +:+ nl
             +:+ "Выберите вариант:", Some schedule_impact_keyboard)
   ∧ last_prompt (get_description (Message u description)
                    (set "awaiting_description" (VBool true) s))
     ≠ last_prompt (handle_back env (CallbackQuery u "back_to_schedule_impact") s))
  ∧ (∃ forward back,
       last_prompt (no_impact_cost (CallbackQuery u "no_impact_cost") s)
       = Some ("Оцените вероятность возникновения риска или введите свою:", Some forward)
       ∧ last_prompt (request_cost_evaluation (CallbackQuery u "request_cost_evaluation") s)
         = Some ("Оцените вероятность возникновения риска или введите свою:", Some forward)
       ∧ last_prompt (handle_back env (CallbackQuery u "back_to_probability") s)
         = Some ("Оцените вероятность возникновения риска или введите свою:", Some back)
       ∧ labels forward !! 3%nat = Some "50-75%"
       ∧ labels back !! 3%nat = Some "60-75%"
       ∧ forward ≠ back).
Proof.
  assert (∀ l (a : action), last (l ++ [a]) = Some a) as Hlast
    by (intros; apply last_snoc).
  split; [split; [| split] |].
  - unfold last_prompt, get_description. rewrite get_set_eq. simpl.
    by rewrite Hlast.
  - unfold last_prompt. simpl. by rewrite Hlast.
  - unfold last_prompt, get_description. rewrite get_set_eq. simpl.
    rewrite !Hlast. simpl. by intros [=].
  - exists probability_keyboard. eexists.
    unfold last_prompt. simpl. rewrite !Hlast. simpl.
    repeat split; try reflexivity. by intros [=].
Qed.

(** X1. Invoking the same back target again renders the same prompt again
    and leaves the draft as the first invocation left it. *)
Lemma back_to_schedule_impact_idempotent env u s :
  let once := handle_back env (CallbackQuery u "back_to_schedule_impact") s in
  let twice := handle_back env (CallbackQuery u "back_to_schedule_impact") (final once) in
  last_prompt twice = last_prompt once
  ∧ user_data (final twice) = user_data (final once).
Proof.
  unfold last_prompt. simpl. rewrite !last_snoc. split; [done |].
  apply map_eq. intros key.
  destruct (decide (key ∈ schedule_impact_keys)) as [Hin | Hout].
  - unfold schedule_impact_keys in Hin.
    repeat (apply elem_of_cons in Hin as [-> | Hin]; [by simplify_map_eq |]).
    by apply elem_of_nil in Hin.
  - unfold schedule_impact_keys in Hout.
    repeat (apply not_elem_of_cons in Hout as [? Hout]).
    by rewrite !lookup_delete_ne by done.
Qed.

(** ** Commit: what happens to the draft *)

Lemma save_risk_keeps_fields env update s key :
  key ≠ "risk_score" → get key (final (save_risk env update s)) = get key s.
Proof.
  intros Hkey. unfold save_risk.
  destruct (as_int _); [| done]. destruct (as_int _); [| done].
  destruct (as_int _); [| done].
  destruct (insert_ok env), update; simpl; unfold get; simpl;
    by rewrite lookup_insert_ne.
Qed.

Lemma back_to_menu_keeps_draft env u s :
  ∃ s', handle_back env (CallbackQuery u "back_to_menu") s = Returned s'
        ∧ user_data s' = user_data s.
Proof. by eexists. Qed.

(** C4, at the input where the code departs from it.  Neither the commit
    nor the return to the menu clears the draft: [save_risk] leaves every
    field but [risk_score] as it was, and [back_to_menu] leaves the whole
    draft as it was.  So after a submission with re-evaluation (post-
    mitigation schedule 1/2/3, cost 4/5/6, probability band 4) and a return
    to the menu, a second submission made without re-evaluation is
    committed with [reevaluation_needed = 0] and with the first
    submission's post-mitigation values. *)
Theorem draft_survives_commit_and_menu :
  (∀ env update s key,
     key ≠ "risk_score" → get key (final (save_risk env update s)) = get key s)
  ∧ (∀ env u s,
       ∃ s', handle_back env (CallbackQuery u "back_to_menu") s = Returned s'
             ∧ user_data s' = user_data s)
  ∧ (∃ s1 s2 r1 r2,
       run first_submission initial_state = Returned s1
       ∧ risks_table (db s1) = [r1]
       ∧ get "probability_re" s1 = Some (VInt 47)
       ∧ get "description" s1 = Some (VStr "first")
       ∧ run second_submission s1 = Returned s2
       ∧ risks_table (db s2) = [r1; r2]
       ∧ risks.description r2 = Some (VStr "second")
       ∧ risks.reevaluation_needed r2 = VInt 0
       ∧ risks.probability_re r2 = VInt 47
       ∧ risks.impact_schedule_most_likely_re r2 = VInt 2
       ∧ risks.impact_cost_most_likely_re r2 = VInt 5).
Proof.
  split; [apply save_risk_keeps_fields |].
  split; [apply back_to_menu_keeps_draft |].
  eexists _, _, _, _.
  split; [by vm_compute |]. split; [reflexivity |].
  split; [by vm_compute |]. split; [by vm_compute |].
  split; [by vm_compute |]. split; [reflexivity |].
  repeat split; by vm_compute.
Qed.

(** ** Commit failure *)

Lemma save_risk_typed env update s :
  (∃ cost schedule prob,
     scored "impact_cost_most_likely" s = Some cost
     ∧ scored "impact_schedule_most_likely" s = Some schedule
     ∧ scored "probability" s = Some prob)
  ∨ save_risk env update s = Raised TypeError s.
Proof.
  unfold save_risk, scored.
  destruct (as_int _); [| by right]. destruct (as_int _); [| by right].
  destruct (as_int _); [| by right]. left. by eexists _, _, _.
Qed.

(** X3. When the insert fails on a commit triggered by a text message, the
    failure is logged and the user is shown the generic failure message
    with a way back to the menu; nothing is stored and, but for
    [risk_score], the draft is as before. *)
Lemma save_risk_insert_fails_message env u text s cost schedule prob :
  insert_ok env = false →
  scored "impact_cost_most_likely" s = Some cost →
  scored "impact_schedule_most_likely" s = Some schedule →
  scored "probability" s = Some prob →
  ∃ s', save_risk env (Message u text) s = Returned s'
        ∧ sent s' = sent s ++ [log_error "Ошибка при сохранении риска: ";
                               reply_text save_failed_text
                                 (Some (create_back_keyboard "back_to_menu"))]
        ∧ db s' = db s
        ∧ user_data s'
          = <["risk_score" := VInt (get_cost_score cost + get_schedule_score schedule
                                    + get_probability_score prob)]> (user_data s).
Proof.
  unfold scored. intros Hfail Hc Hs Hp. unfold save_risk.
  rewrite Hc, Hs, Hp, Hfail. eexists. split; [reflexivity |]. simpl.
  by rewrite <- app_assoc.
Qed.

(** The same failure on a commit triggered by a button: the handler
    reaches for [update.message], which a callback update does not have. *)
Lemma save_risk_insert_fails_callback env u data s cost schedule prob :
  insert_ok env = false →
  scored "impact_cost_most_likely" s = Some cost →
  scored "impact_schedule_most_likely" s = Some schedule →
  scored "probability" s = Some prob →
  ∃ s', save_risk env (CallbackQuery u data) s = Raised AttributeError s'
        ∧ sent s' = sent s ++ [log_error "Ошибка при сохранении риска: "]
        ∧ db s' = db s.
Proof.
  unfold scored. intros Hfail Hc Hs Hp. unfold save_risk.
  rewrite Hc, Hs, Hp, Hfail. by eexists.
Qed.

(** A commit depends on the database and on the draft fields other than
    [risk_score], which it overwrites; not on what was sent before. *)
Lemma save_risk_same_draft env update s1 s2 :
  (∀ key, key ≠ "risk_score" → get key s1 = get key s2) → db s1 = db s2 →
  db (final (save_risk env update s1)) = db (final (save_risk env update s2)).
Proof.
  destruct s1 as [ud1 d1 o1], s2 as [ud2 d2 o2]. unfold get. simpl. intros Hud ->.
  assert (∀ v, <["risk_score" := v]> ud1 = <["risk_score" := v]> ud2) as Hset.
  { intros v. apply map_eq. intros key.
    destruct (decide (key = "risk_score")) as [-> |];
      [by rewrite !lookup_insert_eq | rewrite !lookup_insert_ne by done; auto]. }
  unfold save_risk, get_default, get, set. simpl.
  rewrite !(Hud "impact_cost_most_likely"), !(Hud "impact_schedule_most_likely"),
    !(Hud "probability") by done.
  destruct (as_int _); [| done]. destruct (as_int _); [| done].
  destruct (as_int _); [| done].
  rewrite !Hset. by destruct (insert_ok env), update.
Qed.

(** X2. After a failed commit the draft still holds what a commit needs:
    the same commit, run again once the storage accepts the insert, stores the
    record the first attempt would have stored. *)
Lemma save_risk_retry env env' update s :
  insert_ok env = false →
  db (final (save_risk env' update (final (save_risk env update s))))
  = db (final (save_risk env' update s)).
Proof.
  intros Hfail. apply save_risk_same_draft.
  - intros key Hkey. by apply save_risk_keeps_fields.
  - unfold save_risk.
    destruct (as_int _); [| done]. destruct (as_int _); [| done].
    destruct (as_int _); [| done].
    rewrite Hfail. by destruct update.
Qed.

Lemma get_final_catching catches handler o key :
  (∀ s, get key (final (handler s)) = get key s) →
  get key (final (catching catches handler o)) = get key (final o).
Proof.
  intros Hh. destruct o as [s | e s]; simpl; [done |].
  destruct (catches e); [apply Hh | done].
Qed.

Lemma choose_probability_re_keeps_fields env u data s key :
  key ≠ "risk_score" → key ≠ "probability_re" →
  get key (final (choose_probability_re env (CallbackQuery u data) s)) = get key s.
Proof.
  intros H1 H2. unfold choose_probability_re, with_query.
  destruct (split_on "_" data) as [| p0 [| p1 [| p2 [| p3 ps]]]]; try done.
  destruct (negb (String.eqb p0 "prob") || negb (String.eqb p1 "re")); [done |].
  destruct (py_int p2) as [level |]; [| done].
  destruct (PROBABILITY_MAPPING !! level) as [p |]; [| done].
  rewrite get_final_catching by done.
  rewrite save_risk_keeps_fields by done.
  by rewrite get_set_ne.
Qed.

(** C7, at the input where the code departs from it.  The last step of a
    submission with re-evaluation is a button press (band 3 of the
    post-mitigation probability), and the insert fails.  The failure is
    logged, but the failure message is sent through [update.message], which
    a callback update does not have: the handler ends in [AttributeError]
    and the user is shown nothing.  The draft is kept (every field other
    than [risk_score] and the [probability_re] just chosen is as before),
    nothing is stored, and pressing the button again once the storage works
    commits the record without any earlier step being repeated.  When the
    last step is a typed probability instead, the same failure does show
    the generic failure message with the way back to the menu. *)
Theorem commit_failure_on_button_is_silent :
  (∃ s',
     choose_probability_re env_insert_fails (press "prob_re_3") before_last_step
     = Raised AttributeError s'
     ∧ sent s' = sent before_last_step
                 ++ [answer None; log_error "Ошибка при сохранении риска: "]
     ∧ risks_table (db s') = []
     ∧ (∀ key, key ≠ "risk_score" → key ≠ "probability_re" →
          get key s' = get key before_last_step)
     ∧ ∃ s'' r,
         choose_probability_re env0 (press "prob_re_3") s' = Returned s''
         ∧ risks_table (db s'') = [r]
         ∧ risks.risk_score r = 9
         ∧ risks.description r = Some (VStr "first")
         ∧ risks.probability_re r = VInt 27)
  ∧ (∃ s',
       handle_custom_probability_re env_insert_fails (say "27")
         (set "awaiting_custom_probability_re" (VBool true) before_last_step)
       = Returned s'
       ∧ last_prompt (Returned s')
         = Some (save_failed_text, Some (create_back_keyboard "back_to_menu"))
       ∧ risks_table (db s') = []).
Proof.
  split.
  - eexists. split; [by vm_compute |].
    split; [by vm_compute |]. split; [by vm_compute |]. split.
    + intros key H1 H2.
      pose proof (choose_probability_re_keeps_fields env_insert_fails alice
                    "prob_re_3" before_last_step key H1 H2) as H.
      exact H.
    + eexists _, _. split; [by vm_compute |]. split; [reflexivity |].
      repeat split; by vm_compute.
  - eexists. split; [by vm_compute |]. split; by vm_compute.
Qed.

Lemma save_risk_insert_fails_message_witness :
  ∃ s', save_risk env_insert_fails (say "e") scenario_draft = Returned s'
        ∧ sent s' = sent scenario_draft
                    ++ [log_error "Ошибка при сохранении риска: ";
                        reply_text save_failed_text
                          (Some (create_back_keyboard "back_to_menu"))]
        ∧ db s' = db scenario_draft
        ∧ user_data s'
          = <["risk_score" := VInt (get_cost_score 300 + get_schedule_score 0
                                    + get_probability_score 80)]>
              (user_data scenario_draft).
Proof.
  apply (save_risk_insert_fails_message env_insert_fails alice "e" scenario_draft
           300 0 80); reflexivity.
Defined.

Lemma save_risk_retry_witness :
  db (final (save_risk env0 (say "e")
               (final (save_risk env_insert_fails (say "e") scenario_draft))))
  = db (final (save_risk env0 (say "e") scenario_draft)).
Proof.
  apply (save_risk_retry env_insert_fails env0 (say "e") scenario_draft).
  reflexivity.
Defined.

(* ====================================================================== *)
(** * Properties of the whole conversation *)

(** ** Consistency of the draft and of the stored risks *)

Lemma get_emit key a s : get key (emit a s) = get key s.
Proof. done. Qed.

Lemma get_with_db key f s : get key (with_db f s) = get key s.
Proof. done. Qed.

Ltac head_of t :=
  lazymatch t with
  | ?f _ => head_of f
  | _ => t
  end.

Ltac unfold_handler :=
  lazymatch goal with
  | |- context [final (?h ?update ?s)] => let hd := head_of h in unfold hd
  end.


Lemma lookup_insert_if (m : gmap string value) key key' v :
  <[key := v]> m !! key' = if String.eqb key key' then Some v else m !! key'.
Proof.
  destruct (String.eqb_spec key key') as [-> | Hne];
    [apply lookup_insert_eq | by apply lookup_insert_ne].
Qed.

Lemma lookup_delete_if (m : gmap string value) key key' :
  delete key m !! key' = if String.eqb key key' then None else m !! key'.
Proof.
  destruct (String.eqb_spec key key') as [-> | Hne];
    [apply lookup_delete_eq | by apply lookup_delete_ne].
Qed.

Lemma triple_ok_agree k1 k2 k3 s s' :
  get k1 s' = get k1 s → get k2 s' = get k2 s → get k3 s' = get k3 s →
  triple_ok k1 k2 k3 s → triple_ok k1 k2 k3 s'.
Proof. unfold triple_ok. by intros -> -> ->. Qed.

Lemma triple_ok_cleared k1 k2 k3 s' :
  get k1 s' = None → get k2 s' = None → get k3 s' = None → triple_ok k1 k2 k3 s'.
Proof. unfold triple_ok. by intros -> -> ->. Qed.

Lemma triple_ok_entered k1 k2 k3 s' a b c :
  get k1 s' = Some (VInt a) → get k2 s' = Some (VInt b) → get k3 s' = Some (VInt c) →
  a ≤ b ≤ c → triple_ok k1 k2 k3 s'.
Proof. unfold triple_ok. by intros -> -> ->. Qed.

Lemma percent_ok_agree k s s' : get k s' = get k s → percent_ok k s → percent_ok k s'.
Proof. unfold percent_ok. by intros ->. Qed.

Lemma percent_ok_cleared k s' : get k s' = None → percent_ok k s'.
Proof. unfold percent_ok. by intros ->. Qed.

Lemma percent_ok_entered k s' p : get k s' = Some (VInt p) → 0 ≤ p ≤ 100 → percent_ok k s'.
Proof. unfold percent_ok. by intros ->. Qed.

(** One draft field of a state built by [set], [pop], [emit] and
    [with_db] over another state. *)
Ltac draft_field :=
  unfold get; cbn [user_data set emit pop with_db];
  rewrite ?lookup_insert_if, ?lookup_delete_if;
  cbn [String.eqb Ascii.eqb Bool.eqb]; reflexivity.

Ltac keep_triple s H :=
  first
    [ apply (triple_ok_agree _ _ _ s); [draft_field | draft_field | draft_field | exact H]
    | apply triple_ok_cleared; draft_field
    | eapply triple_ok_entered; [draft_field | draft_field | draft_field | lia] ].

Ltac keep_percent s H :=
  first
    [ apply (percent_ok_agree _ s); [draft_field | exact H]
    | apply percent_ok_cleared; draft_field
    | eapply percent_ok_entered; [draft_field | lia] ].

Ltac keep_well_formed s H :=
  let W1 := fresh in let W2 := fresh in let W3 := fresh in
  let W4 := fresh in let W5 := fresh in let W6 := fresh in
  destruct H as (W1 & W2 & W3 & W4 & W5 & W6);
  split; [keep_triple s W1 |]; split; [keep_triple s W2 |];
  split; [keep_triple s W3 |]; split; [keep_triple s W4 |];
  split; [keep_percent s W5 | keep_percent s W6].

Lemma triple_ok_stored k1 k2 k3 s :
  triple_ok k1 k2 k3 s →
  ordered (get_default k1 (VInt 0) s) (get_default k2 (VInt 0) s)
    (get_default k3 (VInt 0) s).
Proof.
  unfold triple_ok, ordered, get_default, get.
  destruct (user_data s !! k1) as [[x | ? | ?] |]; try done;
    destruct (user_data s !! k2) as [[y | ? | ?] |]; try done;
    destruct (user_data s !! k3) as [[z | ? | ?] |]; try done; intros H.
  - by exists x, y, z.
  - by exists 0, 0, 0.
Qed.

Lemma percent_ok_stored k s : percent_ok k s → percentage (get_default k (VInt 0) s).
Proof.
  unfold percent_ok, percentage, get_default, get.
  destruct (user_data s !! k) as [[p | ? | ?] |]; try done; intros H.
  - by exists p.
  - by exists 0.
Qed.

Lemma band_is_percent k p : PROBABILITY_MAPPING !! k = Some p → 0 ≤ p ≤ 100.
Proof.
  intros (_ & Hp & _)%PROBABILITY_MAPPING_lookup. unfold band_values in Hp.
  repeat (apply elem_of_cons in Hp as [-> | Hp]; [lia |]). by apply elem_of_nil in Hp.
Qed.

Ltac band_percent :=
  repeat match goal with
         | H : PROBABILITY_MAPPING !! _ = Some _ |- _ => apply band_is_percent in H
         end.

(** What a commit does, case by case: it stops at the score when a scored
    field is not a number; otherwise it writes the score into the draft
    and either appends the record built from the draft, or logs the failed
    insert and reports it through the message of the update, which a
    button press does not have. *)
Lemma save_risk_shape env update s :
  ((∃ key, key ∈ scored_keys ∧ scored key s = None)
   ∧ save_risk env update s = Raised TypeError s)
  ∨ ∃ cost schedule prob s',
      scored "impact_cost_most_likely" s = Some cost
      ∧ scored "impact_schedule_most_likely" s = Some schedule
      ∧ scored "probability" s = Some prob
      ∧ let score := get_cost_score cost + get_schedule_score schedule
                     + get_probability_score prob in
        ((insert_ok env = false
          ∧ (save_risk env update s = Returned s'
             ∨ save_risk env update s = Raised AttributeError s')
          ∧ db s' = db s)
         ∨ (insert_ok env = true
            ∧ save_risk env update s = Returned s'
            ∧ risks_table (db s')
              = risks_table (db s)
                ++ [draft_record env update (set "risk_score" (VInt score) s) score]))
        ∧ user_data s' = <["risk_score" := VInt score]> (user_data s).
Proof.
  assert (∀ key, key ∈ scored_keys ↔ key = "probability"
                                    ∨ key = "impact_cost_most_likely"
                                    ∨ key = "impact_schedule_most_likely") as Hkeys.
  { intros key. unfold scored_keys. rewrite !elem_of_cons, elem_of_nil. tauto. }
  unfold scored.
  destruct (as_int (get_default "impact_cost_most_likely" (VInt 0) s))
    as [cost |] eqn:Hc;
    [| left; split; [exists "impact_cost_most_likely"; split; [apply Hkeys; tauto | done]
                    | unfold save_risk; by rewrite Hc]].
  destruct (as_int (get_default "impact_schedule_most_likely" (VInt 0) s))
    as [schedule |] eqn:Hs;
    [| left; split; [exists "impact_schedule_most_likely"; split; [apply Hkeys; tauto | done]
                    | unfold save_risk; by rewrite Hc, Hs]].
  destruct (as_int (get_default "probability" (VInt 0) s))
    as [prob |] eqn:Hp;
    [| left; split; [exists "probability"; split; [apply Hkeys; tauto | done]
                    | unfold save_risk; by rewrite Hc, Hs, Hp]].
  right. exists cost, schedule, prob.
  unfold save_risk. rewrite Hc, Hs, Hp.
  destruct (insert_ok env), update; eexists; (do 3 (split; [reflexivity |])); cbv zeta.
  - split; [right; split; [done | split; reflexivity] | reflexivity].
  - split; [right; split; [done | split; reflexivity] | reflexivity].
  - split; [left; split; [done | split; [by left | reflexivity]] | reflexivity].
  - split; [left; split; [done | split; [by right | reflexivity]] | reflexivity].
Qed.

Lemma save_risk_not_caught catches handler env update s :
  catches TypeError = false → catches AttributeError = false →
  catching catches handler (save_risk env update s) = save_risk env update s.
Proof.
  intros Ht Ha.
  destruct (save_risk_shape env update s)
    as [[_ ->] | (cost & schedule & prob & s' & _ & _ & _
                  & [(_ & [-> | ->] & _) | (_ & -> & _)] & _)];
    simpl; by rewrite ?Ht, ?Ha.
Qed.

Lemma well_formed_risk_score s s' v :
  user_data s' = <["risk_score" := v]> (user_data s) → well_formed s → well_formed s'.
Proof.
  intros Hud (H1 & H2 & H3 & H4 & H5 & H6).
  assert (∀ key, key ≠ "risk_score" → get key s' = get key s) as Hget.
  { intros key Hkey. unfold get. rewrite Hud. by apply lookup_insert_ne. }
  split_and!;
    first [ eapply triple_ok_agree; [apply Hget | apply Hget | apply Hget |]; done
          | eapply percent_ok_agree; [apply Hget |]; done ].
Qed.

Lemma draft_record_ok env update s score :
  well_formed s → 3 ≤ score ≤ 15 → row_ok (draft_record env update s score).
Proof.
  intros (H1 & H2 & H3 & H4 & H5 & H6) Hscore. unfold row_ok, draft_record.
  cbn -[get_default].
  split_and!; try (by apply triple_ok_stored); try (by apply percent_ok_stored); lia.
Qed.

Lemma score_range cost schedule prob :
  3 ≤ get_cost_score cost + get_schedule_score schedule + get_probability_score prob ≤ 15.
Proof.
  pose proof (get_cost_score_range cost). pose proof (get_schedule_score_range schedule).
  pose proof (get_probability_score_range prob). lia.
Qed.

Lemma consistent_save_risk env update s :
  consistent s → consistent (final (save_risk env update s)).
Proof.
  intros [Hwf Hdb].
  destruct (save_risk_shape env update s)
    as [[_ ->] | (cost & schedule & prob & s' & _ & _ & _
                  & [(_ & [-> | ->] & Hsame) | (_ & -> & Hrows)] & Hud)];
    cbn [final]; [done | | |].
  - split; [by eapply well_formed_risk_score |]. by rewrite Hsame.
  - split; [by eapply well_formed_risk_score |]. by rewrite Hsame.
  - split; [by eapply well_formed_risk_score |]. rewrite Hrows.
    apply Forall_app. split; [done |]. apply Forall_singleton.
    apply draft_record_ok; [| apply score_range].
    by apply (well_formed_risk_score s _ (VInt (get_cost_score cost
                + get_schedule_score schedule + get_probability_score prob))).
Qed.

Ltac keep_consistent :=
  let update := fresh "update" in
  let s := fresh "s" in
  let Hwf := fresh "Hwf" in
  let Hdb := fresh "Hdb" in
  intros update s [Hwf Hdb]; unfold_handler;
  try unfold handle_values;
  try unfold toggle_subscription; try unfold start, submit_risk_start, select_view_phase;
  unfold with_query, with_message, message_reply_text;
  repeat case_match; simplify_eq; band_percent;
  rewrite ?save_risk_not_caught by done;
  cbn [final awaiting_key min_key most_likely_key max_key]; cbv zeta;
  first
    [ split; [keep_well_formed s Hwf | exact Hdb]
    | apply consistent_save_risk; split; [keep_well_formed s Hwf | exact Hdb] ].


Lemma step_handlers_keep_consistent env :
  Forall (λ h, ∀ update s, consistent s → consistent (final (h update s)))
    (step_handlers env).
Proof.
  unfold step_handlers.
  repeat (apply Forall_cons; split); [.. | by apply Forall_nil];
    lazymatch goal with
    | |- ∀ update s, _ → consistent (final (save_risk _ update s)) =>
        exact (consistent_save_risk env)
    | |- _ => keep_consistent
    end.
Qed.

Ltac in_list :=
  lazymatch goal with
  | |- ?x ∈ ?y :: _ =>
      first [ constr_eq x y; apply elem_of_cons; left; reflexivity
            | apply elem_of_cons; right; in_list ]
  end.

Lemma handle_text_keeps_consistent env update s :
  consistent s → consistent (final (handle_text env update s)).
Proof.
  intros Hs. pose proof (step_handlers_keep_consistent env) as Hall.
  rewrite Forall_forall in Hall. unfold handle_text.
  repeat case_match;
    try (apply Hall; [unfold step_handlers; in_list | exact Hs]).
  destruct Hs as [Hwf Hdb]. unfold message_reply_text.
  destruct update; cbn [final]; (split; [keep_well_formed s Hwf | exact Hdb]).
Qed.

(** X8. Every handler keeps the draft and the stored risks consistent.
    Whatever the update, a handler run on a state in which each impact
    triple of the draft is either absent or three integers with
    min ≤ most likely ≤ max, each probability of the draft is either absent
    or an integer in 0..100, and every stored risk has ordered triples,
    percentages and a score in 3..15, ends in such a state again, also
    when it ends by raising. *)
Theorem handlers_keep_consistent env :
  Forall (λ h, ∀ update s, consistent s → consistent (final (h update s))) (handlers env).
Proof.
  apply Forall_app. split; [apply step_handlers_keep_consistent |].
  apply Forall_singleton. apply handle_text_keeps_consistent.
Qed.

Lemma reachable_consistent s : reachable s → consistent s.
Proof.
  induction 1 as [d o Hd | env h update s Hh _ IH].
  - split; [| done]. unfold well_formed, triple_ok, percent_ok, get. simpl.
    by rewrite !lookup_empty.
  - pose proof (step_handlers_keep_consistent env) as Hstep.
    rewrite Forall_forall in Hstep. unfold handlers in Hh.
    apply elem_of_app in Hh as [Hh | Hh]; [by apply Hstep |].
    apply list_elem_of_singleton in Hh as ->. by apply handle_text_keeps_consistent.
Qed.

(** X9. In every state the bot can reach from an empty draft, through any
    sequence of updates and handlers, the commit finds numbers in the
    scored fields: it never stops on a type error, and when the storage
    accepts the insert it appends exactly one record, whose triples are
    ordered, whose probabilities are percentages and whose score lies in
    3..15. *)
Theorem reachable_drafts_commit s :
  reachable s →
  consistent s
  ∧ (∀ env update s', save_risk env update s ≠ Raised TypeError s')
  ∧ (∀ env update, insert_ok env = true →
       ∃ s' r, save_risk env update s = Returned s'
               ∧ risks_table (db s') = risks_table (db s) ++ [r]
               ∧ row_ok r).
Proof.
  intros Hs%reachable_consistent. split; [done |].
  pose proof Hs as [(H1 & H2 & _ & _ & H5 & _) _].
  assert (∃ cost schedule prob,
            scored "impact_cost_most_likely" s = Some cost
            ∧ scored "impact_schedule_most_likely" s = Some schedule
            ∧ scored "probability" s = Some prob) as (cost & schedule & prob & Hc & Hsc & Hp).
  { apply triple_ok_stored in H1 as (? & schedule & ? & _ & E1 & _).
    apply triple_ok_stored in H2 as (? & cost & ? & _ & E2 & _).
    apply percent_ok_stored in H5 as (prob & E5 & _).
    exists cost, schedule, prob. unfold scored. by rewrite E1, E2, E5. }
  split.
  - intros env update s' E.
    destruct (save_risk_shape env update s)
      as [[(key & Hkey & Hnone) _]
         | (? & ? & ? & s'' & _ & _ & _ & [(_ & [E' | E'] & _) | (_ & E' & _)] & _)];
      [| congruence ..].
    unfold scored_keys in Hkey.
    repeat (apply elem_of_cons in Hkey as [-> | Hkey]; [congruence |]).
    by apply elem_of_nil in Hkey.
  - intros env update Hok.
    destruct (save_risk_commits env update s cost schedule prob Hok Hc Hsc Hp)
      as (s' & r & E & Hrows & _ & _).
    exists s', r. split; [done |]. split; [done |].
    pose proof (consistent_save_risk env update s Hs) as [_ Hdb].
    rewrite E in Hdb. simpl in Hdb. rewrite Hrows in Hdb.
    rewrite Forall_app, Forall_singleton in Hdb. by destruct Hdb.
Qed.

Lemma reachable_drafts_commit_witness :
  let s := final (no_impact_cost (press "no_impact_cost") initial_state) in
  consistent s
  ∧ (∀ env update s', save_risk env update s ≠ Raised TypeError s')
  ∧ (∀ env update, insert_ok env = true →
       ∃ s' r, save_risk env update s = Returned s'
               ∧ risks_table (db s') = risks_table (db s) ++ [r]
               ∧ row_ok r).
Proof.
  apply (reachable_drafts_commit
           (final (no_impact_cost (press "no_impact_cost") initial_state))).
  apply (reachable_step env0 no_impact_cost).
  - unfold handlers, step_handlers. apply elem_of_app. left. in_list.
  - by apply (reachable_fresh empty_database []).
Defined.

(** ** Back navigation *)

(** X10. Back navigation only takes away.  Whatever the target, known or
    not, [handle_back] returns; every field the draft holds afterwards it
    held before with the same value, except that the marker of an awaited
    text may have been set again; and neither the stored risks nor the
    supplementary mitigations change. *)
Theorem handle_back_only_removes env u back_data s :
  ∃ s',
    handle_back env (CallbackQuery u back_data) s = Returned s'
    ∧ (∀ key v, get key s' = Some v →
         get key s = Some v ∨ (v = VBool true ∧ key ∈ reprompted_markers))
    ∧ risks_table (db s') = risks_table (db s)
    ∧ additional_mitigations_table (db s') = additional_mitigations_table (db s).
Proof.
  unfold handle_back, toggle_subscription, start, submit_risk_start, select_view_phase,
    with_query.
  repeat case_match; simplify_eq; (eexists; split; [reflexivity |]);
    (split; [| by split]);
    intros key v Hget; unfold get in *; cbn [user_data set emit pop with_db] in Hget;
    repeat first [ apply lookup_insert_Some in Hget as [[<- <-] | [_ Hget]]
                 | apply lookup_delete_Some in Hget as [_ Hget] ];
    first [ by left | right; split; [done | unfold reprompted_markers; in_list] ].
Qed.

(** ** A submission from the first button to the stored record *)

Lemma handle_custom_probability_accepts u text s p :
  truthy (get "awaiting_custom_probability" s) = true →
  py_int text = Some p → 0 ≤ p ≤ 100 →
  handle_custom_probability (Message u text) s
  = Returned (set "awaiting_timeline" (VBool true)
                (emit (reply_text "Укажите примерный период реализации риска:"
                         (Some (create_back_keyboard "back_to_probability")))
                   (set "awaiting_custom_probability" (VBool false)
                      (set "probability" (VInt p) s)))).
Proof.
  intros Haw Hint Hp. unfold handle_custom_probability, with_message.
  rewrite Haw, Hint. simpl.
  destruct (Z.ltb_spec p 0); [lia |]. destruct (Z.gtb_spec p 100); [lia |]. done.
Qed.

Lemma choose_phase_data u phase s :
  choose_phase (CallbackQuery u ("phase_" +:+ phase)) s
  = Returned (emit (edit_message_text
                      ("Фаза: " +:+ phase +:+ nl +:+ "Выберите объект или введите свой:")
                      (Some object_keyboard))
                (set "phase" (VStr phase) (emit (answer None) s))).
Proof. reflexivity. Qed.

Lemma choose_object_data u obj s :
  choose_object (CallbackQuery u ("object_" +:+ obj)) s
  = Returned (emit (edit_message_text
                      ("Объект: " +:+ obj +:+ nl
                       +:+ "Выберите функциональное направление риска или введите свой:")
                      (Some category_keyboard))
                (set "object" (VStr obj) (emit (answer None) s))).
Proof. reflexivity. Qed.

Lemma choose_category_data u cat s :
  choose_category (CallbackQuery u ("cat_" +:+ cat)) s
  = Returned (set "awaiting_description" (VBool true)
                (emit (edit_message_text ("Категория: " +:+ cat +:+ nl +:+ "Опишите риск:")
                         (Some (create_back_keyboard "back_to_category_selection")))
                   (set "category" (VStr cat) (emit (answer None) s)))).
Proof. reflexivity. Qed.

Lemma handle_expected_result_commits env u text s :
  truthy (get "awaiting_expected_result" s) = true →
  py_eq_int (get_default "reevaluation_needed" (VInt 0) s) 1 = false →
  handle_expected_result env (Message u text) s
  = save_risk env (Message u text)
      (set "awaiting_expected_result" (VBool false)
         (set "expected_result" (VStr text) s)).
Proof.
  intros Haw Hre. unfold handle_expected_result, with_message. rewrite Haw. cbv zeta.
  rewrite !get_default_set_ne by done. by rewrite Hre.
Qed.

(** Symbolic run of a list of steps: the state reached so far is given a
    name, the awaiting markers it holds are computed, and the step that
    comes next is unfolded on it. *)
Ltac name_state :=
  match goal with
  | |- context [and_then (Returned ?s) _] =>
      let st := fresh "st" in set (st := s); cbn [and_then]
  end.

Ltac eval_flags :=
  repeat match goal with
         | |- context [truthy (get ?key ?s)] =>
             let b := eval vm_compute in (truthy (get key s)) in
             replace (truthy (get key s)) with b by (vm_cast_no_check (eq_refl b))
         end.

Ltac button h := unfold h at 1, with_query; cbv beta iota zeta; name_state.

Ltac text :=
  unfold handle_text at 1; cbv beta zeta; eval_flags; cbv iota.

Ltac text_of h :=
  text; unfold h at 1, with_message; eval_flags; cbv beta iota zeta delta [negb];
  name_state.

(** X5. A submission without re-evaluation, run from an empty draft through
    the handlers the bot dispatches to: phase, object and category chosen
    by button, the description typed, the schedule impact left to the
    experts, the cost impact typed as an ordered triple, the probability
    typed as a percentage, then timeline, mitigation and expected result.
    When the insert is accepted, the run ends normally and appends exactly
    one record to the risks table, with the next id, the user's id and
    name, every field as it was entered, the schedule triple 0/0/0 flagged
    for expert evaluation, no re-evaluation, the score computed from the
    most likely cost, a schedule of 0 and the probability, and the clock's
    timestamp. *)
Theorem submission_commits_what_was_entered env u phase object category description
    cost_text probability_text timeline mitigation expected_result d o a b c p :
  insert_ok env = true →
  parse_three_values cost_text = inr (a, b, c) → a ≤ b ≤ c →
  py_int probability_text = Some p → 0 ≤ p ≤ 100 →
  ∃ s' r,
    run (submission env u phase object category description cost_text probability_text
           timeline mitigation expected_result) (fresh d o) = Returned s'
    ∧ risks_table (db s') = risks_table d ++ [r]
    ∧ risks.id r = risks_seq d + 1
    ∧ risks.user_id r = User.id u
    ∧ risks.username r = username_or_full_name u
    ∧ risks.phase r = Some (VStr phase)
    ∧ risks.object r = Some (VStr object)
    ∧ risks.category r = Some (VStr category)
    ∧ risks.description r = Some (VStr description)
    ∧ (risks.impact_schedule_min r, risks.impact_schedule_most_likely r,
       risks.impact_schedule_max r) = (VInt 0, VInt 0, VInt 0)
    ∧ risks.needs_schedule_evaluation r = VInt 1
    ∧ (risks.impact_cost_min r, risks.impact_cost_most_likely r, risks.impact_cost_max r)
      = (VInt a, VInt b, VInt c)
    ∧ risks.needs_cost_evaluation r = VInt 0
    ∧ risks.probability r = VInt p
    ∧ risks.timeline r = Some (VStr timeline)
    ∧ risks.mitigation r = Some (VStr mitigation)
    ∧ risks.expected_result r = Some (VStr expected_result)
    ∧ risks.reevaluation_needed r = VInt 0
    ∧ risks.risk_score r
      = get_cost_score b + get_schedule_score 0 + get_probability_score p
    ∧ risks.timestamp r = now_isoformat env.
Proof.
  intros Hok Hparse Horder Hint Hp.
  unfold submission, run, fresh. cbn [foldl]. name_state.
  button submit_risk_start.
  rewrite choose_phase_data; name_state.
  rewrite choose_object_data; name_state.
  rewrite choose_category_data; name_state.
  text_of get_description.
  button request_schedule_evaluation.
  button evaluate_cost_impact.
  text. unfold handle_cost_values.
  rewrite handle_values_cases by (vm_cast_no_check (eq_refl true)).
  rewrite Hparse, decide_True by done. name_state.
  button custom_probability_request.
  text. rewrite (handle_custom_probability_accepts _ _ _ p)
    by (done || vm_cast_no_check (eq_refl true)).
  name_state.
  text_of handle_timeline.
  button add_mitigation_without_evaluation.
  text_of handle_mitigation.
  text. rewrite handle_expected_result_commits by (by vm_compute).
  match goal with |- context [save_risk env ?update ?s] =>
    destruct (save_risk_shape env update s)
      as [[(key & Hkey & Hnone) _]
         | (cost & schedule & prob & s' & Hc & Hs & Hpr
            & [(Hfail & _) | (_ & E & Hrows)] & _)]
  end.
  - unfold scored_keys in Hkey.
    repeat (apply elem_of_cons in Hkey as [-> | Hkey]; [by vm_compute in Hnone |]).
    by apply elem_of_nil in Hkey.
  - congruence.
  - vm_compute in Hc, Hs, Hpr.
    injection Hc as <-. injection Hs as <-. injection Hpr as <-.
    eexists _, _. split; [exact E |]. split; [exact Hrows |].
    split_and!; vm_compute; reflexivity.
Qed.

Lemma submission_commits_what_was_entered_witness :
  ∃ s' r,
    run (submission env0 alice "3" "Скважины" "Бурение" "test" "100 300 900" "80" "2025"
           "m" "e") (fresh empty_database []) = Returned s'
    ∧ risks_table (db s') = [r]
    ∧ risks.id r = 1
    ∧ (risks.impact_cost_min r, risks.impact_cost_most_likely r, risks.impact_cost_max r)
      = (VInt 100, VInt 300, VInt 900)
    ∧ risks.probability r = VInt 80
    ∧ risks.risk_score r = 9.
Proof.
  destruct (submission_commits_what_was_entered env0 alice "3" "Скважины" "Бурение" "test"
              "100 300 900" "80" "2025" "m" "e" empty_database [] 100 300 900 80)
    as (s' & r & Hrun & Hrows & Hid & _ & _ & _ & _ & _ & _ & _ & _ & Hcost & _ & Hprob
        & _ & _ & _ & _ & Hscore & _);
    [reflexivity | by vm_compute | lia | by vm_compute | lia |].
  exists s', r. split_and!; done.
Defined.
